(** * cloudify-vsphere-plugin: the server lifecycle and network reconciliation
      operations of [vsphere_server_plugin/server.py], embedded in Rocq.

    - Python values are a small sum type with Python's truthiness and [==];
      strings are [string]s; a [dict] is an association list in insertion
      order (unique keys are a hypothesis where a proof needs them).
    - [ctx] is a record: the instance id, its runtime properties, the targets
      of its [server_connected_to_nic] relationships, the node properties,
      the clock, the UUID generator and the logger.  An operation is a
      function from [ctx] to a value and a new [ctx], or to an exception
      ([NonRecoverableError], [OperationRetry], or a Python error such as
      [KeyError]).
    - [server_client] is a record of the calls the operations make on the
      vSphere client; the helpers of [vsphere_plugin_common] are a record of
      parameters as well.
    - Operations keep the names and the argument order of the source. *)

From Stdlib Require Import String Ascii ZArith List Bool Lia.
Import ListNotations.
Open Scope string_scope.
Open Scope Z_scope.

(** ** Python values *)

Module Py.

(** The scalar values that node properties and runtime properties hold. *)
Inductive pyval : Type :=
| PNone
| PBool (b : bool)
| PInt (z : Z)
| PStr (s : string).

(** [bool(v)] *)
Definition truthy (v : pyval) : bool :=
  match v with
  | PNone => false
  | PBool b => b
  | PInt z => negb (z =? 0)
  | PStr s => negb (s =? "")%string
  end.

Definition Z_of_bool (b : bool) : Z := if b then 1 else 0.

(** [a == b]; [bool] is a subclass of [int], so [True == 1]. *)
Definition py_eqb (a b : pyval) : bool :=
  match a, b with
  | PNone, PNone => true
  | PBool x, PBool y => Bool.eqb x y
  | PInt x, PInt y => x =? y
  | PBool x, PInt y => Z_of_bool x =? y
  | PInt x, PBool y => x =? Z_of_bool y
  | PStr x, PStr y => (x =? y)%string
  | _, _ => false
  end.

(** The two classes [validate_connect_network] tests with [isinstance]. *)
Inductive pytype : Type := text_type | bool_type.

Definition pytype_eqb (a b : pytype) : bool :=
  match a, b with
  | text_type, text_type | bool_type, bool_type => true
  | _, _ => false
  end.

Definition isinstance (v : pyval) (t : pytype) : bool :=
  match v, t with
  | PStr _, text_type => true
  | PBool _, bool_type => true
  | _, _ => false
  end.

(** [x or y] on optional strings ([None] and [""] are falsy). *)
Definition str_truthy (o : option string) : bool :=
  match o with
  | Some s => negb (s =? "")%string
  | None => false
  end.

Definition or_else (a b : option string) : option string :=
  if str_truthy a then a else b.

(** [bool(n)] for an optional integer ([None] and [0] are falsy). *)
Definition int_truthy (o : option Z) : bool :=
  match o with
  | Some z => negb (z =? 0)
  | None => false
  end.

(** *** Dictionaries: association lists in insertion order *)

Section Dict.
Context {V : Type}.

Definition dict_of := list (string * V).

(** [d.get(k)] as an option; [None] is "key absent". *)
Fixpoint lookup (d : dict_of) (k : string) : option V :=
  match d with
  | [] => None
  | (k', v) :: d' => if (k' =? k)%string then Some v else lookup d' k
  end.

(** [d[k] = v]: overwrite in place, or append a new key. *)
Fixpoint setitem (d : dict_of) (k : string) (v : V) : dict_of :=
  match d with
  | [] => [(k, v)]
  | (k', v') :: d' =>
      if (k' =? k)%string then (k', v) :: d' else (k', v') :: setitem d' k v
  end.

(** [del d[k]] *)
Fixpoint delitem (d : dict_of) (k : string) : dict_of :=
  match d with
  | [] => []
  | (k', v') :: d' =>
      if (k' =? k)%string then delitem d' k else (k', v') :: delitem d' k
  end.

(** [d.pop(k)]: [None] stands for [KeyError]. *)
Definition pop (d : dict_of) (k : string) : option (V * dict_of) :=
  match lookup d k with
  | Some v => Some (v, delitem d k)
  | None => None
  end.

(** [d.update(e)] *)
Definition update (d e : dict_of) : dict_of :=
  fold_left (fun acc kv => setitem acc (fst kv) (snd kv)) e d.

Definition keys (d : dict_of) : list string := map fst d.
End Dict.

Definition dict := @dict_of pyval.

(** [d.get(k, default)] *)
Definition get (d : dict) (k : string) (default : pyval) : pyval :=
  match lookup d k with
  | Some v => v
  | None => default
  end.

End Py.
Export Py.

(** ** The vSphere side: what the client hands back *)

Module VSphere.

(** The output of [json.loads(json.dumps(obj, cls=VmomiJSONEncoder))]. *)
#[warnings="-register-all"]
Inductive json : Type :=
| JVal (v : pyval)
| JArr (l : list json)
| JObj (l : list (string * json)).

(** One entry of [server_obj.guest.net]. *)
Record guest_nic : Type := GuestNic {
  nic_network : option string;
  nic_ipAddress : list string
}.

(** One entry of [server_obj.config.hardware.device]; only
    [vim.vm.device.VirtualEthernetCard] instances carry a MAC address. *)
Inductive device : Type :=
| VirtualEthernetCard (key : Z) (macAddress : string)
| OtherDevice (key : Z).

Record server_obj : Type := ServerObj {
  so_id : string;
  so_name : string;
  so_guest_net : list guest_nic;
  so_device : list device;
  so_network : json;
  so_summary_config : list (string * json);
  (** [summary.guest.ipAddress]; the outer [None] is a missing
      [summary.guest] (reading it raises [AttributeError]). *)
  so_summary_guest_ipAddress : option (option string)
}.

(** [vim.vm.device.VirtualDeviceSpec] as [update] builds them. *)
Inductive device_spec : Type :=
| remove (nic : device)
| add (network : dict) (index : Z).

End VSphere.
Export VSphere.

(** ** The Cloudify side: [ctx], exceptions, logging *)

Module Cloudify.

(** [node.properties['server']] *)
Record server_props : Type := ServerProps {
  srv_name : option string;
  srv_add_scale_suffix : option bool;
  srv_cpus : option Z;
  srv_memory : option Z
}.

(** [node.properties['networking']]; [None] in [connect_networks] is an
    absent key. *)
Record networking_props : Type := Networking {
  connect_networks : option (list dict)
}.

(** What a format string is filled with. *)
Inductive arg : Type :=
| AStr (s : string)
| AOptStr (o : option string)
| AInt (z : Z)
| AVal (v : pyval)
| AType (t : pytype)
| ADict (d : dict)
| ADicts (ds : list dict)
| AVals (vs : list pyval)
| AServer (s : server_props)
| ANetworking (n : networking_props)
| AGuest (g : list guest_nic)
| AJson (j : json).

(** A format string and the arguments of its [format] call. *)
Record message : Type := Msg { template : string; args : list arg }.

Inductive py_error : Type := KeyError | TypeError | AttributeError | ValueError.

(** [NonRecoverableError] carries the fragments of its text: one for a
    plain message, the whole list for [text_type(validation_error_messages)]. *)
Inductive exn : Type :=
| NonRecoverableError (text : list message)
| OperationRetry (text : message)
| PyError (e : py_error).

Inductive level : Type := debug | info | warn.

Record expected_configuration : Type := ExpectedConfiguration {
  ec_network : json;
  ec_summary : @dict_of json
}.

(** [ctx.instance.runtime_properties]; [None] is an absent key (for [ip] and
    [public_ip] also a stored [None]). *)
Record runtime_properties : Type := RuntimeProperties {
  rp_name : option string;
  rp_vsphere_server_id : option string;
  rp_resource_external : option bool;
  rp_connected_nics : option (list string);
  rp_networks : option (list dict);
  rp_ip : option string;
  rp_public_ip : option string;
  rp_cpus : option Z;
  rp_memory : option Z;
  rp_expected_configuration : option expected_configuration;
  rp_min_wait_time_start : option Z;
  rp_spec_update : option bool;
  rp_network_update : option bool
}.

(** The target of a [server_connected_to_nic] relationship:
    [rel_nic.target.instance]. *)
Record rel_nic : Type := RelNic {
  target_id : string;
  target_connected_network : option dict;
  target_name : pyval
}.

Record node_properties : Type := NodeProperties {
  np_server : option server_props;
  np_networking : option networking_props;
  np_enable_start_vm : option bool
}.

Record ctx : Type := Ctx {
  instance_id : string;
  runtime : runtime_properties;
  (** [find_rels_by_type(ctx.instance, RELATIONSHIP_VM_TO_NIC)] *)
  nics_from_rels : list rel_nic;
  node : node_properties;
  (** [time.time()], in seconds *)
  clock : Z;
  (** [uuid.uuid4()]: the values the generator hands out, in order *)
  uuids : nat -> N;
  uuid_count : nat;
  logger : list (level * message)
}.

(** *** The monad of an operation: [ctx] in, a value and [ctx] out, or an
    exception *)

Inductive outcome (A : Type) : Type :=
| Returns (a : A) (c : ctx)
| Raises (e : exn).
Arguments Returns {A} a c.
Arguments Raises {A} e.

Definition M (A : Type) : Type := ctx -> outcome A.

Definition ret {A} (a : A) : M A := fun c => Returns a c.

Definition bind {A B} (m : M A) (k : A -> M B) : M B :=
  fun c => match m c with
           | Returns a c' => k a c'
           | Raises e => Raises e
           end.

Definition raise {A} (e : exn) : M A := fun _ => Raises e.

Definition get_runtime : M runtime_properties := fun c => Returns (runtime c) c.

Definition set_runtime (f : runtime_properties -> runtime_properties) : M unit :=
  fun c => Returns tt
    (Ctx (instance_id c) (f (runtime c)) (nics_from_rels c) (node c) (clock c)
         (uuids c) (uuid_count c) (logger c)).

Definition log (l : level) (t : string) (a : list arg) : M unit :=
  fun c => Returns tt
    (Ctx (instance_id c) (runtime c) (nics_from_rels c) (node c) (clock c)
         (uuids c) (uuid_count c) (logger c ++ [(l, Msg t a)])).

Definition uuid4 : M N :=
  fun c => Returns (uuids c (uuid_count c))
    (Ctx (instance_id c) (runtime c) (nics_from_rels c) (node c) (clock c)
         (uuids c) (S (uuid_count c)) (logger c)).

Definition ask : M ctx := fun c => Returns c c.

(** A pure computation that may raise, run inside an operation. *)
Definition lift {A} (r : exn + A) : M A :=
  fun c => match r with inl e => Raises e | inr a => Returns a c end.

(** A client call that returns nothing and may raise. *)
Definition call (r : option exn) : M unit :=
  fun c => match r with Some e => Raises e | None => Returns tt c end.

(** [d[k]] on a key that may be missing. *)
Definition getitem {V} (d : @dict_of V) (k : string) : exn + V :=
  match lookup d k with
  | Some v => inr v
  | None => inl (PyError KeyError)
  end.

(** [for x in l: s = body(x, s)], leaving the loop on the first exception. *)
Fixpoint for_each {A S} (l : list A) (body : A -> S -> M S) (s : S) : M S :=
  match l with
  | [] => ret s
  | x :: l' => bind (body x s) (for_each l' body)
  end.

(** The same loop for a body that does not touch [ctx]. *)
Fixpoint for_pure {A S} (l : list A) (body : A -> S -> exn + S) (s : S) : exn + S :=
  match l with
  | [] => inr s
  | x :: l' => match body x s with
               | inr s' => for_pure l' body s'
               | inl e => inl e
               end
  end.

End Cloudify.
Export Cloudify.

Declare Scope op_scope.
Delimit Scope op_scope with op.
Notation "x <- m ;; k" := (bind m (fun x => k))
  (at level 61, m at next level, right associativity) : op_scope.
Notation "m ;; k" := (bind m (fun _ => k))
  (at level 61, right associativity) : op_scope.
Open Scope op_scope.

(** ** [vsphere_server_plugin/server.py] *)

Module Server.

(** Setters for the runtime properties the operations assign. *)
Definition with_connected_nics (v : option (list string)) (r : runtime_properties) :=
  RuntimeProperties (rp_name r) (rp_vsphere_server_id r) (rp_resource_external r)
    v (rp_networks r) (rp_ip r) (rp_public_ip r) (rp_cpus r) (rp_memory r)
    (rp_expected_configuration r) (rp_min_wait_time_start r) (rp_spec_update r)
    (rp_network_update r).

Definition with_networks (v : option (list dict)) (r : runtime_properties) :=
  RuntimeProperties (rp_name r) (rp_vsphere_server_id r) (rp_resource_external r)
    (rp_connected_nics r) v (rp_ip r) (rp_public_ip r) (rp_cpus r) (rp_memory r)
    (rp_expected_configuration r) (rp_min_wait_time_start r) (rp_spec_update r)
    (rp_network_update r).

Definition with_ip (v : option string) (r : runtime_properties) :=
  RuntimeProperties (rp_name r) (rp_vsphere_server_id r) (rp_resource_external r)
    (rp_connected_nics r) (rp_networks r) v (rp_public_ip r) (rp_cpus r) (rp_memory r)
    (rp_expected_configuration r) (rp_min_wait_time_start r) (rp_spec_update r)
    (rp_network_update r).

Definition with_public_ip (v : option string) (r : runtime_properties) :=
  RuntimeProperties (rp_name r) (rp_vsphere_server_id r) (rp_resource_external r)
    (rp_connected_nics r) (rp_networks r) (rp_ip r) v (rp_cpus r) (rp_memory r)
    (rp_expected_configuration r) (rp_min_wait_time_start r) (rp_spec_update r)
    (rp_network_update r).

Definition with_cpus (v : option Z) (r : runtime_properties) :=
  RuntimeProperties (rp_name r) (rp_vsphere_server_id r) (rp_resource_external r)
    (rp_connected_nics r) (rp_networks r) (rp_ip r) (rp_public_ip r) v (rp_memory r)
    (rp_expected_configuration r) (rp_min_wait_time_start r) (rp_spec_update r)
    (rp_network_update r).

Definition with_memory (v : option Z) (r : runtime_properties) :=
  RuntimeProperties (rp_name r) (rp_vsphere_server_id r) (rp_resource_external r)
    (rp_connected_nics r) (rp_networks r) (rp_ip r) (rp_public_ip r) (rp_cpus r) v
    (rp_expected_configuration r) (rp_min_wait_time_start r) (rp_spec_update r)
    (rp_network_update r).

Definition with_expected_configuration (v : option expected_configuration)
    (r : runtime_properties) :=
  RuntimeProperties (rp_name r) (rp_vsphere_server_id r) (rp_resource_external r)
    (rp_connected_nics r) (rp_networks r) (rp_ip r) (rp_public_ip r) (rp_cpus r)
    (rp_memory r) v (rp_min_wait_time_start r) (rp_spec_update r)
    (rp_network_update r).

Definition with_min_wait_time_start (v : option Z) (r : runtime_properties) :=
  RuntimeProperties (rp_name r) (rp_vsphere_server_id r) (rp_resource_external r)
    (rp_connected_nics r) (rp_networks r) (rp_ip r) (rp_public_ip r) (rp_cpus r)
    (rp_memory r) (rp_expected_configuration r) v (rp_spec_update r)
    (rp_network_update r).

Definition with_spec_update (v : option bool) (r : runtime_properties) :=
  RuntimeProperties (rp_name r) (rp_vsphere_server_id r) (rp_resource_external r)
    (rp_connected_nics r) (rp_networks r) (rp_ip r) (rp_public_ip r) (rp_cpus r)
    (rp_memory r) (rp_expected_configuration r) (rp_min_wait_time_start r) v
    (rp_network_update r).

Definition with_network_update (v : option bool) (r : runtime_properties) :=
  RuntimeProperties (rp_name r) (rp_vsphere_server_id r) (rp_resource_external r)
    (rp_connected_nics r) (rp_networks r) (rp_ip r) (rp_public_ip r) (rp_cpus r)
    (rp_memory r) (rp_expected_configuration r) (rp_min_wait_time_start r)
    (rp_spec_update r) v.

Definition RELATIONSHIP_VM_TO_NIC : string :=
  "cloudify.relationships.vsphere.server_connected_to_nic".

Definition dquote : string := String "034"%char EmptyString.

(** *** get_connected_networks *)

(** The inner loop: [for prop_nic in nics_from_props], merging in place. *)
Fixpoint merge_prop_nics (_connect_network : dict) (nics_from_props : list dict)
  : exn + list dict :=
  match nics_from_props with
  | [] => inr []
  | prop_nic :: rest =>
      match getitem _connect_network "name", getitem prop_nic "name" with
      | inl e, _ | inr _, inl e => inl e
      | inr cn_name, inr prop_name =>
          let prop_nic' :=
            if py_eqb cn_name prop_name
               && truthy (get prop_nic "from_relationship" PNone)
            then update prop_nic _connect_network
            else prop_nic in
          match merge_prop_nics _connect_network rest with
          | inr rest' => inr (prop_nic' :: rest')
          | inl e => inl e
          end
      end
  end.

Definition get_connected_networks (nics_from_props : list dict) : M (list dict) :=
  rp <- get_runtime ;;
  match rp_connected_nics rp with
  | None => set_runtime (with_connected_nics (Some []))
  | Some _ => ret tt
  end ;;
  c <- ask ;;
  for_each (nics_from_rels c)
    (fun rel_nic nics_from_props =>
       match target_connected_network rel_nic with
       | None | Some [] =>
           raise (NonRecoverableError
             [Msg ("No " ++ dquote ++ "connect_network" ++ dquote
                   ++ " specification for nic {0}.")
                  [AStr (target_id rel_nic)]])
       | Some _connect_network =>
           let connected_network_name :=
             get _connect_network "name" (target_name rel_nic) in
           if negb (truthy connected_network_name) then
             raise (NonRecoverableError
               [Msg "No network name specified for nic {0}."
                    [AStr (target_id rel_nic)]])
           else
             let _connect_network :=
               setitem _connect_network "name" connected_network_name in
             nics_from_props <- lift (merge_prop_nics _connect_network nics_from_props) ;;
             set_runtime (fun r =>
               with_connected_nics
                 (Some (match rp_connected_nics r with
                        | Some l => l
                        | None => []
                        end ++ [target_id rel_nic])%list) r) ;;
             ret (nics_from_props ++ [_connect_network])%list
       end)
    nics_from_props.

(** *** validate_connect_network *)

Definition network_validations : @dict_of (pytype * pyval) :=
  [ ("name", (text_type, PNone));
    ("from_relationship", (bool_type, PBool false));
    ("external", (bool_type, PBool false));
    ("management", (bool_type, PBool false));
    ("switch_distributed", (bool_type, PBool false));
    ("nsx_t_switch", (bool_type, PBool false));
    ("use_dhcp", (bool_type, PBool true));
    ("network", (text_type, PNone));
    ("gateway", (text_type, PNone));
    ("ip", (text_type, PNone)) ].

Definition msg_header : message := Msg "Network failed validation: " [].
Definition msg_both_switches : message :=
  Msg "Cannot specify both switch_distributed & nsx_t_switch at the same time" [].
Definition msg_no_name : message :=
  Msg "All networks connected to a server must have a name specified." [].
Definition msg_unsupported_key (key : string) (value : pyval) : message :=
  Msg "Network has unsupported key: {0}. Value: {1}" [AStr key; AVal value].
Definition msg_unsupported_type (key : string) (t : pytype) (value : pyval) : message :=
  Msg "Network Key {0} has unsupported type: {1}. Value: {2}"
      [AStr key; AType t; AVal value].

(** The local variables of [validate_connect_network]. *)
Record charges : Type := Charges {
  validation_error : bool;
  validation_error_messages : list message;
  validations : @dict_of (pytype * pyval);
  _network : dict
}.

(** One turn of [for key, value in list(_network.items())].  Where the
    source reads [_network[key]] the entry still holds [value]: keys are
    unique and only the branch that leaves the turn assigns it. *)
Definition review (kv : string * pyval) (s : charges) : charges :=
  let key := fst kv in
  let value := snd kv in
  match pop (validations s) key with
  | None =>
      Charges true
        (validation_error_messages s ++ [msg_unsupported_key key value])
        (validations s) (_network s)
  | Some ((expected_type, default_value), remaining) =>
      if negb (truthy value) && negb (pytype_eqb expected_type bool_type) then
        Charges (validation_error s) (validation_error_messages s) remaining
          (setitem (_network s) key default_value)
      else if negb (isinstance value expected_type) then
        Charges true
          (validation_error_messages s ++ [msg_unsupported_type key expected_type value])
          remaining (_network s)
      else
        Charges (validation_error s) (validation_error_messages s) remaining
          (_network s)
  end.

Definition validate_connect_network (_network : dict) : exn + dict :=
  let s0 := Charges false [msg_header] network_validations _network in
  let s1 :=
    if truthy (get _network "switch_distributed" PNone)
       && truthy (get _network "nsx_t_switch" PNone)
    then Charges true (validation_error_messages s0 ++ [msg_both_switches])
           (validations s0) _network
    else s0 in
  let s2 :=
    if negb (truthy (get _network "name" PNone))
    then Charges true (validation_error_messages s1 ++ [msg_no_name])
           (delitem (validations s1) "name") _network
    else s1 in
  let s3 := fold_left (fun s kv => review kv s) _network s2 in
  if validation_error s3 then
    inl (NonRecoverableError (validation_error_messages s3))
  else
    inr (fold_left (fun n kv => setitem n (fst kv) (snd (snd kv)))
           (validations s3) (Server._network s3)).

(** *** handle_networks *)

Definition err_msg (which : string) : message :=
  Msg "No more than one %s network can be specified." [AStr which].

Definition flagged (key : string) (n : dict) : bool :=
  truthy (get n key (PBool false)).

Definition handle_networks (networking_parameters : networking_props) : M (list dict) :=
  connect_networks <- get_connected_networks
    (match connect_networks networking_parameters with
     | Some l => l
     | None => []
     end) ;;
  log debug "Network properties: {properties} {connect_networks}"
    [ANetworking networking_parameters; ADicts connect_networks] ;;
  match connect_networks with
  | [] => ret connect_networks
  | _ =>
      (if (1 <? length (filter (flagged "external") connect_networks))%nat
       then raise (NonRecoverableError [err_msg "external"])
       else ret tt) ;;
      (if (1 <? length (filter (flagged "management") connect_networks))%nat
       then raise (NonRecoverableError [err_msg "management"])
       else ret tt) ;;
      for_each connect_networks
        (fun network reordered_networks =>
           log info "connected_network: {0}" [ADict network] ;;
           network <- lift (validate_connect_network network) ;;
           external <- lift (getitem network "external") ;;
           if truthy external
           then ret (network :: reordered_networks)
           else ret (reordered_networks ++ [network])%list)
        []
  end.

(** *** validate_vm_name, get_vm_name *)

Definition between (lo hi : nat) (c : ascii) : bool :=
  let n := nat_of_ascii c in ((lo <=? n) && (n <=? hi))%nat.

(** A character of the class [A-Za-z0-9\-]. *)
Definition name_char (c : ascii) : bool :=
  between 65 90 c || between 97 122 c || between 48 57 c || (c =? "-")%char.

(** [re.compile(r'[^A-Za-z0-9\-]').search]: is there a character outside
    the class? *)
Fixpoint search (s : string) : bool :=
  match s with
  | EmptyString => false
  | String c s' => negb (name_char c) || search s'
  end.

Definition validate_vm_name (vm_name : string) : exn + unit :=
  if search vm_name then
    inl (NonRecoverableError
      [Msg ("Computer name must contain only A-Z, a-z, 0-9, and hyphens ("
            ++ dquote ++ "-" ++ dquote
            ++ "), and must not consist entirely of numbers. "
            ++ dquote ++ "{name}" ++ dquote ++ " was not valid.")
           [AStr vm_name]])
  else inr tt.

(** [s.rsplit('_', 1)] unpacked into two names; [None] when there is no
    underscore (the unpacking raises [ValueError]). *)
Fixpoint rsplit_underscore (s : string) : option (string * string) :=
  match s with
  | EmptyString => None
  | String c s' =>
      match rsplit_underscore s' with
      | Some (a, b) => Some (String c a, b)
      | None => if (c =? "_")%char then Some (EmptyString, s') else None
      end
  end.

Definition lower_char (c : ascii) : ascii :=
  if between 65 90 c then ascii_of_nat (nat_of_ascii c + 32) else c.

Fixpoint lower (s : string) : string :=
  match s with
  | EmptyString => EmptyString
  | String c s' => String (lower_char c) (lower s')
  end.

(** [s[:n]]; a negative [n] counts from the end. *)
Definition slice_to (s : string) (n : Z) : string :=
  let stop := if n <? 0 then Z.max 0 (Z.of_nat (String.length s) + n) else n in
  substring 0 (Z.to_nat stop) s.

(** ['_' in s] *)
Fixpoint has_underscore (s : string) : bool :=
  match s with
  | EmptyString => false
  | String c s' => (c =? "_")%char || has_underscore s'
  end.

(** [s.replace('_', '-')] *)
Fixpoint replace_underscores (s : string) : string :=
  match s with
  | EmptyString => EmptyString
  | String c s' =>
      String (if (c =? "_")%char then "-"%char else c) (replace_underscores s')
  end.

Definition get_vm_name (server : server_props) (os_family : string) : M string :=
  log debug "Server properties: {properties}" [AServer server] ;;
  rp <- get_runtime ;;
  match rp_name rp with
  | Some vm_name => ret vm_name
  | None =>
      let configured_name := srv_name server in
      let add_scale_suffix :=
        match srv_add_scale_suffix server with Some b => b | None => true end in
      match configured_name, add_scale_suffix with
      | Some name, false => ret name
      | _, _ =>
          c <- ask ;;
          match rsplit_underscore (instance_id c) with
          | None => raise (PyError ValueError)
          | Some (instance_name, id_suffix) =>
              let name_prefix :=
                if str_truthy configured_name
                then match configured_name with Some n => n | None => instance_name end
                else instance_name in
              let name_prefix :=
                if (lower os_family =? "windows")%string then
                  let max_prefix := 14 - (Z.of_nat (String.length id_suffix) + 1) in
                  slice_to name_prefix max_prefix
                else name_prefix in
              let vm_name := name_prefix ++ "-" ++ id_suffix in
              vm_name <-
                (if has_underscore vm_name then
                   let orig := vm_name in
                   let vm_name := replace_underscores vm_name in
                   log warn
                     "Changing all _ to - in VM name. Name changed from {orig} to {new}."
                     [AStr orig; AStr vm_name] ;;
                   ret vm_name
                 else ret vm_name) ;;
              lift (validate_vm_name vm_name) ;;
              log info "Creating new server with name: {name}" [AStr vm_name] ;;
              ret vm_name
          end
      end
  end.

(** *** The collaborators *)

(** The calls made on [server_client].  Look-ups return [None] when nothing
    is found; calls that act on the platform return the exception they
    raise, if any. *)
Record server_client : Type := ServerClient {
  get_server_by_id : string -> option server_obj;
  get_server_by_name : string -> option server_obj;
  is_server_guest_running : server_obj -> bool;
  get_server_ip : server_obj -> pyval -> option string;
  stop_server : server_obj -> Z -> option exn;
  delete_server : server_obj -> Z -> option exn;
  (** [resize_server(server_obj, cpus, memory, max_wait_time)]; a missing
      [max_wait_time] leaves the client's default *)
  client_resize_server : server_obj -> option Z -> option Z -> option Z -> option exn;
  _get_connected_network_name : dict -> exn + pyval;
  _add_network : dict -> Z -> option exn;
  (** [server_obj.obj.ReconfigVM_Task(spec)] followed by [_wait_for_task] *)
  ReconfigVM_Task : server_obj -> list device_spec -> option exn
}.

(** An element of [existing_networks] in [check_drift]: a persisted name,
    or the [uuid.uuid4()] standing for a device nobody declared. *)
Inductive attached : Type :=
| known (name : pyval)
| unknown (uuid : N).

(** The helpers imported from [vsphere_plugin_common], a package that is
    not embedded here: they are parameters of the operations.  The drift
    helper is given by the truth value of the diff it returns. *)
Record plugin_common : Type := PluginCommon {
  get_ip_from_vsphere_nic_ips : guest_nic -> option string;
  utils_check_drift_networks : list attached -> list pyval -> bool;
  utils_check_drift_configuration :
    option expected_configuration -> expected_configuration -> bool
}.

(** *** get_server_by_context *)

Definition get_server_by_context (client : server_client) (server : server_props)
    (os_family : string) : M (option server_obj) :=
  log info "Performing look-up for server." [] ;;
  rp <- get_runtime ;;
  match rp_vsphere_server_id rp with
  | Some id => ret (get_server_by_id client id)
  | None =>
      if negb (os_family =? "")%string then
        vm_name <- get_vm_name server os_family ;;
        ret (get_server_by_name client vm_name)
      else
        raise (NonRecoverableError
          [Msg "os_family must be provided if the VM might not exist" []])
  end.

(** *** stop, delete *)

Definition flag (o : option bool) : bool :=
  match o with Some b => b | None => false end.

Definition stop (client : server_client) (server : server_props)
    (os_family : string) (force_stop : bool) (max_wait_time : Z) : M unit :=
  rp <- get_runtime ;;
  let existing_resource := rp_resource_external rp in
  if flag existing_resource && negb force_stop then
    log warn
      "Not stopping because use_external_resource is True and force_stop is False." []
  else
    (if force_stop then log warn "The parameter force_stop is True." [] else ret tt) ;;
    server_obj <- get_server_by_context client server os_family ;;
    match server_obj with
    | None =>
        rp <- get_runtime ;;
        c <- ask ;;
        if str_truthy (rp_vsphere_server_id rp) then
          raise (NonRecoverableError
            [Msg "Cannot stop server - server doesn't exist for node: {0}"
                 [AStr (instance_id c)]])
        else ret tt
    | Some server_obj =>
        vm_name <- get_vm_name server os_family ;;
        log info "Stopping server {name}" [AStr vm_name] ;;
        call (stop_server client server_obj max_wait_time) ;;
        log info "Stopped server {name}" [AStr vm_name]
    end.

Definition delete (client : server_client) (server : server_props)
    (os_family : string) (force_delete : bool) (max_wait_time : Z) : M unit :=
  rp <- get_runtime ;;
  if flag (rp_resource_external rp) && negb force_delete then
    log info "Used existing resource." []
  else
    (if force_delete then log info "Delete is forced." [] else ret tt) ;;
    server_obj <- get_server_by_context client server os_family ;;
    match server_obj with
    | None =>
        rp <- get_runtime ;;
        c <- ask ;;
        if str_truthy (rp_vsphere_server_id rp) then
          log info "Cannot delete server - server doesn't exist for node: {0}"
            [AStr (instance_id c)]
        else ret tt
    | Some server_obj =>
        vm_name <- get_vm_name server os_family ;;
        log info "Preparing to delete server {name}" [AStr vm_name] ;;
        call (delete_server client server_obj max_wait_time) ;;
        log info "Successfully deleted server {name}" [AStr vm_name]
    end.

(** *** resize_server, resize *)

(** [expected_configuration['summary'][key] = value]; [KeyError] when no
    expected configuration was stored. *)
Definition set_expected_summary (key : string) (value : pyval) : M unit :=
  rp <- get_runtime ;;
  match rp_expected_configuration rp with
  | None => raise (PyError KeyError)
  | Some ec =>
      set_runtime (with_expected_configuration
        (Some (ExpectedConfiguration (ec_network ec)
                 (setitem (ec_summary ec) key (JVal value)))))
  end.

Definition resize_server (client : server_client) (server : server_props)
    (os_family : string) (cpus memory : option Z) (max_wait_time : Z) : M unit :=
  if negb (int_truthy cpus || int_truthy memory) then
    log info "Attempt to resize Server with no sizes specified" []
  else
    server_obj <- get_server_by_context client server os_family ;;
    match server_obj with
    | None =>
        c <- ask ;;
        raise (NonRecoverableError
          [Msg "Cannot resize server - server doesn't exist for node: {0}"
               [AStr (instance_id c)]])
    | Some server_obj =>
        call (client_resize_server client server_obj cpus memory (Some max_wait_time)) ;;
        (match cpus with
         | Some value =>
             if negb (value =? 0) then
               set_runtime (with_cpus (Some value)) ;;
               set_expected_summary "numCpu" (PInt value)
             else ret tt
         | None => ret tt
         end) ;;
        (match memory with
         | Some value =>
             if negb (value =? 0) then
               set_runtime (with_memory (Some value)) ;;
               set_expected_summary "memorySizeMB" (PInt value)
             else ret tt
         | None => ret tt
         end)
    end.

(** [x or 'no changes'] *)
Definition or_no_changes (o : option Z) : pyval :=
  match o with
  | Some z => if z =? 0 then PStr "no changes" else PInt z
  | None => PStr "no changes"
  end.

Definition resize (client : server_client) (server : server_props)
    (os_family : string) : M unit :=
  log warn
    ("This operation may be removed at any point from cloudify-vsphere-plugin==3. "
     ++ "Please use resize_server (cloudify.interfaces.modify.resize) instead.") [] ;;
  server_obj <- get_server_by_context client server os_family ;;
  match server_obj with
  | None =>
      c <- ask ;;
      raise (NonRecoverableError
        [Msg "Cannot resize server - server doesn't exist for node: {0}"
             [AStr (instance_id c)]])
  | Some server_obj =>
      vm_name <- get_vm_name server os_family ;;
      rp <- get_runtime ;;
      let update_cpus := rp_cpus rp in
      let update_memory := rp_memory rp in
      if int_truthy update_cpus || int_truthy update_memory then
        log info
          "Preparing to resize server {name}, with cpus: {cpus}, and memory: {memory}"
          [AStr vm_name; AVal (or_no_changes update_cpus);
           AVal (or_no_changes update_memory)] ;;
        call (client_resize_server client server_obj update_cpus update_memory None) ;;
        log info "Succeeded resizing server {name}." [AStr vm_name]
      else
        raise (NonRecoverableError
          [Msg "Server resize parameters should be specified." []])
  end.

(** *** arrived_at_min_wait_time, get_state *)

(** [time.sleep(seconds)]: the clock moves on. *)
Definition sleep (seconds : Z) : M unit :=
  fun c => Returns tt
    (Ctx (instance_id c) (runtime c) (nics_from_rels c) (node c)
         (clock c + seconds) (uuids c) (uuid_count c) (logger c)).

(** [while count < minimum_wait_time]; [count] grows by ten each turn, so
    [minimum_wait_time] turns are always enough. *)
Fixpoint waiting (turns : nat) (count minimum_wait_time : Z) : M unit :=
  match turns with
  | O => ret tt
  | S turns' =>
      if count <? minimum_wait_time then
        log info "Waiting for IP Addresses to be ready ..." [] ;;
        sleep 10 ;;
        waiting turns' (count + 10) minimum_wait_time
      else ret tt
  end.

Definition arrived_at_min_wait_time (minimum_wait_time : Z) : M unit :=
  rp <- get_runtime ;;
  c <- ask ;;
  match rp_min_wait_time_start rp with
  | None =>
      set_runtime (with_min_wait_time_start (Some (clock c))) ;;
      log info "It will take {} seconds for IP Addresses to be ready"
        [AInt minimum_wait_time] ;;
      waiting (Z.to_nat minimum_wait_time) 0 minimum_wait_time
  | Some start =>
      let remainder := clock c - start in
      log info
        ("The function arrived_at_min_wait_time is called again. "
         ++ "remainder: {}, minimum_wait_time: {}")
        [AInt remainder; AInt minimum_wait_time] ;;
      if minimum_wait_time >? remainder
      then sleep (minimum_wait_time - remainder)
      else ret tt
  end.

Definition opt_val (o : option string) : pyval :=
  match o with Some s => PStr s | None => PNone end.

(** [[network['name'] for network in networks if network.get(key, False)]] *)
Fixpoint names_flagged (key : string) (networks : list dict) : exn + list pyval :=
  match networks with
  | [] => inr []
  | network :: rest =>
      if flagged key network then
        match getitem network "name" with
        | inl e => inl e
        | inr name =>
            match names_flagged key rest with
            | inr names => inr (name :: names)
            | inl e => inl e
            end
        end
      else names_flagged key rest
  end.

(** [for net in nets: if net['name'] == network_name: net[IP] = ip] *)
Fixpoint store_ip (nets : list dict) (network_name ip : pyval) : exn + list dict :=
  match nets with
  | [] => inr []
  | net :: rest =>
      match getitem net "name" with
      | inl e => inl e
      | inr name =>
          let net' := if py_eqb name network_name then setitem net "ip" ip else net in
          match store_ip rest network_name ip with
          | inr rest' => inr (net' :: rest')
          | inl e => inl e
          end
      end
  end.

(** The variables the loop over [server_obj.guest.net] carries. *)
Record guest_scan : Type := GuestScan {
  default_ip : option string;
  manager_network_ip : option string;
  nets : option (list dict)
}.

Definition scan_guest_nic (common : plugin_common) (server_obj : server_obj)
    (management_network_name : pyval) (network : guest_nic) (s : guest_scan)
  : M guest_scan :=
  let network_name := opt_val (nic_network network) in
  let default_ip :=
    if negb (str_truthy (default_ip s))
    then get_ip_from_vsphere_nic_ips common network
    else default_ip s in
  let same_net := py_eqb network_name management_network_name in
  manager_network_ip <-
    (if negb (str_truthy (manager_network_ip s))
        || (truthy management_network_name && same_net)
     then
       let manager_network_ip := get_ip_from_vsphere_nic_ips common network in
       log info "Server management ip address: {0}" [AOptStr manager_network_ip] ;;
       match manager_network_ip with
       | None =>
           log info "Manager network IP not yet present for {server}. Retrying."
             [AStr (so_name server_obj)] ;;
           raise (OperationRetry (Msg "Management IP addresses not yet assigned." []))
       | Some _ => ret manager_network_ip
       end
     else ret (manager_network_ip s)) ;;
  match nets s with
  | None => raise (PyError TypeError)
  | Some nets =>
      nets <- lift (store_ip nets network_name
                      (opt_val (get_ip_from_vsphere_nic_ips common network))) ;;
      ret (GuestScan default_ip manager_network_ip (Some nets))
  end.

Definition is_none {A} (o : option A) : bool :=
  match o with None => true | Some _ => false end.

Definition pop_min_wait_time_start : M unit :=
  set_runtime (with_min_wait_time_start None).

Definition get_state (client : server_client) (common : plugin_common)
    (server : server_props) (networking : option networking_props)
    (os_family : string) (wait_ip : bool) (minimum_wait_time : option Z) : M bool :=
  (match minimum_wait_time with
   | Some m => if m >? 0 then arrived_at_min_wait_time m else ret tt
   | None => ret tt
   end) ;;
  found <- get_server_by_context client server os_family ;;
  match found with
  | None =>
      c <- ask ;;
      raise (NonRecoverableError
        [Msg "Cannot get info - server doesn't exist for node: {0}"
             [AStr (instance_id c)]])
  | Some server_obj =>
      vm_name <- get_vm_name server os_family ;;
      log info "Getting state for server {name} ({os_family})"
        [AStr vm_name; AStr os_family] ;;
      rp <- get_runtime ;;
      let nets := rp_networks rp in
      let running (default_ip public_ip manager_network_ip : option string) : M bool :=
        if (str_truthy default_ip && str_truthy manager_network_ip)
           || is_server_guest_running client server_obj
        then
          log info "Server is running, getting network details." [] ;;
          log info "Guest info: {info}" [AGuest (so_guest_net server_obj)] ;;
          match networking with
          | None => raise (PyError AttributeError)
          | Some networking =>
              let networks :=
                match connect_networks networking with Some l => l | None => [] end in
              management_networks <- lift (names_flagged "management" networks) ;;
              let management_network_name :=
                match management_networks with [name] => name | _ => PNone end in
              log info "Server management networks: {networks}"
                [AVals management_networks] ;;
              s <- for_each (so_guest_net server_obj)
                     (scan_guest_nic common server_obj management_network_name)
                     (GuestScan default_ip manager_network_ip nets) ;;
              let default_ip := Server.default_ip s in
              let manager_network_ip := Server.manager_network_ip s in
              (if truthy management_network_name && negb (str_truthy manager_network_ip)
               then raise (OperationRetry
                             (Msg "Management IP addresses not yet assigned." []))
               else ret tt) ;;
              set_runtime (with_networks (Server.nets s)) ;;
              let ip := or_else manager_network_ip default_ip in
              set_runtime (with_ip ip) ;;
              (if negb (str_truthy ip) then
                 log warn "Server has no IP addresses." [] ;;
                 if wait_ip then
                   log info "Waiting ip export from guest." [] ;;
                   raise (OperationRetry (Msg "IP address not yet exported." []))
                 else ret tt
               else ret tt) ;;
              public_ips <-
                (match so_guest_net server_obj with
                 | _ :: _ =>
                     external <- lift (names_flagged "external" networks) ;;
                     let public_ips := map (get_server_ip client server_obj) external in
                     match public_ips with
                     | [] => log info "No Server public IP addresses." [] ;;
                             ret public_ips
                     | _ =>
                         if existsb is_none public_ips then
                           raise (OperationRetry
                                    (Msg "Public IP addresses not yet assigned." []))
                         else
                           log info "Server public IP addresses: {ips}."
                             [AVals (map opt_val public_ips)] ;;
                           ret public_ips
                     end
                 | [] =>
                     if str_truthy public_ip then ret [public_ip] else ret []
                 end) ;;
              (match public_ips with
               | first :: _ =>
                   log debug "Public IP address for {name}: {ip}"
                     [AStr vm_name; AOptStr first] ;;
                   set_runtime (with_public_ip first)
               | [] =>
                   log debug "Public IP check not required for {server}"
                     [AStr (so_name server_obj)] ;;
                   set_runtime (with_public_ip None)
               end) ;;
              let message := "Server {name} has started" in
              let message :=
                if str_truthy manager_network_ip
                then message ++ " with management IP {mgmt}" else message in
              let message :=
                match public_ips with
                | _ :: _ =>
                    (if str_truthy manager_network_ip then message ++ " and" else message)
                    ++ " public IP {public}"
                | [] => message
                end in
              let public_ip :=
                match public_ips with first :: _ => first | [] => ip end in
              log info (message ++ ".")
                [AStr vm_name; AOptStr manager_network_ip; AOptStr public_ip] ;;
              pop_min_wait_time_start ;;
              ret true
          end
        else
          log info "Server {server} is not started yet" [AStr (so_name server_obj)] ;;
          c <- ask ;;
          if negb (match np_enable_start_vm (node c) with Some b => b | None => true end)
          then ret true
          else raise (OperationRetry (Msg "Server not yet started." []))
      in
      if (os_family =? "other")%string then
        log info "Skip guest checks for other os: {info}"
          [AGuest (so_guest_net server_obj)] ;;
        match so_summary_guest_ipAddress server_obj with
        | None => pop_min_wait_time_start ;; ret true
        | Some ipAddress => running ipAddress ipAddress ipAddress
        end
      else running None None None
  end.

(** *** check_drift *)

(** The persisted network whose [mac] is the device's, if any: the inner
    [for network in networks] loop up to its [break]. *)
Definition defined_network (networks : list dict) (macAddress : string) : option dict :=
  find (fun network => py_eqb (PStr macAddress) (get network "mac" PNone)) networks.

Definition existing_networks (networks : list dict) (devices : list device)
  : M (list attached) :=
  for_each devices
    (fun device existing_networks =>
       match device with
       | VirtualEthernetCard _ macAddress =>
           match defined_network networks macAddress with
           | Some network =>
               ret (existing_networks ++ [known (get network "name" PNone)])%list
           | None =>
               u <- uuid4 ;;
               ret (existing_networks ++ [unknown u])%list
           end
       | OtherDevice _ => ret existing_networks
       end)
    [].

(** [networking.get('connect_networks', [])] of the node's properties. *)
Definition declared_networks (c : ctx) : list dict :=
  match np_networking (node c) with
  | Some networking =>
      match connect_networks networking with Some l => l | None => [] end
  | None => []
  end.

Definition name_of (network : dict) : pyval := get network "name" PNone.

(** [value != expected_configuration['summary'][key]] *)
Definition differs_from_expected (expected : option expected_configuration)
    (key : string) (value : Z) : exn + bool :=
  match expected with
  | None => inl (PyError TypeError)
  | Some ec =>
      match getitem (ec_summary ec) key with
      | inl e => inl e
      | inr (JVal v) => inr (negb (py_eqb (PInt value) v))
      | inr _ => inr true
      end
  end.

(** [value and value != expected_configuration['summary'][key]] *)
Definition spec_changed (expected : option expected_configuration)
    (key : string) (value : option Z) : exn + bool :=
  if int_truthy value then
    match value with
    | Some v => differs_from_expected expected key v
    | None => inr false
    end
  else inr false.

Definition declared_server (c : ctx) : server_props :=
  match np_server (node c) with
  | Some s => s
  | None => ServerProps None None None None
  end.

(** [ctx.instance.refresh()] re-reads the runtime properties from storage;
    within one operation it changes nothing here.  The value is the truth
    value of what the source returns ([True], or the diff). *)
Definition check_drift (client : server_client) (common : plugin_common) : M bool :=
  rp <- get_runtime ;;
  match rp_vsphere_server_id rp with
  | Some server_id =>
      if (server_id =? "")%string then
        raise (NonRecoverableError [Msg "Instance not configured correctly" []])
      else
        match get_server_by_id client server_id with
        | None => raise (PyError AttributeError)
        | Some server_obj =>
            log info "Checking drift state for {resource_name}."
              [AStr (so_name server_obj)] ;;
            rp <- get_runtime ;;
            c <- ask ;;
            let expected_configuration := rp_expected_configuration rp in
            let current_configuration :=
              ExpectedConfiguration (so_network server_obj)
                (so_summary_config server_obj) in
            let networks :=
              match rp_networks rp with Some l => l | None => [] end in
            existing_networks <- existing_networks networks (so_device server_obj) ;;
            let new_networks := map name_of (declared_networks c) in
            let network_diff :=
              utils_check_drift_networks common existing_networks new_networks in
            (if network_diff
             then set_runtime (with_network_update (Some true))
             else ret tt) ;;
            let memory := srv_memory (declared_server c) in
            let cpus := srv_cpus (declared_server c) in
            memory_changed <-
              lift (spec_changed expected_configuration "memorySizeMB" memory) ;;
            spec_diff <-
              (if memory_changed : bool then ret true
               else lift (spec_changed expected_configuration "numCpu" cpus)) ;;
            (if spec_diff : bool
             then set_runtime (with_spec_update (Some true))
             else ret tt) ;;
            if network_diff || spec_diff then ret true
            else ret (utils_check_drift_configuration common
                        expected_configuration current_configuration)
        end
  | None =>
      raise (NonRecoverableError [Msg "Instance not configured correctly" []])
  end.

(** *** update *)

(** [x in names], with Python's [==] *)
Definition member (x : pyval) (names : list pyval) : bool :=
  existsb (py_eqb x) names.

(** The names of the persisted networks that a device is attached to. *)
Fixpoint real_networks (networks : list dict) (devices : list device) : list pyval :=
  match devices with
  | [] => []
  | VirtualEthernetCard _ macAddress :: rest =>
      match defined_network networks macAddress with
      | Some network => name_of network :: real_networks networks rest
      | None => real_networks networks rest
      end
  | OtherDevice _ :: rest => real_networks networks rest
  end.

(** The devices to detach: those of a network in [to_remove], and those
    that no persisted network defines. *)
Fixpoint nics_for_remove (networks : list dict) (to_remove : list pyval)
    (devices : list device) : list device :=
  match devices with
  | [] => []
  | (VirtualEthernetCard _ macAddress as device) :: rest =>
      match defined_network networks macAddress with
      | Some network =>
          if member (name_of network) to_remove
          then device :: nics_for_remove networks to_remove rest
          else nics_for_remove networks to_remove rest
      | None => device :: nics_for_remove networks to_remove rest
      end
  | OtherDevice _ :: rest => nics_for_remove networks to_remove rest
  end.

Definition is_ethernet (d : device) : bool :=
  match d with VirtualEthernetCard _ _ => true | OtherDevice _ => false end.

(** [server_obj = get_server_by_id(runtime_properties[VSPHERE_SERVER_ID])];
    the first use of a missing object raises [AttributeError]. *)
Definition server_by_persisted_id (client : server_client) : M server_obj :=
  rp <- get_runtime ;;
  match rp_vsphere_server_id rp with
  | None => raise (PyError KeyError)
  | Some id =>
      match get_server_by_id client id with
      | None => raise (PyError AttributeError)
      | Some server_obj => ret server_obj
      end
  end.

Definition int_val (o : option Z) : pyval :=
  match o with Some z => PInt z | None => PNone end.

(** [update], up to and including [ReconfigVM_Task] and [_wait_for_task];
    its value is the [device_changes] list handed to the task.  The rest of
    the source function (re-reading the server, [store_server_details], the
    new expected configuration, the wait for guest IPs) is not part of this
    definition.  The datacenter object handed to [_add_network] is left to
    the client. *)
Definition update (client : server_client) : M (list device_spec) :=
  rp <- get_runtime ;;
  let spec_update := rp_spec_update rp in
  set_runtime (with_spec_update None) ;;
  let network_update := rp_network_update rp in
  set_runtime (with_network_update None) ;;
  (if flag spec_update then
     c <- ask ;;
     let cpus := srv_cpus (declared_server c) in
     let memory := srv_memory (declared_server c) in
     server_obj <- server_by_persisted_id client ;;
     call (client_resize_server client server_obj cpus memory (Some 300)) ;;
     set_runtime (with_cpus cpus) ;;
     set_runtime (with_memory memory) ;;
     set_expected_summary "memorySizeMB" (int_val memory) ;;
     set_expected_summary "numCpu" (int_val cpus)
   else ret tt) ;;
  if flag network_update then
    server_obj <- server_by_persisted_id client ;;
    rp <- get_runtime ;;
    c <- ask ;;
    let networks := match rp_networks rp with Some l => l | None => [] end in
    let real_networks := real_networks networks (so_device server_obj) in
    let networking :=
      match np_networking (node c) with
      | Some n => n
      | None => Networking None
      end in
    new_networks <- handle_networks networking ;;
    let new_network_names := map name_of new_networks in
    let to_remove :=
      filter (fun network => negb (member network new_network_names)) real_networks in
    let to_add :=
      filter (fun network => negb (member network real_networks)) new_network_names in
    let nics_for_remove := nics_for_remove networks to_remove (so_device server_obj) in
    let netcnt :=
      Z.of_nat (length (filter is_ethernet (so_device server_obj)))
      - Z.of_nat (length nics_for_remove) in
    let device_changes := map remove nics_for_remove in
    changes <- for_each new_networks
      (fun network (s : list device_spec * Z) =>
         let (device_changes, netcnt) := s in
         if member (name_of network) to_add then
           name <- lift (_get_connected_network_name client network) ;;
           let network := setitem network "name" name in
           call (_add_network client network netcnt) ;;
           ret ((device_changes ++ [add network netcnt])%list, netcnt + 1)
         else ret s)
      (device_changes, netcnt) ;;
    let device_changes := fst changes in
    (match device_changes with
     | [] => ret tt
     | _ => call (ReconfigVM_Task client server_obj device_changes)
     end) ;;
    ret device_changes
  else ret [].

End Server.
Export Server.

(** ** [vsphere_server_plugin/server.py], continued: power, backup and
       snapshot of the configuration *)

Module Lifecycle.

(** The calls these operations make on [server_client], beside the look-ups. *)
Record power_client : Type := PowerClient {
  shutdown_server_guest : server_obj -> Z -> option exn;
  suspend_server : server_obj -> Z -> option exn;
  start_server : server_obj -> Z -> option exn;
  (** [backup_server(server_obj, snapshot_name, snapshot_type, max_wait_time,
      with_memory, retry)] *)
  backup_server : server_obj -> string -> pyval -> Z -> bool -> bool -> option exn;
  restore_server : server_obj -> string -> Z -> option exn;
  remove_backup : server_obj -> string -> Z -> option exn
}.

Definition shutdown_guest (client : server_client) (power : power_client)
    (server : server_props) (os_family : string) (max_wait_time : Z) : M unit :=
  server_obj <- get_server_by_context client server os_family ;;
  match server_obj with
  | None =>
      c <- ask ;;
      raise (NonRecoverableError
        [Msg "Cannot shutdown server guest - server doesn't exist for node: {0}"
             [AStr (instance_id c)]])
  | Some server_obj =>
      vm_name <- get_vm_name server os_family ;;
      log info "Preparing to shut down server {name}" [AStr vm_name] ;;
      call (shutdown_server_guest power server_obj max_wait_time) ;;
      log info "Successfully shut down server {name}" [AStr vm_name]
  end.

Definition freeze_suspend (client : server_client) (power : power_client)
    (server : server_props) (os_family : string) (max_wait_time : Z) : M unit :=
  rp <- get_runtime ;;
  if flag (rp_resource_external rp) then
    log info "Used existing resource." []
  else
    server_obj <- get_server_by_context client server os_family ;;
    match server_obj with
    | None =>
        c <- ask ;;
        raise (NonRecoverableError
          [Msg "Cannot suspend server - server doesn't exist for node: {0}"
               [AStr (instance_id c)]])
    | Some server_obj =>
        vm_name <- get_vm_name server os_family ;;
        log info "Preparing to suspend server {name}" [AStr vm_name] ;;
        call (suspend_server power server_obj max_wait_time) ;;
        log info "Successfully suspended server {name}" [AStr vm_name]
    end.

Definition freeze_resume (client : server_client) (power : power_client)
    (server : server_props) (os_family : string) (max_wait_time : Z) : M unit :=
  rp <- get_runtime ;;
  if flag (rp_resource_external rp) then
    log info "Used existing resource." []
  else
    server_obj <- get_server_by_context client server os_family ;;
    match server_obj with
    | None =>
        c <- ask ;;
        raise (NonRecoverableError
          [Msg "Cannot resume server - server doesn't exist for node: {0}"
               [AStr (instance_id c)]])
    | Some server_obj =>
        vm_name <- get_vm_name server os_family ;;
        log info "Preparing to resume server {name}" [AStr vm_name] ;;
        call (start_server power server_obj max_wait_time) ;;
        log info "Successfully resumed server {name}" [AStr vm_name]
    end.

(** [retry_number] is [ctx.operation.retry_number]. *)
Definition snapshot_create (client : server_client) (power : power_client)
    (server : server_props) (os_family snapshot_name : string)
    (snapshot_incremental : bool) (snapshot_type : pyval) (max_wait_time : Z)
    (with_memory : bool) (retry_number : Z) : M unit :=
  rp <- get_runtime ;;
  if flag (rp_resource_external rp) then
    log info "Used existing resource." []
  else if (snapshot_name =? "")%string then
    raise (NonRecoverableError [Msg "Backup name must be provided." []])
  else if negb snapshot_incremental then
    log info "Create backup for VM is unsupported." []
  else
    server_obj <- get_server_by_context client server os_family ;;
    match server_obj with
    | None =>
        c <- ask ;;
        raise (NonRecoverableError
          [Msg "Cannot backup server - server doesn't exist for node: {0}"
               [AStr (instance_id c)]])
    | Some server_obj =>
        vm_name <- get_vm_name server os_family ;;
        log info "Preparing to backup {snapshot_name} for server {name}"
          [AStr snapshot_name; AStr vm_name] ;;
        call (backup_server power server_obj snapshot_name snapshot_type max_wait_time
                with_memory (retry_number >? 0)) ;;
        log info "Successfully backuped server {name}" [AStr vm_name]
    end.

Definition snapshot_apply (client : server_client) (power : power_client)
    (server : server_props) (os_family snapshot_name : string)
    (snapshot_incremental : bool) (max_wait_time : Z) : M unit :=
  rp <- get_runtime ;;
  if flag (rp_resource_external rp) then
    log info "Used existing resource." []
  else if (snapshot_name =? "")%string then
    raise (NonRecoverableError [Msg "Backup name must be provided." []])
  else if negb snapshot_incremental then
    log info "Restore from backup for VM is unsupported." []
  else
    server_obj <- get_server_by_context client server os_family ;;
    match server_obj with
    | None =>
        c <- ask ;;
        raise (NonRecoverableError
          [Msg "Cannot restore server - server doesn't exist for node: {0}"
               [AStr (instance_id c)]])
    | Some server_obj =>
        vm_name <- get_vm_name server os_family ;;
        log info "Preparing to restore {snapshot_name} for server {name}"
          [AStr snapshot_name; AStr vm_name] ;;
        call (restore_server power server_obj snapshot_name max_wait_time) ;;
        log info "Successfully restored server {name}" [AStr vm_name]
    end.

Definition snapshot_delete (client : server_client) (power : power_client)
    (server : server_props) (os_family snapshot_name : string)
    (snapshot_incremental : bool) (max_wait_time : Z) : M unit :=
  rp <- get_runtime ;;
  if flag (rp_resource_external rp) then
    log info "Used existing resource." []
  else if (snapshot_name =? "")%string then
    raise (NonRecoverableError [Msg "Backup name must be provided." []])
  else if negb snapshot_incremental then
    log info "Delete backup for VM is unsupported." []
  else
    server_obj <- get_server_by_context client server os_family ;;
    match server_obj with
    | None =>
        c <- ask ;;
        raise (NonRecoverableError
          [Msg "Cannot remove backup for server - server doesn't exist for node: {0}"
               [AStr (instance_id c)]])
    | Some server_obj =>
        vm_name <- get_vm_name server os_family ;;
        log info "Preparing to remove backup {snapshot_name} for server {name}"
          [AStr snapshot_name; AStr vm_name] ;;
        call (remove_backup power server_obj snapshot_name max_wait_time) ;;
        log info "Successfully removed backup from server {name}" [AStr vm_name]
    end.

(** [poststart]: the configuration of the server as it is now becomes the
    expected one.  A missing server object fails at its first attribute. *)
Definition poststart (client : server_client) (server : server_props)
    (os_family : string) : M unit :=
  server_obj <- get_server_by_context client server os_family ;;
  match server_obj with
  | None => raise (PyError AttributeError)
  | Some server_obj =>
      log debug "Summary config: {}" [AJson (JObj (so_summary_config server_obj))] ;;
      log debug "Network vm: {}" [AJson (so_network server_obj)] ;;
      set_runtime (with_expected_configuration
        (Some (ExpectedConfiguration (so_network server_obj)
                 (so_summary_config server_obj))))
  end.

End Lifecycle.
Export Lifecycle.

(** ** [vsphere_server_plugin/server.py], continued: creating and starting *)

Module Provision.

(** A node property that is a dict: the values the other operations read,
    and the remaining keys with their values.  A key of the first part is in
    the dict when its value is not [None]. *)
Record server_dict : Type := ServerDict {
  server_values : server_props;
  server_rest : list (string * json)
}.

Record networking_dict : Type := NetworkingDict {
  networking_values : networking_props;
  networking_rest : list (string * json)
}.

Definition present {A} (o : option A) : nat :=
  match o with Some _ => 1 | None => 0 end.

(** [len(server.keys())] *)
Definition server_len (server : server_dict) : nat :=
  present (srv_name (server_values server))
  + present (srv_add_scale_suffix (server_values server))
  + present (srv_cpus (server_values server))
  + present (srv_memory (server_values server))
  + length (server_rest server).

(** [key in server], for a key of the second part *)
Definition in_rest (key : string) (rest : list (string * json)) : bool :=
  match lookup rest key with Some _ => true | None => false end.

(** [d.get(key)] on the second part *)
Definition rest_get (rest : list (string * json)) (key : string) : json :=
  match lookup rest key with Some v => v | None => JVal PNone end.

(** [not networking] *)
Definition networking_empty (networking : networking_dict) : bool :=
  match connect_networks (networking_values networking), networking_rest networking with
  | None, [] => true
  | _, _ => false
  end.

(** The inputs that [create] and [start] share. *)
Record inputs : Type := Inputs {
  allowed_hosts : json;
  allowed_clusters : json;
  allowed_datastores : json;
  windows_password : json;
  windows_organization : json;
  windows_timezone : json;
  agent_config : json;
  custom_sysprep : json;
  custom_attributes : option (list (string * json));
  use_external_resource : bool;
  enable_start_vm : bool;
  minimal_vm_version : Z;
  postpone_delete_networks : bool;
  cdrom_image : json;
  vm_folder : json;
  extra_config : json;
  max_wait_time : Z
}.

(** The keyword arguments of [server_client.create_server]. *)
Record creation : Type := Creation {
  cr_auto_placement : json;
  cr_cpus : option Z;
  cr_datacenter_name : json;
  cr_memory : option Z;
  cr_networks : list dict;
  cr_resource_pool_name : json;
  cr_template_name : json;
  cr_vm_name : string;
  cr_windows_password : json;
  cr_windows_organization : json;
  cr_windows_timezone : json;
  cr_agent_config : json;
  cr_custom_sysprep : json;
  cr_os_type : string;
  cr_domain : json;
  cr_dns_servers : json;
  cr_allowed_hosts : json;
  cr_allowed_clusters : json;
  cr_allowed_datastores : json;
  cr_cdrom_image : json;
  cr_vm_folder : json;
  cr_extra_config : json;
  cr_enable_start_vm : bool;
  cr_postpone_delete_networks : bool;
  cr_max_wait_time : Z;
  cr_retry : bool;
  cr_clone_vm : json;
  cr_disk_provision_type : json
}.

(** What these operations use of [server_client] beside the look-ups, and
    what [store_server_details] reads off the server object. *)
Record provisioner : Type := Provisioner {
  cfg : list (string * json);
  create_server : creation -> exn + server_obj;
  add_custom_values : server_obj -> list (string * json) -> option exn;
  (** [upgrade_server(server_obj, minimal_vm_version, max_wait_time)];
      [create] leaves [max_wait_time] out *)
  upgrade_server : server_obj -> Z -> option Z -> option exn;
  remove_nic_keys : server_obj -> list Z -> option exn;
  (** [update_server(server, cdrom_image, extra_config, max_wait_time)] *)
  update_server : server_obj -> json -> json -> Z -> option exn;
  get_vm_networks : server_obj -> exn + list dict;
  (** [server_obj.summary.runtime.host.name] *)
  host_name : server_obj -> string;
  (** name and id of each of [server_obj.datastore] *)
  datastore : server_obj -> list (string * string)
}.

(** The runtime properties that only these operations use. *)
Record details : Type := Details {
  vsphere_server_host : option string;
  vsphere_server_datastores : option (list string);
  vsphere_server_datastore_ids : option (list string);
  _keys_for_remove : option (list Z)
}.

Definition with_name (v : option string) (r : runtime_properties) :=
  RuntimeProperties v (rp_vsphere_server_id r) (rp_resource_external r)
    (rp_connected_nics r) (rp_networks r) (rp_ip r) (rp_public_ip r) (rp_cpus r)
    (rp_memory r) (rp_expected_configuration r) (rp_min_wait_time_start r)
    (rp_spec_update r) (rp_network_update r).

Definition with_vsphere_server_id (v : option string) (r : runtime_properties) :=
  RuntimeProperties (rp_name r) v (rp_resource_external r)
    (rp_connected_nics r) (rp_networks r) (rp_ip r) (rp_public_ip r) (rp_cpus r)
    (rp_memory r) (rp_expected_configuration r) (rp_min_wait_time_start r)
    (rp_spec_update r) (rp_network_update r).

Definition with_resource_external (v : option bool) (r : runtime_properties) :=
  RuntimeProperties (rp_name r) (rp_vsphere_server_id r) v
    (rp_connected_nics r) (rp_networks r) (rp_ip r) (rp_public_ip r) (rp_cpus r)
    (rp_memory r) (rp_expected_configuration r) (rp_min_wait_time_start r)
    (rp_spec_update r) (rp_network_update r).

(** *** store_server_details *)

Definition store_server_details (platform : provisioner) (server_obj : server_obj)
    (d : details) : M details :=
  set_runtime (with_vsphere_server_id (Some (so_id server_obj))) ;;
  set_runtime (with_name (Some (so_name server_obj))) ;;
  networks <- lift (get_vm_networks platform server_obj) ;;
  set_runtime (with_networks (Some networks)) ;;
  ret (Details (Some (host_name platform server_obj))
         (Some (map fst (datastore platform server_obj)))
         (Some (map snd (datastore platform server_obj)))
         (_keys_for_remove d)).

(** *** create_new_server *)

(** [if isinstance(x, text_type): x = [x]] *)
Definition as_list (x : json) : json :=
  match x with
  | JVal (PStr _) => JArr [x]
  | _ => x
  end.

(** [cfg[key]] *)
Definition cfg_item (platform : provisioner) (key : string) : exn + json :=
  match lookup (cfg platform) key with
  | Some v => inr v
  | None => inl (PyError KeyError)
  end.

Definition create_new_server (platform : provisioner) (server : server_dict)
    (networking : networking_dict) (i : inputs) (os_family : string)
    (enable_start_vm : bool) (retry_number : Z) : M server_obj :=
  vm_name <- get_vm_name (server_values server) os_family ;;
  log debug "Cdrom path: {cdrom}" [AJson (cdrom_image i)] ;;
  networks <- handle_networks (networking_values networking) ;;
  let allowed_hosts := as_list (allowed_hosts i) in
  let allowed_clusters := as_list (allowed_clusters i) in
  let allowed_datastores := as_list (allowed_datastores i) in
  datacenter_name <- lift (cfg_item platform "datacenter_name") ;;
  resource_pool_name <- lift (cfg_item platform "resource_pool_name") ;;
  server_obj <- lift (create_server platform
    (Creation
       (match lookup (cfg platform) "auto_placement" with
        | Some v => v
        | None => JVal (PBool true)
        end)
       (srv_cpus (server_values server))
       datacenter_name
       (srv_memory (server_values server))
       networks
       resource_pool_name
       (rest_get (server_rest server) "template")
       vm_name
       (windows_password i) (windows_organization i) (windows_timezone i)
       (agent_config i) (custom_sysprep i)
       os_family
       (rest_get (networking_rest networking) "domain")
       (rest_get (networking_rest networking) "dns_servers")
       allowed_hosts allowed_clusters allowed_datastores
       (cdrom_image i) (vm_folder i) (extra_config i)
       enable_start_vm
       (postpone_delete_networks i)
       (max_wait_time i)
       (retry_number >? 0)
       (rest_get (server_rest server) "clone_vm")
       (rest_get (server_rest server) "disk_provision_type"))) ;;
  log info "Created server called {name}" [AStr vm_name] ;;
  ret server_obj.

(** *** create, start *)

(** The look-up that [create] and [start] begin with. *)
Definition look_for_server (client : server_client) (server : server_dict)
    (os_family : string) (use_external_resource : bool) : M (option server_obj) :=
  log debug "Checking whether server exists..." [] ;;
  match (if use_external_resource then srv_name (server_values server) else None) with
  | Some name =>
      match get_server_by_name client name with
      | None =>
          raise (NonRecoverableError
            [Msg "A VM with name {0} was not found." [AStr name]])
      | Some server_obj =>
          set_runtime (with_resource_external (Some true)) ;;
          ret (Some server_obj)
      end
  | None =>
      if negb (in_rest "template" (server_rest server))
         && negb (in_rest "clone_vm" (server_rest server))
      then raise (NonRecoverableError [Msg "No template/clone_vm provided." []])
      else get_server_by_context client (server_values server) os_family
  end.

(** [custom_attributes or {}] *)
Definition or_empty (custom_attributes : option (list (string * json)))
  : list (string * json) :=
  match custom_attributes with Some d => d | None => [] end.

(** What [create] and [start] end with: the custom values, the version of
    the VM, the devices left to remove, and the details of the server. *)
Definition settle (platform : provisioner) (server_obj : server_obj)
    (custom_attributes : option (list (string * json))) (minimal_vm_version : Z)
    (max_wait_time : option Z) (d : details) : M details :=
  call (add_custom_values platform server_obj (or_empty custom_attributes)) ;;
  call (upgrade_server platform server_obj minimal_vm_version max_wait_time) ;;
  d <- (match _keys_for_remove d with
        | Some (key :: keys) =>
            log info "Remove devices: {keys}" [AVals (map PInt (key :: keys))] ;;
            call (remove_nic_keys platform server_obj (key :: keys)) ;;
            ret (Details (vsphere_server_host d) (vsphere_server_datastores d)
                   (vsphere_server_datastore_ids d) None)
        | _ => ret d
        end) ;;
  store_server_details platform server_obj d.

(** [is_node_deprecated] comes from [vsphere_plugin_common.utils] and is a
    parameter here. *)
Definition create (is_node_deprecated : M unit) (client : server_client)
    (platform : provisioner) (server : server_dict) (networking : networking_dict)
    (os_family : string) (i : inputs) (retry_number : Z) (d : details) : M details :=
  is_node_deprecated ;;
  (if enable_start_vm i
   then log debug "Create operation ignores enable_start_vm property." []
   else ret tt) ;;
  let enable_start_vm := false in
  let default_props :=
    if (0 <? server_len server)%nat
    then (server_len server =? 1)%nat
         && match srv_add_scale_suffix (server_values server) with
            | Some _ => true
            | None => false
            end
    else false in
  if ((server_len server =? 0)%nat || default_props) && networking_empty networking
  then
    log debug "Create ignored because of empty properties" [] ;;
    ret d
  else
    found <- look_for_server client server os_family (use_external_resource i) ;;
    server_obj <-
      (match found with
       | None =>
           log info "Server does not exist, creating from scratch." [] ;;
           create_new_server platform server networking i os_family enable_start_vm
             retry_number
       | Some server_obj => ret server_obj
       end) ;;
    settle platform server_obj (custom_attributes i) (minimal_vm_version i) None d.

Definition start (is_node_deprecated : M unit) (client : server_client)
    (power : power_client) (platform : provisioner) (server : server_dict)
    (networking : networking_dict) (os_family : string) (i : inputs)
    (retry_number : Z) (d : details) : M details :=
  is_node_deprecated ;;
  found <- look_for_server client server os_family (use_external_resource i) ;;
  server_obj <-
    (match found with
     | None =>
         log info "Server does not exist, creating from scratch." [] ;;
         create_new_server platform server networking i os_family (enable_start_vm i)
           retry_number
     | Some server_obj =>
         call (update_server platform server_obj (cdrom_image i) (extra_config i)
                 (max_wait_time i)) ;;
         (if enable_start_vm i then
            log info "Server already exists, powering on." [] ;;
            call (start_server power server_obj (max_wait_time i)) ;;
            log info "Server powered on." []
          else
            log info
              ("Server already exists, but will not be powered"
               ++ "on as enable_start_vm is set to false") []) ;;
         ret server_obj
     end) ;;
  settle platform server_obj (custom_attributes i) (minimal_vm_version i)
    (Some (max_wait_time i)) d.

End Provision.
Export Provision.

(** ** [server_plugin/server.py]: the first version of the server plugin *)

Module Legacy.

(** What an operation of this plugin can raise: its own [RuntimeError],
    the [IndexError] of an index into an empty list, or an exception of the
    kinds the later plugin has too. *)
Inductive error : Type :=
| RuntimeError (text : message)
| IndexError
| Other (e : exn).

Record client : Type := Client {
  get_server_by_id : string -> option server_obj;
  get_server_by_name : string -> option server_obj;
  (** called on whatever the look-up returned, also on [None] *)
  is_server_guest_running : option server_obj -> error + bool;
  shutdown_server_guest : server_obj -> option error;
  stop_server : server_obj -> option error;
  delete_server : server_obj -> option error;
  resize_server : server_obj -> option Z -> option Z -> option error
}.

(** The part of [ctx] these operations use: [ctx.node.id], the
    [connected_networks] of [ctx.node.properties['networking']] ([None]
    when the node has no [networking] property, the empty list when that
    has no [connected_networks]), the runtime properties and the log. *)
Record state : Type := State {
  node_id : string;
  connected_networks : option (list dict);
  vsphere_server_id : option string;
  cpus : option Z;
  memory : option Z;
  (** [ctx['networks']]: the first address of each guest network *)
  networks : option (@dict_of string);
  (** [ctx['ip']]; [Some None] is a stored [None] *)
  ip : option (option string);
  logger : list (level * message)
}.

Definition get_server_by_context (client : client) (s : state) : option server_obj :=
  match vsphere_server_id s with
  | Some id => get_server_by_id client id
  | None => get_server_by_name client (node_id s)
  end.

Definition shutdown_guest (client : client) (s : state) : error + state :=
  match get_server_by_context client s with
  | None =>
      inl (RuntimeError
        (Msg "Cannot shutdown server guest - server doesn't exist for node: {0}"
             [AStr (node_id s)]))
  | Some server =>
      match shutdown_server_guest client server with
      | Some e => inl e
      | None => inr s
      end
  end.

Definition stop (client : client) (s : state) : error + state :=
  match get_server_by_context client s with
  | None =>
      inl (RuntimeError
        (Msg "Cannot stop server - server doesn't exist for node: {0}"
             [AStr (node_id s)]))
  | Some server =>
      match stop_server client server with
      | Some e => inl e
      | None => inr s
      end
  end.

Definition delete (client : client) (s : state) : error + state :=
  match get_server_by_context client s with
  | None =>
      inl (RuntimeError
        (Msg "Cannot delete server - server doesn't exist for node: {0}"
             [AStr (node_id s)]))
  | Some server =>
      match delete_server client server with
      | Some e => inl e
      | None => inr s
      end
  end.

(** [network.ipAddress[0]] *)
Definition first_address (network : guest_nic) : error + string :=
  match nic_ipAddress network with
  | address :: _ => inr address
  | [] => inl IndexError
  end.

(** One turn of the loop over [server.guest.net]; the state of the loop is
    [manager_network_ip] and [ips]. *)
Definition note_guest_nic (management_network_name : pyval) (network : guest_nic)
    (found : option string * @dict_of string)
  : error + (option string * @dict_of string) :=
  let (manager_network_ip, ips) := found in
  match nic_network network with
  | None => inl (Other (PyError AttributeError))
  | Some name =>
      let network_name := lower name in
      match
        (if truthy management_network_name
            && py_eqb (PStr network_name) management_network_name
         then match first_address network with
              | inr address => inr (Some address)
              | inl e => inl e
              end
         else inr manager_network_ip)
      with
      | inl e => inl e
      | inr manager_network_ip =>
          match first_address network with
          | inr address => inr (manager_network_ip, setitem ips name address)
          | inl e => inl e
          end
      end
  end.

Fixpoint note_guest_nics (management_network_name : pyval) (nics : list guest_nic)
    (found : option string * @dict_of string)
  : error + (option string * @dict_of string) :=
  match nics with
  | [] => inr found
  | network :: rest =>
      match note_guest_nic management_network_name network found with
      | inr found' => note_guest_nics management_network_name rest found'
      | inl e => inl e
      end
  end.

Definition get_state (client : client) (s : state) : error + (bool * state) :=
  let server := get_server_by_context client s in
  match is_server_guest_running client server with
  | inl e => inl e
  | inr false => inr (false, s)
  | inr true =>
      match connected_networks s with
      | None => inl (Other (PyError KeyError))
      | Some connected =>
          match names_flagged "management" connected with
          | inl e => inl (Other e)
          | inr [] => inl IndexError
          | inr (management_network_name :: _) =>
              match server with
              | None => inl (Other (PyError AttributeError))
              | Some server =>
                  match note_guest_nics management_network_name
                          (so_guest_net server) (None, []) with
                  | inl e => inl e
                  | inr (manager_network_ip, ips) =>
                      inr (true,
                           State (node_id s) (connected_networks s)
                             (vsphere_server_id s) (cpus s) (memory s)
                             (Some ips) (Some manager_network_ip) (logger s))
                  end
              end
          end
      end
  end.

Definition resize (client : client) (s : state) : error + state :=
  let s :=
    State (node_id s) (connected_networks s) (vsphere_server_id s) (cpus s)
      (memory s) (networks s) (ip s)
      (logger s ++ [(info, Msg "Resizing server" [])]) in
  match get_server_by_context client s with
  | None =>
      inl (Other (NonRecoverableError
        [Msg "Cannot resize server - server doesn't exist for node: {0}"
             [AStr (node_id s)]]))
  | Some server =>
      if int_truthy (cpus s) || int_truthy (memory s) then
        let s :=
          State (node_id s) (connected_networks s) (vsphere_server_id s) (cpus s)
            (memory s) (networks s) (ip s)
            (logger s
             ++ [(info, Msg "Server new parameters: cpus - {0}, memory - {1}"
                          [AVal (or_no_changes (cpus s));
                           AVal (or_no_changes (memory s))])]) in
        match resize_server client server (cpus s) (memory s) with
        | Some e => inl e
        | None => inr s
        end
      else
        inl (Other (NonRecoverableError
          [Msg "Server resize parameters should be specified" []]))
  end.

End Legacy.

(** ** [cloudify_vsphere/resource_pool/__init__.py] *)

Module ResourcePool.

(** The part of [ctx] the two operations use. *)
Record state : Type := State {
  resource_pool_id : option string;
  logger : list (level * message)
}.

(** [find_pool name] is the id of the pool that
    [_get_obj_by_name(vim.ResourcePool, name)] returns, if there is one. *)
Definition create (find_pool : string -> option string) (name : string)
    (use_external_resource : bool) (s : state) : exn + state :=
  let vmware_resource := find_pool name in
  if use_external_resource then
    match vmware_resource with
    | None =>
        inl (NonRecoverableError
          [Msg ("Could not use existing resource_pool " ++ dquote ++ "{name}" ++ dquote
                ++ " as no resource_pool by that name exists!")
               [AStr name]])
    | Some id => inr (State (Some id) (logger s))
    end
  else
    inl (NonRecoverableError
      [Msg "Datastores cannot currently be created by this plugin." []]).

Definition delete (name : string) (use_external_resource : bool) (s : state) : state :=
  if use_external_resource then
    State (resource_pool_id s)
      (logger s ++ [(info, Msg "Not deleting existing resource_pool: {name}" [AStr name])])
  else
    State (resource_pool_id s)
      (logger s
       ++ [(info,
            Msg ("Not deleting resource_pool {name} as creation and deletion of "
                 ++ "resource_pools is not currently supported by this plugin.")
                [AStr name])]).

End ResourcePool.

(** * Vocabulary of the properties *)

(** ** Words of the specification *)

(** From the spec's words: "all-numeric after stripping hyphens". *)
Definition is_digit (c : ascii) : bool := between 48 57 c.

(** The name without its hyphens. *)
Fixpoint strip_hyphens (s : string) : string :=
  match s with
  | EmptyString => EmptyString
  | String c s' =>
      if (c =? "-")%char then strip_hyphens s' else String c (strip_hyphens s')
  end.

(** Every character is one of [0-9]. *)
Fixpoint all_digits (s : string) : bool :=
  match s with
  | EmptyString => true
  | String c s' => is_digit c && all_digits s'
  end.

(** Something is left once the hyphens are gone, and it is all digits. *)
Definition numeric_after_stripping_hyphens (s : string) : bool :=
  negb (strip_hyphens s =? "")%string && all_digits (strip_hyphens s).

(** The violations of one network entry, in the specification's words:
    the switch conflict, the missing name, an unknown key, a value of the
    wrong type (a falsy value under a non-boolean key is replaced by the
    default, not judged). *)
Inductive violation (n : dict) : message -> Prop :=
| both_switches :
    truthy (get n "switch_distributed" PNone) = true ->
    truthy (get n "nsx_t_switch" PNone) = true ->
    violation n msg_both_switches
| missing_name :
    truthy (get n "name" PNone) = false ->
    violation n msg_no_name
| unknown_key key value :
    In (key, value) n ->
    lookup network_validations key = None ->
    violation n (msg_unsupported_key key value)
| wrong_type key value t dflt :
    In (key, value) n ->
    lookup network_validations key = Some (t, dflt) ->
    truthy value = true \/ t = bool_type ->
    isinstance value t = false ->
    violation n (msg_unsupported_type key t value).

(** An entry of the resolved list with [key = True]. *)
Definition has_true (key : string) (n : dict) : bool :=
  match lookup n key with
  | Some (PBool true) => true
  | _ => false
  end.

(** ** Views of the code that the statements and proofs name *)

(** [connect_networks] as [handle_networks] passes it on. *)
Definition declared (p : networking_props) : list dict :=
  match connect_networks p with Some l => l | None => [] end.

(** [networking] as [update] reads it from the node properties. *)
Definition declared_networking (c : ctx) : networking_props :=
  match np_networking (node c) with
  | Some n => n
  | None => Networking None
  end.

(** The persisted network list, as [check_drift] and [update] read it. *)
Definition persisted_networks (c : ctx) : list dict :=
  match rp_networks (runtime c) with Some l => l | None => [] end.

(** [expected_configuration['summary'][key]], if it is there. *)
Definition expected_summary (c : ctx) (key : string) : option json :=
  match rp_expected_configuration (runtime c) with
  | Some ec => lookup (ec_summary ec) key
  | None => None
  end.

(** [v] is what [validate_connect_network] makes of [d]. *)
Definition validated (d v : dict) : Prop := validate_connect_network d = inr v.

(** The loop of [validate_connect_network] over the items of the network. *)
Definition reviews (items : dict) (s : charges) : charges :=
  fold_left (fun s kv => review kv s) items s.

(** A message is reported once it is on the list and the error flag is up. *)
Definition reported (m : message) (s : charges) : Prop :=
  validation_error s = true /\ In m (validation_error_messages s).

(** If [k] is still pending, it is one of the boolean keys. *)
Definition bool_typed (s : charges) (k : string) : Prop :=
  forall t dflt, lookup (validations s) k = Some (t, dflt) -> t = bool_type.

(** The defaults that [validate_connect_network] fills in at the end. *)
Definition fill (pending : @dict_of (pytype * pyval)) (n : dict) : dict :=
  fold_left (fun n kv => setitem n (fst kv) (snd (snd kv))) pending n.

(** One turn of the loop of [get_connected_networks] over the related nics. *)
Definition connect_turn (rel_nic : rel_nic) (nics_from_props : list dict) : M (list dict) :=
  match target_connected_network rel_nic with
  | None | Some [] =>
      raise (NonRecoverableError
        [Msg ("No " ++ dquote ++ "connect_network" ++ dquote
              ++ " specification for nic {0}.")
             [AStr (target_id rel_nic)]])
  | Some _connect_network =>
      let connected_network_name :=
        get _connect_network "name" (target_name rel_nic) in
      if negb (truthy connected_network_name) then
        raise (NonRecoverableError
          [Msg "No network name specified for nic {0}." [AStr (target_id rel_nic)]])
      else
        let _connect_network :=
          setitem _connect_network "name" connected_network_name in
        nics_from_props <- lift (merge_prop_nics _connect_network nics_from_props) ;;
        set_runtime (fun r =>
          with_connected_nics
            (Some (match rp_connected_nics r with
                   | Some l => l
                   | None => []
                   end ++ [target_id rel_nic])%list) r) ;;
        ret (nics_from_props ++ [_connect_network])%list
  end.

(** One turn of the reordering loop of [handle_networks]. *)
Definition reorder_turn (network : dict) (reordered_networks : list dict) : M (list dict) :=
  log info "connected_network: {0}" [ADict network] ;;
  network <- lift (validate_connect_network network) ;;
  external <- lift (getitem network "external") ;;
  if truthy external
  then ret (network :: reordered_networks)
  else ret (reordered_networks ++ [network])%list.

(** Two runs end alike: the same value, or the same exception. *)
Definition same_result {A} (o1 o2 : outcome A) : Prop :=
  match o1, o2 with
  | Returns a _, Returns b _ => a = b
  | Raises e1, Raises e2 => e1 = e2
  | _, _ => False
  end.

(** Two contexts that differ at most in the clock, the log and the start of
    the minimum wait. *)
Definition settled (c c1 : ctx) : Prop :=
  instance_id c1 = instance_id c
  /\ node c1 = node c
  /\ with_min_wait_time_start None (runtime c1)
     = with_min_wait_time_start None (runtime c).

(** What [check_drift] leaves as it found it. *)
Definition kept (c c1 : ctx) : Prop :=
  node c1 = node c
  /\ nics_from_rels c1 = nics_from_rels c
  /\ rp_vsphere_server_id (runtime c1) = rp_vsphere_server_id (runtime c)
  /\ rp_networks (runtime c1) = rp_networks (runtime c)
  /\ rp_expected_configuration (runtime c1) = rp_expected_configuration (runtime c).

(** ** Assumptions on the collaborators *)

(** What is assumed of [utils.check_drift]: a list that holds a UUID differs
    from any list of declared names. *)
Definition foreign_causes_diff (common : plugin_common) : Prop :=
  forall existing new u,
    In (unknown u) existing -> utils_check_drift_networks common existing new = true.

(** The expected configuration has been stored, with the two summary fields
    that [check_drift] compares. *)
Definition snapshot_stored (c : ctx) : Prop :=
  exists ec,
    rp_expected_configuration (runtime c) = Some ec
    /\ lookup (ec_summary ec) "memorySizeMB" <> None
    /\ lookup (ec_summary ec) "numCpu" <> None.

(** The platform accepts every request [update] makes for this server. *)
Definition cooperative (client : server_client) (server_obj : server_obj) : Prop :=
  (forall cpus memory wait, client_resize_server client server_obj cpus memory wait = None)
  /\ (forall network, exists name, _get_connected_network_name client network = inr name)
  /\ (forall network index, _add_network client network index = None)
  /\ (forall changes, ReconfigVM_Task client server_obj changes = None).

(** ** The helpers of [vsphere_plugin_common], as the spec describes them *)

(** Structural equality, as a diff sees values: types count. *)
Definition same_value (a b : pyval) : bool :=
  match a, b with
  | PNone, PNone => true
  | PBool x, PBool y => Bool.eqb x y
  | PInt x, PInt y => x =? y
  | PStr x, PStr y => (x =? y)%string
  | _, _ => false
  end.

(** Structural equality of two snapshots. *)
Fixpoint same_json (a b : json) : bool :=
  match a, b with
  | JVal x, JVal y => same_value x y
  | JArr xs, JArr ys =>
      (fix all2 (xs ys : list json) : bool :=
         match xs, ys with
         | [], [] => true
         | x :: xs', y :: ys' => same_json x y && all2 xs' ys'
         | _, _ => false
         end) xs ys
  | JObj xs, JObj ys =>
      (fix all2 (xs ys : list (string * json)) : bool :=
         match xs, ys with
         | [], [] => true
         | (k, x) :: xs', (k', y) :: ys' =>
             (k =? k')%string && same_json x y && all2 xs' ys'
         | _, _ => false
         end) xs ys
  | _, _ => false
  end.

(** The attached names are exactly the declared ones, in order; a UUID is
    no name. *)
Fixpoint same_attached (existing : list attached) (new : list pyval) : bool :=
  match existing, new with
  | [], [] => true
  | known x :: existing', y :: new' => same_value x y && same_attached existing' new'
  | _, _ => false
  end.

(** Modelled from the spec: [get_ip_from_vsphere_nic_ips] and
    [utils.check_drift] live in [vsphere_plugin_common], which is not
    embedded.  The spec has the poller "record the first IP seen" and calls
    drift a structural difference between the expected and the current
    value; this instance does exactly that. *)
Definition spec_common : plugin_common :=
  PluginCommon
    (fun network => hd_error (nic_ipAddress network))
    (fun existing new => negb (same_attached existing new))
    (fun expected current =>
       match expected with
       | Some ec =>
           negb (same_json (ec_network ec) (ec_network current)
                 && same_json (JObj (ec_summary ec)) (JObj (ec_summary current)))
       | None => true
       end).

(** ** More views of the code: naming *)

(** [get_vm_name] goes on to derive a name: there is no configured name, or
    a scale suffix is wanted. *)
Definition takes_suffix (server : server_props) : bool :=
  match srv_name server, srv_add_scale_suffix server with
  | Some _, Some false => false
  | _, _ => true
  end.

(** The prefix [get_vm_name] joins to the suffix: the configured name if it
    is a non-empty string, else the instance name; cut for Windows. *)
Definition name_prefix (server : server_props) (os_family instance_name id_suffix : string)
  : string :=
  let chosen :=
    match srv_name server with
    | Some n => if (n =? "")%string then instance_name else n
    | None => instance_name
    end in
  if (lower os_family =? "windows")%string
  then slice_to chosen (14 - (Z.of_nat (String.length id_suffix) + 1))
  else chosen.

(** ** More views of the code: topology *)

(** The related nic says which network it is on: it has a non-empty
    [connected_network], and a name there or among its runtime properties. *)
Definition specified (rel : rel_nic) : Prop :=
  exists cnw,
    target_connected_network rel = Some cnw
    /\ cnw <> []
    /\ truthy (get cnw "name" (target_name rel)) = true.

(** The entry has a [name] key. *)
Definition has_name (n : dict) : Prop := lookup n "name" <> None.

(** [runtime_properties[VSPHERE_SERVER_CONNECTED_NICS]], empty when unset. *)
Definition connected_nics (c : ctx) : list string :=
  match rp_connected_nics (runtime c) with Some l => l | None => [] end.

(** Two contexts with the same instance, node, relationships and clock, and
    the same runtime properties but for the connected nics. *)
Definition framed (c c' : ctx) : Prop :=
  instance_id c' = instance_id c
  /\ node c' = node c
  /\ nics_from_rels c' = nics_from_rels c
  /\ clock c' = clock c
  /\ with_connected_nics None (runtime c') = with_connected_nics None (runtime c).

(** ** More views of the code: what an operation leaves behind *)

(** The context after some lines were logged, and nothing else happened. *)
Definition logged (c : ctx) (lines : list (level * message)) : ctx :=
  Ctx (instance_id c) (runtime c) (nics_from_rels c) (node c) (clock c)
      (uuids c) (uuid_count c) (logger c ++ lines).

(** An operation that, when it returns, has written to the log at most. *)
Definition logs_only {A} (m : M A) : Prop :=
  forall c a c', m c = Returns a c' -> exists lines, c' = logged c lines.

(** Two contexts of the same instance with the same persisted name and id. *)
Definition same_identity (c c0 : ctx) : Prop :=
  instance_id c0 = instance_id c
  /\ rp_name (runtime c0) = rp_name (runtime c)
  /\ rp_vsphere_server_id (runtime c0) = rp_vsphere_server_id (runtime c).

(** Two runs, from [c] and from [c0], that end alike and log the same. *)
Definition alike {A} (c c0 : ctx) (o o0 : outcome A) : Prop :=
  match o, o0 with
  | Returns a c', Returns b c0' =>
      a = b /\ exists lines, c' = logged c lines /\ c0' = logged c0 lines
  | Raises e, Raises e0 => e = e0
  | _, _ => False
  end.

(** [NonRecoverableError(template.format(ctx.instance.id))] *)
Definition no_server {A} (template : string) (c : ctx) : outcome A :=
  Raises (NonRecoverableError [Msg template [AStr (instance_id c)]]).

(** The external-resource guard does not hold the operation back. *)
Definition unguarded (c : ctx) (force : bool) : Prop :=
  flag (rp_resource_external (runtime c)) && negb force = false.

(** What the guarded operations answer for an adopted server. *)
Definition used_existing (c : ctx) : outcome unit :=
  Returns tt (logged c [(info, Msg "Used existing resource." [])]).

(** [NonRecoverableError('Backup name must be provided.')] *)
Definition no_backup_name : outcome unit :=
  Raises (NonRecoverableError [Msg "Backup name must be provided." []]).

(** ** More views of the code: waiting and polling *)

(** When the minimum wait began: the persisted start, or now. *)
Definition wait_start (c : ctx) : Z :=
  match rp_min_wait_time_start (runtime c) with
  | Some start => start
  | None => clock c
  end.

(** The context after [set_runtime f], and nothing else. *)
Definition stored (f : runtime_properties -> runtime_properties) (c : ctx) : ctx :=
  Ctx (instance_id c) (f (runtime c)) (nics_from_rels c) (node c) (clock c)
      (uuids c) (uuid_count c) (logger c).

(** The address is the one the helper reports for an interface in the
    list, or there is none. *)
Definition from_guest (common : plugin_common) (nics : list guest_nic)
    (ip : option string) : Prop :=
  ip = None
  \/ exists nic, In nic nics /\ get_ip_from_vsphere_nic_ips common nic = ip.

(** The runtime properties that [get_state] does not write. *)
Definition beside_the_state (r : runtime_properties) : runtime_properties :=
  with_networks None
    (with_ip None (with_public_ip None (with_min_wait_time_start None r))).

(** The one management network [get_state] goes by, if there is exactly one. *)
Definition management_network_name (management_networks : list pyval) : pyval :=
  match management_networks with [name] => name | _ => PNone end.

(** ** More views of the code: drift *)

(** The node declares a size (a non-zero number) other than [stored]. *)
Definition declares_other (declared : option Z) (stored : Z) : Prop :=
  exists value, declared = Some value /\ value <> 0 /\ value <> stored.

(** The configuration [check_drift] reads off the server, which is also the
    one [poststart] stores. *)
Definition current_configuration (server_obj : server_obj) : expected_configuration :=
  ExpectedConfiguration (so_network server_obj) (so_summary_config server_obj).

(** ** More views of the code: device changes *)

(** The specification [update] appends for a new card: the network as it
    is handed to [_add_network], and the number of the card. *)
Definition added (p : dict * Z) : device_spec := add (fst p) (snd p).

(** [n] consecutive numbers from [start]. *)
Definition counted_from (start : Z) (n : nat) : list Z :=
  map (fun i => start + Z.of_nat i) (seq 0 n).

(** ** More views of the code: the first plugin *)

(** The comparison of the first plugin's [get_state]: the guest network
    [name], in lower case, against the name of the management network. *)
Definition matches_management (management : pyval) (name : string) : bool :=
  truthy management && py_eqb (PStr (lower name)) management.

(** The guest interface has a network name and at least one address. *)
Definition complete_nic (nic : guest_nic) : Prop :=
  nic_network nic <> None /\ nic_ipAddress nic <> [].

(** [address] is the first address of an interface of [nics] on [name]. *)
Definition first_address_on (nics : list guest_nic) (name address : string) : Prop :=
  exists nic,
    In nic nics
    /\ nic_network nic = Some name
    /\ hd_error (nic_ipAddress nic) = Some address.

(** ** More views of the code: the persisted networks *)

(** The two entries agree on every key but [ip]. *)
Definition same_but_ip (network network' : dict) : Prop :=
  forall key, key <> "ip" -> lookup network' key = lookup network key.

(** The same networks in the same order, but for their [ip]. *)
Definition same_networks_but_ip (nets nets' : option (list dict)) : Prop :=
  match nets, nets' with
  | Some l, Some l' => Forall2 same_but_ip l l'
  | None, None => True
  | _, _ => False
  end.

(** ** More views of the code: creating and starting *)

(** What is assumed of [is_node_deprecated]: it returns, and writes to the
    log at most. *)
Definition harmless (m : M unit) : Prop :=
  forall c, exists lines, m c = Returns tt (logged c lines).

(** The same platform with another [create_server]. *)
Definition with_create_server (f : creation -> exn + server_obj) (p : provisioner)
  : provisioner :=
  Provisioner (cfg p) f (add_custom_values p) (upgrade_server p) (remove_nic_keys p)
    (update_server p) (get_vm_networks p) (host_name p) (datastore p).

(** [create] has nothing to go by: [server] is empty or has the key
    [add_scale_suffix] only, and [networking] is empty. *)
Definition empty_properties (server : server_dict) (networking : networking_dict)
  : bool :=
  ((server_len server =? 0)%nat
   || (server_len server =? 1)%nat
      && match srv_add_scale_suffix (server_values server) with
         | Some _ => true
         | None => false
         end)
  && networking_empty networking.

(** What [store_server_details] has persisted of [server_obj]. *)
Definition stored_server (platform : provisioner) (server_obj : server_obj)
    (c : ctx) (d : details) : Prop :=
  rp_vsphere_server_id (runtime c) = Some (so_id server_obj)
  /\ rp_name (runtime c) = Some (so_name server_obj)
  /\ get_vm_networks platform server_obj = inr (persisted_networks c)
  /\ rp_networks (runtime c) <> None
  /\ vsphere_server_host d = Some (host_name platform server_obj)
  /\ vsphere_server_datastores d = Some (map fst (datastore platform server_obj))
  /\ vsphere_server_datastore_ids d = Some (map snd (datastore platform server_obj)).

(** * Instances the properties are tried on *)

(** ** Contexts and runtime properties *)

(** A fresh instance: nothing persisted yet. *)
Definition no_runtime_properties : runtime_properties :=
  RuntimeProperties None None None None None None None None None None None None None.

(** A node without [server], [networking] or [enable_start_vm]. *)
Definition no_properties : node_properties := NodeProperties None None None.

(** The context at the start of an operation: clock at zero, empty log. *)
Definition fresh_ctx (id : string) (rp : runtime_properties) (rels : list rel_nic)
    (props : node_properties) : ctx :=
  Ctx id rp rels props 0 N.of_nat 0 [].

(** An instance with no relationship and nothing persisted. *)
Definition plain_ctx : ctx :=
  fresh_ctx "web_0042" no_runtime_properties [] no_properties.

(** An adopted (external) server whose id and name are persisted. *)
Definition adopted_runtime : runtime_properties :=
  RuntimeProperties (Some "db-server") (Some "vm-42") (Some true)
    None None None None None None None None None None.

(** A server this plugin created: id and name persisted, not external. *)
Definition created_runtime : runtime_properties :=
  RuntimeProperties (Some "web-0042") (Some "vm-42") None
    None None None None None None None None None None.

(** The expected configuration of a server with 2 CPUs and 2048 MB. *)
Definition snapshot_2cpu : expected_configuration :=
  ExpectedConfiguration (JArr [])
    [("memorySizeMB", JVal (PInt 2048)); ("numCpu", JVal (PInt 2))].

(** A started server with its snapshot, and [cpus]/[memory] as given. *)
Definition started_runtime (cpus memory : option Z) : runtime_properties :=
  RuntimeProperties (Some "web-0042") (Some "vm-42") None None (Some []) None None
    cpus memory (Some snapshot_2cpu) None None None.

(** The persisted entry of [net1], with the MAC of its device. *)
Definition net1_persisted : dict :=
  [("name", PStr "net1"); ("mac", PStr "00:50:56:aa:bb:01"); ("ip", PNone)].

(** A started server with one persisted network and no IP yet. *)
Definition polled_runtime : runtime_properties :=
  RuntimeProperties (Some "web-0042") (Some "vm-42") None None (Some [net1_persisted])
    None None None None (Some snapshot_2cpu) None None None.

(** The context [get_state] is polled in. *)
Definition polled_ctx : ctx := fresh_ctx "web_0042" polled_runtime [] no_properties.

(** The persisted entry of [net1], under another MAC than the device's. *)
Definition net1_persisted_aa : dict :=
  [("name", PStr "net1"); ("mac", PStr "AA:BB:CC:00:00:01"); ("ip", PNone)].

(** A started server that declares [net1] and persists it under a MAC no
    device has. *)
Definition drifted_ctx : ctx :=
  fresh_ctx "web_0042"
    (RuntimeProperties (Some "web-0042") (Some "vm-42") None None
       (Some [net1_persisted_aa]) None None None None (Some snapshot_2cpu)
       None None None)
    []
    (NodeProperties None (Some (Networking (Some [[("name", PStr "net1")]]))) None).

(** ** Networks *)

(** A declared network that takes its details from a relationship. *)
Definition net1_declared : dict :=
  [("name", PStr "net1"); ("from_relationship", PBool true)].

(** The nic the instance is connected to, on the same network. *)
Definition net1_related : rel_nic :=
  RelNic "nic_abc123" (Some [("name", PStr "net1"); ("ip", PStr "10.0.0.5")]) PNone.

(** An entry with every kind of violation: both switches, no name, an
    unknown key and a string where a boolean is expected. *)
Definition malformed_network : dict :=
  [ ("switch_distributed", PBool true); ("nsx_t_switch", PBool true);
    ("color", PStr "red"); ("use_dhcp", PStr "yes") ].

(** The networks of the ordering example, and more external ones. *)
Definition net_a : dict := [("name", PStr "a")].
Definition net_b_external : dict := [("name", PStr "b"); ("external", PBool true)].
Definition net_c_external : dict := [("name", PStr "c"); ("external", PBool true)].

(** [net_a] with every default filled in. *)
Definition defaulted_a : dict :=
  [ ("name", PStr "a"); ("from_relationship", PBool false); ("external", PBool false);
    ("management", PBool false); ("switch_distributed", PBool false);
    ("nsx_t_switch", PBool false); ("use_dhcp", PBool true); ("network", PNone);
    ("gateway", PNone); ("ip", PNone) ].

(** [net_b_external] with every default filled in. *)
Definition defaulted_b : dict :=
  [ ("name", PStr "b"); ("external", PBool true); ("from_relationship", PBool false);
    ("management", PBool false); ("switch_distributed", PBool false);
    ("nsx_t_switch", PBool false); ("use_dhcp", PBool true); ("network", PNone);
    ("gateway", PNone); ("ip", PNone) ].

(** ** Servers and clients *)

(** A server whose guest reports no interface. *)
Definition sample_server : server_obj :=
  ServerObj "vm-42" "web-0042" [] [] (JArr []) 
    [("memorySizeMB", JVal (PInt 2048)); ("numCpu", JVal (PInt 2))] None.

(** A server whose guest reports one interface with two addresses. *)
Definition one_nic_server : server_obj :=
  ServerObj "vm-42" "web-0042" [GuestNic (Some "net1") ["10.0.0.5"; "fe80::1"]]
    [VirtualEthernetCard 4000 "00:50:56:aa:bb:01"] (JArr [])
    [("memorySizeMB", JVal (PInt 2048)); ("numCpu", JVal (PInt 2))] None.

(** A server with a disk controller and one Ethernet card. *)
Definition foreign_nic_server : server_obj :=
  ServerObj "vm-42" "web-0042" []
    [OtherDevice 1000; VirtualEthernetCard 4000 "00:50:56:ff:ff:99"] (JArr [])
    [("memorySizeMB", JVal (PInt 2048)); ("numCpu", JVal (PInt 2))] None.

(** A platform on which no server is found. *)
Definition gone_client : server_client :=
  ServerClient (fun _ => None) (fun _ => None) (fun _ => false) (fun _ _ => None)
    (fun _ _ => None) (fun _ _ => None) (fun _ _ _ _ => None)
    (fun _ => inr PNone) (fun _ _ => None) (fun _ _ => None).

(** A platform on which every look-up finds [sample_server], running. *)
Definition present_client : server_client :=
  ServerClient (fun _ => Some sample_server) (fun _ => Some sample_server)
    (fun _ => true) (fun _ _ => None)
    (fun _ _ => None) (fun _ _ => None) (fun _ _ _ _ => None)
    (fun _ => inr PNone) (fun _ _ => None) (fun _ _ => None).

(** A client that finds [server_obj] running and resolves every public IP
    to [public_ip]. *)
Definition running_client (server_obj : server_obj) (public_ip : option string)
  : server_client :=
  ServerClient (fun _ => Some server_obj) (fun _ => Some server_obj)
    (fun _ => true) (fun _ _ => public_ip)
    (fun _ _ => None) (fun _ _ => None) (fun _ _ _ _ => None)
    (fun _ => inr PNone) (fun _ _ => None) (fun _ _ => None).

(** ** More networks *)

(** A network whose gateway is the empty string. *)
Definition net_blank_gateway : dict :=
  [("name", PStr "a"); ("gateway", PStr ""); ("use_dhcp", PBool false)].

(** [net_blank_gateway] once validated. *)
Definition defaulted_blank_gateway : dict :=
  [ ("name", PStr "a"); ("gateway", PNone); ("use_dhcp", PBool false);
    ("from_relationship", PBool false); ("external", PBool false);
    ("management", PBool false); ("switch_distributed", PBool false);
    ("nsx_t_switch", PBool false); ("network", PNone); ("ip", PNone) ].

(** ** More contexts *)

(** An instance connected to one nic, with one nic id already recorded. *)
Definition reconnected_ctx : ctx :=
  fresh_ctx "web_0042"
    (RuntimeProperties None None None (Some ["nic_abc123"]) None None None None None
       None None None None)
    [net1_related] no_properties.

(** ** More clients *)

(** A platform that finds [sample_server] and refuses to stop or delete it. *)
Definition stubborn_client (e : exn) : server_client :=
  ServerClient (fun _ => Some sample_server) (fun _ => Some sample_server)
    (fun _ => true) (fun _ _ => None)
    (fun _ _ => Some e) (fun _ _ => Some e) (fun _ _ _ _ => Some e)
    (fun _ => inr PNone) (fun _ _ => None) (fun _ _ => None).

(** Power and backup calls that all go through. *)
Definition willing_power : power_client :=
  PowerClient (fun _ _ => None) (fun _ _ => None) (fun _ _ => None)
    (fun _ _ _ _ _ _ => None) (fun _ _ _ => None) (fun _ _ _ => None).

(** Power and backup calls that all fail with [e]. *)
Definition failing_power (e : exn) : power_client :=
  PowerClient (fun _ _ => Some e) (fun _ _ => Some e) (fun _ _ => Some e)
    (fun _ _ _ _ _ _ => Some e) (fun _ _ _ => Some e) (fun _ _ _ => Some e).

(** A server of this plugin with sizes to apply. *)
Definition created_ctx : ctx := fresh_ctx "web_0042" created_runtime [] no_properties.

(** An adopted server. *)
Definition adopted_ctx : ctx := fresh_ctx "db_0007" adopted_runtime [] no_properties.

(** A server with [cpus] persisted for the legacy resize. *)
Definition sized_ctx : ctx :=
  fresh_ctx "web_0042" (started_runtime (Some 4) None) [] no_properties.

(** ** More servers *)

(** A platform that finds [server_obj], with its guest not running. *)
Definition idle_client (server_obj : server_obj) : server_client :=
  ServerClient (fun _ => Some server_obj) (fun _ => Some server_obj)
    (fun _ => false) (fun _ _ => None)
    (fun _ _ => None) (fun _ _ => None) (fun _ _ _ _ => None)
    (fun _ => inr PNone) (fun _ _ => None) (fun _ _ => None).

(** A created server on a node that is not to be started. *)
Definition unstarted_ctx : ctx :=
  fresh_ctx "web_0042" created_runtime [] (NodeProperties None None (Some false)).

(** An appliance: no guest interfaces, an address in the summary. *)
Definition appliance_server : server_obj :=
  ServerObj "vm-77" "appliance" [] [] (JArr []) [] (Some (Some "10.0.0.9")).

(** ** More declarations *)

(** A management network and an external one. *)
Definition managed_networking : networking_props :=
  Networking (Some [ [("name", PStr "net1"); ("management", PBool true)];
                     [("name", PStr "uplink"); ("external", PBool true)] ]).

(** ** Declared sizes *)

(** A node that asks for four CPUs. *)
Definition four_cpu_node : node_properties :=
  NodeProperties (Some (ServerProps None None (Some 4) None)) None None.

(** A started server (its snapshot says two CPUs) on that node. *)
Definition undersized_ctx : ctx :=
  fresh_ctx "web_0042" (started_runtime None None) [] four_cpu_node.

(** The same after [check_drift] has flagged the size. *)
Definition flagged_size_ctx : ctx :=
  fresh_ctx "web_0042"
    (RuntimeProperties (Some "web-0042") (Some "vm-42") None None (Some []) None None
       None None (Some snapshot_2cpu) None (Some true) None)
    [] four_cpu_node.

(** Helpers of [vsphere_plugin_common] that report no address and no drift. *)
Definition quiet_common : plugin_common :=
  PluginCommon (fun _ => None) (fun _ _ => false) (fun _ _ => false).

(** ** A flagged network drift *)

(** A server that declares [net1], persists it under a MAC that no device
    has, and has [network_update] flagged. *)
Definition flagged_network_ctx : ctx :=
  fresh_ctx "web_0042"
    (RuntimeProperties (Some "web-0042") (Some "vm-42") None None
       (Some [net1_persisted_aa]) None None None None (Some snapshot_2cpu)
       None None (Some true))
    []
    (NodeProperties None (Some (Networking (Some [[("name", PStr "net1")]]))) None).

(** ** The first plugin *)

(** A guest with one interface on [Management], and one on [data]. *)
Definition legacy_server : server_obj :=
  ServerObj "vm-7" "db" [ GuestNic (Some "Management") ["10.0.0.7"];
                          GuestNic (Some "data") ["192.168.1.7"; "fe80::7"] ]
    [] (JArr []) [] None.

(** A platform that finds [legacy_server] running and accepts every call. *)
Definition legacy_client : Legacy.client :=
  Legacy.Client (fun _ => Some legacy_server) (fun _ => Some legacy_server)
    (fun _ => inr true) (fun _ => None) (fun _ => None) (fun _ => None)
    (fun _ _ _ => None).

(** A platform on which nothing is found. *)
Definition legacy_gone_client : Legacy.client :=
  Legacy.Client (fun _ => None) (fun _ => None)
    (fun _ => inr false) (fun _ => None) (fun _ => None) (fun _ => None)
    (fun _ _ _ => None).

(** A node whose management network is written with a capital letter. *)
Definition legacy_state : Legacy.state :=
  Legacy.State "db" (Some [[("name", PStr "Management"); ("management", PBool true)]])
    (Some "vm-7") None None None None [].

(** A resource pool node before [create]. *)
Definition no_pool : ResourcePool.state := ResourcePool.State None [].

(** ** Creating a server *)

(** A platform that accepts every request and creates [sample_server]. *)
Definition willing_platform : provisioner :=
  Provisioner
    [("datacenter_name", JVal (PStr "dc1")); ("resource_pool_name", JVal (PStr "Resources"))]
    (fun _ => inr sample_server) (fun _ _ => None) (fun _ _ _ => None)
    (fun _ _ => None) (fun _ _ _ _ => None) (fun _ => inr [net1_persisted])
    (fun _ => "esx-1") (fun _ => [("datastore1", "datastore-11")]).

(** A server to be cloned from a template. *)
Definition templated_server : server_dict :=
  ServerDict (ServerProps None None (Some 2) (Some 2048))
    [("template", JVal (PStr "ubuntu-22"))].

(** An empty [networking] property. *)
Definition plain_networking : networking_dict := NetworkingDict (Networking None) [].

(** Inputs that ask for a started VM on one host. *)
Definition power_on_inputs : inputs :=
  Inputs (JVal (PStr "esx-1")) (JVal PNone) (JVal PNone) (JVal PNone) (JVal PNone)
    (JVal PNone) (JObj []) (JVal PNone) None false true 13 false (JVal PNone)
    (JVal PNone) (JVal PNone) 300.

(** One device key is left for removal. *)
Definition pending_details : details := Details None None None (Some [4000]).

(** * Properties *)

(** Run the monadic plumbing of an operation that has been unfolded. *)
Ltac run :=
  cbv beta delta [bind ret log get_runtime set_runtime ask lift call raise uuid4 sleep];
  simpl.

(** ** Topology resolution: merging relationship networks *)

Lemma merge_prop_nics_length cn props merged :
  merge_prop_nics cn props = inr merged -> length merged = length props.
Proof.
  revert merged; induction props as [|p props IH]; simpl; intros merged H.
  - now inversion H.
  - destruct (getitem cn "name"); [discriminate|].
    destruct (getitem p "name"); [discriminate|].
    destruct (merge_prop_nics cn props) as [e|rest]; [discriminate|].
    inversion H; subst; simpl. now rewrite (IH rest eq_refl).
Qed.

(** C1: the merge rule says a relationship network that matches a declared
    network flagged [from_relationship] is merged into it and not appended.
    On the declared list [[net1 (from_relationship)]] and one relationship
    network [net1], [get_connected_networks] merges the fields and still
    appends the relationship entry: the result has two entries. *)
Theorem C1_get_connected_networks_appends_merged_network :
  exists c',
    get_connected_networks [net1_declared]
      (fresh_ctx "web_0042" no_runtime_properties [net1_related] no_properties)
    = Returns
        [ [("name", PStr "net1"); ("from_relationship", PBool true);
           ("ip", PStr "10.0.0.5")];
          [("name", PStr "net1"); ("ip", PStr "10.0.0.5")] ]
        c'.
Proof. eexists. vm_compute. reflexivity. Qed.

(** Every relationship network ends up appended, merged or not. *)
Lemma get_connected_networks_length props c cn c' :
  get_connected_networks props c = Returns cn c' ->
  length cn = (length props + length (nics_from_rels c))%nat.
Proof.
  unfold get_connected_networks, bind, get_runtime, ask.
  set (c0 := match (match rp_connected_nics (runtime c) with
                    | None => set_runtime (with_connected_nics (Some []))
                    | Some _ => ret tt
                    end) c with
             | Returns _ c1 => c1
             | Raises _ => c
             end).
  assert (E : nics_from_rels c0 = nics_from_rels c)
    by (unfold c0; destruct (rp_connected_nics (runtime c)); reflexivity).
  replace ((match rp_connected_nics (runtime c) with
            | None => set_runtime (with_connected_nics (Some []))
            | Some _ => ret tt
            end) c) with (Returns tt c0)
    by (unfold c0; destruct (rp_connected_nics (runtime c)); reflexivity).
  rewrite E. clear E. generalize c0. clear c0.
  generalize (nics_from_rels c) as rels. intros rels; revert props.
  induction rels as [|rel rels IH]; intros props c0; simpl.
  - unfold ret. intros H; inversion H; subst. lia.
  - unfold bind.
    destruct (target_connected_network rel) as [[|kv d]|]; try discriminate.
    destruct (truthy (get (kv :: d) "name" (target_name rel))); simpl; try discriminate.
    unfold lift.
    destruct (merge_prop_nics _ props) as [e|merged] eqn:Em; try discriminate.
    unfold set_runtime, ret. intros H. apply IH in H.
    rewrite H, length_app, (merge_prop_nics_length _ _ _ Em). simpl. lia.
Qed.

(** ** Identity resolution *)

(** C4: names that are all digits once hyphens are stripped must be rejected
    with a non-recoverable error.  [validate_vm_name] only searches for a
    character outside [A-Za-z0-9-]: it accepts ["1234"], and [get_vm_name]
    derives and returns ["12-34"] for the instance ["12_34"]. *)
Theorem C4_all_numeric_name_is_accepted :
  numeric_after_stripping_hyphens "1234" = true
  /\ validate_vm_name "1234" = inr tt
  /\ numeric_after_stripping_hyphens "12-34" = true
  /\ exists c',
       get_vm_name (ServerProps None None None None) "linux"
         (fresh_ctx "12_34" no_runtime_properties [] no_properties)
       = Returns "12-34" c'.
Proof. repeat split; try reflexivity. eexists. vm_compute. reflexivity. Qed.

(** The part of the naming rule that the code does enforce: a character
    outside the class is refused. *)
Lemma validate_vm_name_forbidden_character vm_name :
  search vm_name = true ->
  exists text, validate_vm_name vm_name = inl (NonRecoverableError text).
Proof. intros H. unfold validate_vm_name. rewrite H. eauto. Qed.

(** C10: with no persisted name, a configured name and [add_scale_suffix]
    false, [get_vm_name] returns the configured name as it is: nothing is
    appended or rewritten, no validation takes place, and the only trace is
    the debug line that opens the function. *)
Theorem C10_configured_name_returned_unchanged
    (server : server_props) (os_family name : string) (c : ctx) :
  rp_name (runtime c) = None ->
  srv_name server = Some name ->
  srv_add_scale_suffix server = Some false ->
  exists c',
    get_vm_name server os_family c = Returns name c'
    /\ runtime c' = runtime c
    /\ logger c' =
       (logger c ++ [(debug, Msg "Server properties: {properties}" [AServer server])])%list.
Proof.
  intros Hp Hn Hs. unfold get_vm_name, bind, log, get_runtime. simpl.
  rewrite Hp, Hn, Hs. unfold ret. eexists; repeat split.
Qed.

Lemma C10_configured_name_returned_unchanged_witness :
  search "my_vm!" = true
  /\ exists c',
       get_vm_name (ServerProps (Some "my_vm!") (Some false) None None) "windows"
         (fresh_ctx "web_0042" no_runtime_properties [] no_properties)
       = Returns "my_vm!" c'.
Proof.
  split; [reflexivity|].
  destruct (C10_configured_name_returned_unchanged
              (ServerProps (Some "my_vm!") (Some false) None None) "windows" "my_vm!"
              (fresh_ctx "web_0042" no_runtime_properties [] no_properties)
              eq_refl eq_refl eq_refl) as [c' [H _]].
  exists c'. exact H.
Defined.

(** ** Lifecycle: looking the server up *)

Lemma get_server_by_context_persisted client server os_family c id :
  rp_vsphere_server_id (runtime c) = Some id ->
  exists c',
    get_server_by_context client server os_family c
    = Returns (get_server_by_id client id) c'
    /\ runtime c' = runtime c
    /\ instance_id c' = instance_id c
    /\ node c' = node c
    /\ logger c' = (logger c ++ [(info, Msg "Performing look-up for server." [])])%list.
Proof.
  intros H. unfold get_server_by_context, bind, log, get_runtime. simpl.
  rewrite H. unfold ret. eexists; repeat split.
Qed.

Lemma str_truthy_some id : id <> "" -> str_truthy (Some id) = true.
Proof.
  intros H. simpl. destruct (String.eqb_spec id ""); [contradiction|reflexivity].
Qed.

(** ** Missing resource: stop and delete *)

(** C9, as stated, fails: with a persisted id, the object gone and the
    instance flagged as an external resource, [stop] without [force_stop]
    returns normally instead of raising. *)
Lemma C9_stop_of_missing_external_resource_returns :
  rp_vsphere_server_id adopted_runtime = Some "vm-42"
  /\ get_server_by_id gone_client "vm-42" = None
  /\ exists c',
       stop gone_client (ServerProps None None None None) "linux" false 300
         (fresh_ctx "db_1f3a" adopted_runtime [] no_properties)
       = Returns tt c'.
Proof. repeat split. eexists. vm_compute. reflexivity. Qed.

(** C9 (amended): when a non-empty server id is persisted and the platform
    object cannot be found, [stop] raises a non-recoverable error unless the
    external-resource guard applies (instance flagged external and
    [force_stop] false); [delete] returns normally in every case, leaves the
    runtime properties alone, and - when its own guard does not apply - logs
    that the server does not exist. *)
Theorem C9_missing_resource_stop_raises_delete_returns
    (client : server_client) (server : server_props) (os_family : string)
    (max_wait_time : Z) (c : ctx) (id : string) :
  rp_vsphere_server_id (runtime c) = Some id ->
  id <> "" ->
  get_server_by_id client id = None ->
  (forall force_stop,
     flag (rp_resource_external (runtime c)) && negb force_stop = false ->
     stop client server os_family force_stop max_wait_time c
     = Raises (NonRecoverableError
                 [Msg "Cannot stop server - server doesn't exist for node: {0}"
                      [AStr (instance_id c)]]))
  /\ (forall force_delete,
        exists c',
          delete client server os_family force_delete max_wait_time c = Returns tt c'
          /\ runtime c' = runtime c
          /\ (flag (rp_resource_external (runtime c)) && negb force_delete = false ->
              In (info, Msg "Cannot delete server - server doesn't exist for node: {0}"
                          [AStr (instance_id c)])
                 (logger c'))).
Proof.
  intros Hid Hne Hgone. split.
  - intros force_stop Hguard.
    unfold stop, bind, get_runtime. rewrite Hguard.
    unfold get_server_by_context, bind, get_runtime.
    destruct force_stop; simpl; rewrite Hid, Hgone; simpl;
      rewrite Hid, (str_truthy_some _ Hne); reflexivity.
  - intros force_delete.
    unfold delete, bind, get_runtime.
    destruct (flag (rp_resource_external (runtime c)) && negb force_delete) eqn:Hguard.
    + simpl. eexists; repeat split. discriminate.
    + unfold get_server_by_context, bind, get_runtime.
      destruct force_delete; simpl; rewrite Hid, Hgone; simpl;
        rewrite Hid, (str_truthy_some _ Hne); simpl;
        (eexists; repeat split; intros _; apply in_or_app; right; left; reflexivity).
Qed.

Lemma C9_missing_resource_stop_raises_delete_returns_witness :
  stop gone_client (ServerProps None None None None) "linux" false 300
    (fresh_ctx "web_0042" created_runtime [] no_properties)
  = Raises (NonRecoverableError
              [Msg "Cannot stop server - server doesn't exist for node: {0}"
                   [AStr "web_0042"]])
  /\ exists c',
       delete gone_client (ServerProps None None None None) "linux" false 300
         (fresh_ctx "web_0042" created_runtime [] no_properties)
       = Returns tt c'.
Proof.
  assert (Hne : "vm-42" <> "") by discriminate.
  destruct (C9_missing_resource_stop_raises_delete_returns
              gone_client (ServerProps None None None None) "linux" 300
              (fresh_ctx "web_0042" created_runtime [] no_properties) "vm-42"
              eq_refl Hne eq_refl) as [Hstop Hdelete].
  split.
  - exact (Hstop false eq_refl).
  - destruct (Hdelete false) as [c' [H _]]. exists c'. exact H.
Defined.

(** ** Dictionaries *)

Section DictFacts.
Context {V : Type}.
Implicit Types (d : @dict_of V) (k : string) (v : V).

Lemma lookup_setitem_same d k v : lookup (setitem d k v) k = Some v.
Proof.
  induction d as [|[k' v'] d IH]; simpl.
  - now rewrite String.eqb_refl.
  - destruct (String.eqb_spec k' k) as [->|Hne]; simpl.
    + now rewrite String.eqb_refl.
    + destruct (String.eqb_spec k' k); [contradiction|exact IH].
Qed.

Lemma lookup_setitem_other d k k' v :
  k <> k' -> lookup (setitem d k v) k' = lookup d k'.
Proof.
  intros Hne. induction d as [|[k0 v0] d IH]; simpl.
  - destruct (String.eqb_spec k k'); [contradiction|reflexivity].
  - destruct (String.eqb_spec k0 k) as [->|Hk]; simpl.
    + destruct (String.eqb_spec k k'); [contradiction|reflexivity].
    + destruct (String.eqb_spec k0 k'); [reflexivity|exact IH].
Qed.

Lemma lookup_delitem_same d k : lookup (delitem d k) k = None.
Proof.
  induction d as [|[k' v'] d IH]; simpl; [reflexivity|].
  destruct (String.eqb_spec k' k) as [->|Hne]; simpl; [exact IH|].
  destruct (String.eqb_spec k' k); [contradiction|exact IH].
Qed.

Lemma lookup_delitem_other d k k' :
  k <> k' -> lookup (delitem d k) k' = lookup d k'.
Proof.
  intros Hne. induction d as [|[k0 v0] d IH]; simpl; [reflexivity|].
  destruct (String.eqb_spec k0 k) as [->|Hk]; simpl.
  - destruct (String.eqb_spec k k'); [contradiction|exact IH].
  - destruct (String.eqb_spec k0 k'); [reflexivity|exact IH].
Qed.

Lemma lookup_none_not_in d k : lookup d k = None <-> ~ In k (keys d).
Proof.
  induction d as [|[k' v'] d IH]; simpl.
  - tauto.
  - destruct (String.eqb_spec k' k) as [->|Hne].
    + split; [discriminate|]. intros H; exfalso; apply H; now left.
    + rewrite IH. split; [intros H [E|E]; [contradiction|tauto]|tauto].
Qed.

Lemma lookup_some_in d k v : lookup d k = Some v -> In (k, v) d.
Proof.
  induction d as [|[k' v'] d IH]; simpl; [discriminate|].
  destruct (String.eqb_spec k' k) as [->|Hne].
  - intros H; inversion H; now left.
  - intros H; right; auto.
Qed.

Lemma in_delitem d k k' v : In (k', v) (delitem d k) -> In (k', v) d.
Proof.
  induction d as [|[k0 v0] d IH]; simpl; [tauto|].
  destruct (String.eqb_spec k0 k); simpl; intuition.
Qed.
End DictFacts.

(** ** Resize *)

(** C2, as stated, fails for either resize operation: [resize_server] called
    on an existing resource with [cpus=None, memory=None] returns normally,
    and [resize] with [cpus] 4 (which it reads from the runtime properties)
    leaves [numCpu] of the expected configuration at its old value 2. *)
Lemma C2_no_resize_operation_meets_both_halves :
  (exists c',
     resize_server present_client (ServerProps None None None None) "linux"
       None None 300
       (fresh_ctx "web_0042" (started_runtime None None) [] no_properties)
     = Returns tt c')
  /\ (exists c',
        resize present_client (ServerProps None None None None) "linux"
          (fresh_ctx "web_0042" (started_runtime (Some 4) None) [] no_properties)
        = Returns tt c'
        /\ expected_summary c' "numCpu" = Some (JVal (PInt 2))).
Proof.
  split; eexists; [|split]; vm_compute; reflexivity.
Qed.

Lemma set_expected_summary_present key value c ec :
  rp_expected_configuration (runtime c) = Some ec ->
  exists c',
    set_expected_summary key value c = Returns tt c'
    /\ rp_expected_configuration (runtime c')
       = Some (ExpectedConfiguration (ec_network ec)
                 (setitem (ec_summary ec) key (JVal value)))
    /\ rp_cpus (runtime c') = rp_cpus (runtime c)
    /\ rp_memory (runtime c') = rp_memory (runtime c).
Proof.
  intros H. unfold set_expected_summary, bind, get_runtime. rewrite H.
  simpl. eexists; repeat split.
Qed.

(** C2 (amended): on an existing resource,
    - [resize], which takes [cpus] and [memory] from the runtime properties,
      raises the non-recoverable "Server resize parameters should be
      specified." when neither is set;
    - [resize_server] with [cpus=None, memory=None] logs the attempt and
      returns without touching the runtime properties;
    - [resize_server] with a non-zero [cpus] (resp. [memory]), once the
      platform resize succeeds and an expected configuration is stored,
      returns with [cpus] (resp. [memory]) persisted and
      [expected_configuration.summary.numCpu] (resp. [memorySizeMB]) equal
      to it. *)
Theorem C2_resize_contract
    (client : server_client) (server : server_props) (os_family : string)
    (c : ctx) (id name : string) (server_obj : server_obj) :
  rp_vsphere_server_id (runtime c) = Some id ->
  rp_name (runtime c) = Some name ->
  get_server_by_id client id = Some server_obj ->
  (int_truthy (rp_cpus (runtime c)) || int_truthy (rp_memory (runtime c)) = false ->
   resize client server os_family c
   = Raises (NonRecoverableError [Msg "Server resize parameters should be specified." []]))
  /\ (forall max_wait_time,
        exists c',
          resize_server client server os_family None None max_wait_time c = Returns tt c'
          /\ runtime c' = runtime c)
  /\ (forall cpus memory max_wait_time ec,
        int_truthy cpus || int_truthy memory = true ->
        client_resize_server client server_obj cpus memory (Some max_wait_time) = None ->
        rp_expected_configuration (runtime c) = Some ec ->
        exists c',
          resize_server client server os_family cpus memory max_wait_time c = Returns tt c'
          /\ (forall n, cpus = Some n -> n <> 0 ->
                rp_cpus (runtime c') = Some n
                /\ expected_summary c' "numCpu" = Some (JVal (PInt n)))
          /\ (forall m, memory = Some m -> m <> 0 ->
                rp_memory (runtime c') = Some m
                /\ expected_summary c' "memorySizeMB" = Some (JVal (PInt m)))).
Proof.
  intros Hid Hname Hsrv. split; [|split].
  - intros Hnone.
    unfold resize, get_server_by_context, get_vm_name. run.
    rewrite Hid, Hsrv. simpl. rewrite Hname. simpl. rewrite Hnone. reflexivity.
  - intros mwt. unfold resize_server. simpl. eexists; split; reflexivity.
  - intros cpus memory mwt ec Hany Hok Hec.
    unfold resize_server. rewrite Hany. simpl.
    unfold bind at 1.
    destruct (get_server_by_context_persisted client server os_family c id Hid)
      as [c1 [-> [Hrt _]]].
    rewrite Hsrv. unfold bind at 1. unfold call. rewrite Hok.
    assert (Hec1 : rp_expected_configuration (runtime c1) = Some ec) by (now rewrite Hrt).
    clear Hrt Hid Hname Hany Hok Hec. revert Hec1. generalize c1. clear c.
    intros c Hec.
    destruct cpus as [n|]; destruct memory as [m|];
      try destruct (Z.eqb_spec n 0) as [->|Hn];
      try destruct (Z.eqb_spec m 0) as [->|Hm]; simpl;
      unfold bind, set_runtime, ret; simpl;
      unfold set_expected_summary, bind, get_runtime, set_runtime; simpl;
      rewrite ?Hec; simpl;
      unfold expected_summary; simpl;
      eexists; (split; [reflexivity|]);
      (split; intros x Hx Hx0; inversion Hx; subst; try contradiction; simpl;
       rewrite ?Hec; simpl;
       rewrite ?lookup_setitem_same;
       try (rewrite lookup_setitem_other by discriminate);
       rewrite ?lookup_setitem_same; try (split; reflexivity)).
Qed.

Lemma C2_resize_contract_witness :
  resize present_client (ServerProps None None None None) "linux"
    (fresh_ctx "web_0042" (started_runtime None None) [] no_properties)
  = Raises (NonRecoverableError [Msg "Server resize parameters should be specified." []])
  /\ exists c',
       resize_server present_client (ServerProps None None None None) "linux"
         (Some 4) None 300
         (fresh_ctx "web_0042" (started_runtime None None) [] no_properties)
       = Returns tt c'
       /\ rp_cpus (runtime c') = Some 4
       /\ expected_summary c' "numCpu" = Some (JVal (PInt 4)).
Proof.
  destruct (C2_resize_contract present_client (ServerProps None None None None) "linux"
              (fresh_ctx "web_0042" (started_runtime None None) [] no_properties)
              "vm-42" "web-0042" sample_server eq_refl eq_refl eq_refl)
    as [Hlegacy [_ Hsized]].
  split.
  - exact (Hlegacy eq_refl).
  - destruct (Hsized (Some 4) None 300 snapshot_2cpu eq_refl eq_refl eq_refl)
      as [c' [Hrun [Hcpus _]]].
    assert (H4 : 4 <> 0) by discriminate.
    destruct (Hcpus 4 eq_refl H4) as [Hrp Hsum].
    exists c'. repeat split; assumption.
Defined.

(** ** Validation of one network *)

Lemma reviews_cons kv items s : reviews (kv :: items) s = reviews items (review kv s).
Proof. reflexivity. Qed.

Ltac review_cases kv s :=
  let t := fresh "t" in
  let dflt := fresh "dflt" in
  let Epop := fresh "Epop" in
  let Eskip := fresh "Eskip" in
  let Etype := fresh "Etype" in
  unfold review, pop;
  destruct (lookup (validations s) (fst kv)) as [[t dflt]|] eqn:Epop; simpl;
  [ destruct (negb (truthy (snd kv)) && negb (pytype_eqb t bool_type)) eqn:Eskip;
    [ | destruct (negb (isinstance (snd kv) t)) eqn:Etype ]
  | ]; simpl.

Lemma review_error kv s :
  validation_error s = true -> validation_error (review kv s) = true.
Proof. intros H. review_cases kv s; auto. Qed.

Lemma reviews_error items s :
  validation_error s = true -> validation_error (reviews items s) = true.
Proof.
  revert s; induction items as [|kv items IH]; intros s H; [exact H|].
  rewrite reviews_cons. apply IH, review_error, H.
Qed.

Lemma review_reported m kv s : reported m s -> reported m (review kv s).
Proof.
  intros [He Hm]. split; [now apply review_error|].
  review_cases kv s; auto; apply in_or_app; now left.
Qed.

Lemma reviews_reported m items s : reported m s -> reported m (reviews items s).
Proof.
  revert s; induction items as [|kv items IH]; intros s H; [exact H|].
  rewrite reviews_cons. apply IH, review_reported, H.
Qed.

(** A turn only removes its own key from the pending validations. *)
Lemma review_validations_other k kv s :
  fst kv <> k -> lookup (validations (review kv s)) k = lookup (validations s) k.
Proof.
  intros Hne. review_cases kv s; auto using lookup_delitem_other.
Qed.

Lemma review_validations_none k kv s :
  lookup (validations s) k = None -> lookup (validations (review kv s)) k = None.
Proof.
  intros H. destruct (string_dec (fst kv) k) as [E|Hne].
  - review_cases kv s; auto; rewrite E; apply lookup_delitem_same.
  - now rewrite review_validations_other.
Qed.

Lemma reviews_validations_none k items s :
  lookup (validations s) k = None -> lookup (validations (reviews items s)) k = None.
Proof.
  revert s; induction items as [|kv items IH]; intros s H; [exact H|].
  rewrite reviews_cons. apply IH, review_validations_none, H.
Qed.

Lemma review_validations_in k x kv s :
  In (k, x) (validations (review kv s)) -> In (k, x) (validations s).
Proof. review_cases kv s; eauto using in_delitem. Qed.

Lemma reviews_validations_in k x items s :
  In (k, x) (validations (reviews items s)) -> In (k, x) (validations s).
Proof.
  revert s; induction items as [|kv items IH]; intros s H; [exact H|].
  rewrite reviews_cons in H. eapply review_validations_in, IH, H.
Qed.

(** An unknown key is reported in the turn that meets it. *)
Lemma reviews_unknown_key items s key value :
  In (key, value) items ->
  lookup (validations s) key = None ->
  reported (msg_unsupported_key key value) (reviews items s).
Proof.
  revert s; induction items as [|kv items IH]; intros s Hin Hnone; [destruct Hin|].
  rewrite reviews_cons. destruct Hin as [->|Hin].
  - apply reviews_reported. unfold review, pop. simpl. rewrite Hnone.
    split; [reflexivity|]. simpl. apply in_or_app; right; now left.
  - apply IH; [exact Hin|]. now apply review_validations_none.
Qed.

(** A truthy (or boolean-keyed) value of the wrong type is reported in the
    turn that meets it. *)
Lemma reviews_wrong_type items s key value t dflt :
  NoDup (keys items) ->
  In (key, value) items ->
  lookup (validations s) key = Some (t, dflt) ->
  truthy value = true \/ t = bool_type ->
  isinstance value t = false ->
  reported (msg_unsupported_type key t value) (reviews items s).
Proof.
  revert s; induction items as [|kv items IH]; intros s Hnd Hin Hv Hor Hty;
    [destruct Hin|].
  rewrite reviews_cons. inversion Hnd as [|k ks Hk Hnd']; subst.
  destruct Hin as [->|Hin].
  - apply reviews_reported. unfold review, pop. simpl. rewrite Hv.
    assert (Eskip : negb (truthy value) && negb (pytype_eqb t bool_type) = false).
    { destruct Hor as [->| ->]; [reflexivity|]. simpl. apply andb_false_r. }
    rewrite Eskip, Hty. simpl. split; [reflexivity|].
    simpl. apply in_or_app; right; now left.
  - apply IH; auto. rewrite review_validations_other; [exact Hv|].
    intros E. apply Hk. unfold keys. rewrite E.
    change key with (fst (key, value)). now apply in_map.
Qed.

Lemma lookup_nodup {V} (d : @dict_of V) k v :
  NoDup (keys d) -> In (k, v) d -> lookup d k = Some v.
Proof.
  induction d as [|[k' v'] d IH]; simpl; intros Hnd Hin; [destruct Hin|].
  inversion Hnd as [|? ? Hk Hnd']; subst.
  destruct Hin as [E|Hin].
  - inversion E; subst. now rewrite String.eqb_refl.
  - destruct (String.eqb_spec k' k) as [->|Hne]; [|auto].
    exfalso. apply Hk. change k with (fst (k, v)). now apply in_map.
Qed.

(** C6: every violation of a network entry - the switch conflict, the
    missing name, each unknown key, each wrong-typed value - is on the
    message list of the single non-recoverable error that
    [validate_connect_network] raises for that entry. *)
Theorem C6_validation_reports_every_violation (n : dict) (m : message) :
  NoDup (keys n) ->
  violation n m ->
  exists text,
    validate_connect_network n = inl (NonRecoverableError text)
    /\ In msg_header text
    /\ In m text.
Proof.
  intros Hnd Hv. unfold validate_connect_network.
  set (s0 := Charges false [msg_header] network_validations n).
  set (s1 := if truthy (get n "switch_distributed" PNone)
                && truthy (get n "nsx_t_switch" PNone)
             then Charges true (validation_error_messages s0 ++ [msg_both_switches])
                    (validations s0) n
             else s0).
  set (s2 := if negb (truthy (get n "name" PNone))
             then Charges true (validation_error_messages s1 ++ [msg_no_name])
                    (delitem (validations s1) "name") n
             else s1).
  fold (reviews n s2).
  assert (Hhead1 : In msg_header (validation_error_messages s1)).
  { unfold s1. destruct (_ && _); simpl; auto. }
  assert (Hhead2 : In msg_header (validation_error_messages s2)).
  { unfold s2. destruct (negb _); simpl; auto. apply in_or_app; now left. }
  assert (Hval1 : validations s1 = network_validations).
  { unfold s1. destruct (_ && _); reflexivity. }
  assert (Hrep : reported m (reviews n s2)).
  { destruct Hv as [Hsd Hnsx | Hname | key value Hin Hunk | key value t dflt Hin Hk Hor Hty].
    - apply reviews_reported. unfold s2.
      assert (R1 : reported msg_both_switches s1).
      { unfold s1. rewrite Hsd, Hnsx. simpl. split; [reflexivity|simpl; tauto]. }
      destruct R1 as [He Hm].
      destruct (negb _); simpl; split; auto. apply in_or_app; now left.
    - apply reviews_reported. unfold s2. rewrite Hname. simpl. split; auto.
      apply in_or_app; right; now left.
    - apply reviews_unknown_key; [exact Hin|].
      unfold s2. destruct (negb _); simpl; rewrite Hval1; [|exact Hunk].
      destruct (string_dec "name" key) as [<-|Hne];
        [apply lookup_delitem_same | now rewrite lookup_delitem_other].
    - eapply reviews_wrong_type; eauto.
      unfold s2. destruct (negb (truthy (get n "name" PNone))) eqn:Hname;
        simpl; rewrite Hval1; [|exact Hk].
      rewrite lookup_delitem_other; [exact Hk|].
      intros <-. unfold get in Hname. rewrite (lookup_nodup _ _ _ Hnd Hin) in Hname.
      destruct Hor as [Ht| ->]; [now rewrite Ht in Hname|discriminate]. }
  destruct Hrep as [He Hm]. rewrite He.
  eexists; split; [reflexivity|]. split; [|exact Hm].
  clear - Hhead2. revert Hhead2. generalize s2. generalize n at 1.
  induction n0 as [|kv items IH]; intros s H; [exact H|].
  rewrite reviews_cons. apply IH.
  review_cases kv s; auto; apply in_or_app; now left.
Qed.

Lemma C6_validation_reports_every_violation_witness :
  (exists text,
     validate_connect_network malformed_network = inl (NonRecoverableError text)
     /\ In msg_header text
     /\ In (msg_unsupported_type "use_dhcp" bool_type (PStr "yes")) text)
  /\ validate_connect_network malformed_network
     = inl (NonRecoverableError
              [ msg_header; msg_both_switches; msg_no_name;
                msg_unsupported_key "color" (PStr "red");
                msg_unsupported_type "use_dhcp" bool_type (PStr "yes") ]).
Proof.
  split; [|reflexivity].
  apply C6_validation_reports_every_violation.
  - repeat constructor; simpl; intuition discriminate.
  - apply wrong_type with (dflt := PBool true).
    + simpl; tauto.
    + reflexivity.
    + now left.
    + reflexivity.
Defined.

(** *** What a successful validation leaves under a boolean key *)

Lemma review_bool_typed k kv s : bool_typed s k -> bool_typed (review kv s) k.
Proof.
  intros H t dflt E. apply (H t dflt). revert E.
  destruct (string_dec (fst kv) k) as [Ek|Hne].
  - review_cases kv s; auto; rewrite Ek, lookup_delitem_same; discriminate.
  - now rewrite review_validations_other.
Qed.

Lemma review_network_bool k kv s :
  bool_typed s k -> lookup (_network (review kv s)) k = lookup (_network s) k.
Proof.
  intros H. review_cases kv s; auto.
  destruct (string_dec (fst kv) k) as [Ek|Hne].
  - rewrite Ek in Epop. rewrite (H _ _ Epop) in Eskip.
    simpl in Eskip. now rewrite andb_false_r in Eskip.
  - now apply lookup_setitem_other.
Qed.

Lemma reviews_bool_key k items s :
  bool_typed s k ->
  validation_error (reviews items s) = false ->
  lookup (_network (reviews items s)) k = lookup (_network s) k
  /\ (lookup items k = None ->
      lookup (validations (reviews items s)) k = lookup (validations s) k)
  /\ (forall value,
        lookup items k = Some value ->
        lookup (validations s) k <> None ->
        isinstance value bool_type = true
        /\ lookup (validations (reviews items s)) k = None).
Proof.
  revert s; induction items as [|[k' v'] items IH]; intros s Hb Herr.
  - repeat split; auto; discriminate.
  - rewrite reviews_cons in *.
    destruct (IH _ (review_bool_typed k (k', v') s Hb) Herr) as [IHn [IHabsent IHpresent]].
    split; [|split].
    + rewrite IHn. now apply review_network_bool.
    + simpl. destruct (String.eqb_spec k' k) as [->|Hne]; [discriminate|].
      intros Hnone. rewrite (IHabsent Hnone). now apply review_validations_other.
    + simpl. intros value. destruct (String.eqb_spec k' k) as [->|Hne].
      * intros E Hsome; inversion E; subst.
        destruct (lookup (validations s) k) as [[t dflt]|] eqn:Ek; [|contradiction].
        assert (t = bool_type) by (eapply Hb; eauto). subst t.
        destruct (isinstance value bool_type) eqn:Ety.
        -- split; [reflexivity|]. apply reviews_validations_none.
           unfold review, pop. simpl. rewrite Ek, Ety. simpl.
           rewrite andb_false_r. simpl. apply lookup_delitem_same.
        -- exfalso. rewrite reviews_error in Herr; [discriminate|].
           unfold review, pop. simpl. rewrite Ek, Ety. simpl.
           now rewrite andb_false_r.
      * intros E Hsome. apply IHpresent; [exact E|].
        now rewrite review_validations_other.
Qed.

Lemma fill_other pending n k :
  ~ In k (keys pending) -> lookup (fill pending n) k = lookup n k.
Proof.
  revert n; induction pending as [|[k' x] pending IH]; intros n H; [reflexivity|].
  simpl in *. unfold fill in *. simpl. rewrite IH by tauto.
  apply lookup_setitem_other. intros E; apply H; now left.
Qed.

Lemma fill_pending pending n k dflt :
  In k (keys pending) ->
  (forall x, In (k, x) pending -> snd x = dflt) ->
  lookup (fill pending n) k = Some dflt.
Proof.
  revert n; induction pending as [|[k' x] pending IH]; intros n Hin Hall;
    [destruct Hin|].
  unfold fill in *. simpl.
  destruct (in_dec string_dec k (keys pending)) as [Hk|Hk].
  - apply IH; [exact Hk|]. intros y Hy. apply Hall. now right.
  - destruct Hin as [E|Hin]; [|contradiction]. simpl in E. subst k'.
    fold (fill pending (setitem n k (snd x))). rewrite fill_other by exact Hk.
    rewrite lookup_setitem_same. f_equal. apply Hall. now left.
Qed.

Lemma network_validations_nodup : NoDup (keys network_validations).
Proof. repeat constructor; simpl; intuition discriminate. Qed.

Lemma validated_bool_key k d v :
  lookup network_validations k = Some (bool_type, PBool false) ->
  validate_connect_network d = inr v ->
  lookup v k = Some (PBool (flagged k d)).
Proof.
  intros Hk. unfold validate_connect_network.
  set (s0 := Charges false [msg_header] network_validations d).
  set (s1 := if truthy (get d "switch_distributed" PNone)
                && truthy (get d "nsx_t_switch" PNone)
             then Charges true (validation_error_messages s0 ++ [msg_both_switches])
                    (validations s0) d
             else s0).
  set (s2 := if negb (truthy (get d "name" PNone))
             then Charges true (validation_error_messages s1 ++ [msg_no_name])
                    (delitem (validations s1) "name") d
             else s1).
  fold (reviews d s2).
  destruct (validation_error (reviews d s2)) eqn:Herr; [discriminate|].
  intros H; inversion H; subst v; clear H.
  fold (fill (validations (reviews d s2)) (_network (reviews d s2))).
  assert (Hval1 : validations s1 = network_validations)
    by (unfold s1; destruct (_ && _); reflexivity).
  assert (Hnet2 : _network s2 = d).
  { unfold s2, s1. destruct (negb _); [reflexivity|]. destruct (_ && _); reflexivity. }
  assert (Hname : k <> "name") by (intros ->; discriminate).
  assert (Hv2 : lookup (validations s2) k = Some (bool_type, PBool false)).
  { unfold s2. destruct (negb _); simpl; rewrite Hval1; [|exact Hk].
    rewrite lookup_delitem_other; auto. }
  assert (Hb : bool_typed s2 k).
  { intros t dflt E. rewrite Hv2 in E. now inversion E. }
  destruct (reviews_bool_key k d s2 Hb Herr) as [Hn [Habsent Hpresent]].
  rewrite Hnet2 in Hn.
  unfold flagged, get.
  destruct (lookup d k) as [value|] eqn:Ed.
  - destruct (Hpresent value eq_refl) as [Hty Hgone]; [rewrite Hv2; discriminate|].
    rewrite fill_other by (now apply lookup_none_not_in).
    rewrite Hn. destruct value; try discriminate. reflexivity.
  - rewrite (Habsent eq_refl) in *. simpl.
    apply fill_pending.
    + destruct (in_dec string_dec k (keys (validations (reviews d s2)))) as [Hin|Hin];
        [exact Hin|].
      apply lookup_none_not_in in Hin. rewrite Habsent, Hv2 in Hin; auto. discriminate.
    + intros x Hx. apply reviews_validations_in in Hx.
      assert (Hx' : In (k, x) network_validations).
      { revert Hx. unfold s2. destruct (negb _); cbn [validations]; rewrite Hval1;
          [apply in_delitem|auto]. }
      apply (lookup_nodup _ _ _ network_validations_nodup) in Hx'.
      rewrite Hk in Hx'. now inversion Hx'.
Qed.

(** ** Exclusivity and ordering of the resolved topology *)

Lemma has_true_validated key d v :
  lookup network_validations key = Some (bool_type, PBool false) ->
  validated d v -> has_true key v = flagged key d.
Proof.
  intros Hk Hv. unfold has_true. rewrite (validated_bool_key key d v Hk Hv).
  now destruct (flagged key d).
Qed.

Lemma has_true_all_validated key cn vs :
  lookup network_validations key = Some (bool_type, PBool false) ->
  Forall2 validated cn vs ->
  length (filter (has_true key) vs) = length (filter (flagged key) cn).
Proof.
  intros Hk H. induction H as [|d v cn vs Hv H IH]; [reflexivity|].
  simpl. rewrite (has_true_validated key d v Hk Hv).
  destruct (flagged key d); simpl; now rewrite IH.
Qed.

Lemma reorder_loop cn acc c res c' :
  for_each cn reorder_turn acc c = Returns res c' ->
  exists vs,
    Forall2 validated cn vs
    /\ res = (rev (filter (has_true "external") vs) ++ acc
              ++ filter (fun v => negb (has_true "external" v)) vs)%list.
Proof.
  revert acc c; induction cn as [|d cn IH]; intros acc c; simpl.
  - unfold ret. intros H; inversion H; subst. exists []. split; [constructor|].
    simpl. now rewrite app_nil_r.
  - unfold bind at 1. unfold reorder_turn at 1. run.
    destruct (validate_connect_network d) as [e|v] eqn:Hv; [discriminate|].
    pose proof (validated_bool_key "external" d v eq_refl Hv) as Hext.
    unfold getitem. rewrite Hext. simpl.
    pose proof (has_true_validated "external" d v eq_refl Hv) as Hh.
    destruct (flagged "external" d) eqn:Hflag; intros H; apply IH in H;
      destruct H as [vs [HF Hres]]; exists (v :: vs);
      (split; [now constructor|]); simpl; rewrite !Hh; simpl; subst res.
    + now rewrite <- app_assoc.
    + now rewrite <- app_assoc.
Qed.

Lemma handle_networks_returns p c res c' :
  handle_networks p c = Returns res c' ->
  exists cn c1 vs,
    get_connected_networks (declared p) c = Returns cn c1
    /\ (length (filter (flagged "external") cn) <= 1)%nat
    /\ (length (filter (flagged "management") cn) <= 1)%nat
    /\ Forall2 validated cn vs
    /\ res = (rev (filter (has_true "external") vs)
              ++ filter (fun v => negb (has_true "external" v)) vs)%list.
Proof.
  unfold handle_networks. fold (declared p). unfold bind at 1.
  destruct (get_connected_networks (declared p) c) as [cn c1|e]; [|discriminate].
  unfold bind at 1. unfold log at 1.
  destruct cn as [|d cn].
  - unfold ret. intros H; inversion H; subst.
    exists [], c1, []. repeat split; simpl; auto; constructor.
  - set (nets := d :: cn).
    unfold bind at 1.
    destruct (1 <? length (filter (flagged "external") nets))%nat eqn:He;
      [discriminate|].
    unfold ret at 1. unfold bind at 1.
    destruct (1 <? length (filter (flagged "management") nets))%nat eqn:Hm;
      [discriminate|].
    unfold ret at 1. fold reorder_turn. intros H.
    apply reorder_loop in H. destruct H as [vs [HF Hres]].
    apply Nat.ltb_ge in He, Hm.
    exists nets, c1, vs. repeat split; auto.
Qed.

Lemma filter_split_length {A} (p q : A -> bool) (l : list A) :
  (length (filter p (filter q l)) + length (filter p (filter (fun x => negb (q x)) l))
   = length (filter p l))%nat.
Proof.
  induction l as [|x l IH]; [reflexivity|].
  simpl. destruct (q x), (p x) eqn:Hp; simpl; rewrite ?Hp; simpl; lia.
Qed.

Lemma reordered_count {A} (p q : A -> bool) (l : list A) :
  length (filter p (rev (filter q l) ++ filter (fun x => negb (q x)) l))
  = length (filter p l).
Proof.
  rewrite filter_app, length_app, filter_rev, length_rev. apply filter_split_length.
Qed.

Lemma rev_short {A} (l : list A) : (length l <= 1)%nat -> rev l = l.
Proof. destruct l as [|x [|y l]]; simpl; auto; lia. Qed.

(** C7: a list returned by [handle_networks] never holds more than one
    entry with [external = True] nor more than one with [management = True];
    and whenever the combined list that [get_connected_networks] produces
    has more than one external or more than one management network,
    [handle_networks] raises the non-recoverable error that names a
    constraint which did fail. *)
Theorem C7_at_most_one_external_and_management
    (p : networking_props) (c : ctx) :
  (forall res c',
     handle_networks p c = Returns res c' ->
     (length (filter (has_true "external") res) <= 1)%nat
     /\ (length (filter (has_true "management") res) <= 1)%nat)
  /\ (forall cn c1,
        get_connected_networks (declared p) c = Returns cn c1 ->
        (1 < length (filter (flagged "external") cn))%nat
        \/ (1 < length (filter (flagged "management") cn))%nat ->
        exists which,
          handle_networks p c = Raises (NonRecoverableError [err_msg which])
          /\ (which = "external" \/ which = "management")
          /\ (1 < length (filter (flagged which) cn))%nat).
Proof.
  split.
  - intros res c' H.
    destruct (handle_networks_returns p c res c' H)
      as [cn [c1 [vs [_ [He [Hm [HF ->]]]]]]].
    rewrite !reordered_count.
    rewrite (has_true_all_validated "external" cn vs eq_refl HF).
    rewrite (has_true_all_validated "management" cn vs eq_refl HF).
    split; assumption.
  - intros cn c1 Hg Hmany.
    unfold handle_networks. fold (declared p). unfold bind at 1. rewrite Hg.
    unfold bind at 1. unfold log at 1.
    destruct cn as [|d cn]; [simpl in Hmany; lia|].
    set (nets := d :: cn) in *.
    unfold bind at 1.
    destruct (1 <? length (filter (flagged "external") nets))%nat eqn:He.
    + exists "external". apply Nat.ltb_lt in He. repeat split; auto.
    + unfold ret at 1. unfold bind at 1.
      apply Nat.ltb_ge in He.
      destruct (1 <? length (filter (flagged "management") nets))%nat eqn:Hm.
      * exists "management". apply Nat.ltb_lt in Hm. repeat split; auto.
      * apply Nat.ltb_ge in Hm. lia.
Qed.

Lemma C7_at_most_one_external_and_management_witness :
  (exists which,
     handle_networks (Networking (Some [net_b_external; net_a; net_c_external])) plain_ctx
     = Raises (NonRecoverableError [err_msg which]))
  /\ (exists res c',
        handle_networks (Networking (Some [net_a; net_b_external])) plain_ctx
        = Returns res c'
        /\ (length (filter (has_true "external") res) <= 1)%nat).
Proof.
  split.
  - destruct (C7_at_most_one_external_and_management
                (Networking (Some [net_b_external; net_a; net_c_external])) plain_ctx)
      as [_ Hraises].
    assert (Hg : exists c1,
               get_connected_networks [net_b_external; net_a; net_c_external] plain_ctx
               = Returns [net_b_external; net_a; net_c_external] c1)
      by (eexists; vm_compute; reflexivity).
    destruct Hg as [c1 Hg].
    assert (Hmany : (1 < length (filter (flagged "external")
                                   [net_b_external; net_a; net_c_external]))%nat)
      by (simpl; lia).
    destruct (Hraises _ c1 Hg (or_introl Hmany)) as [which [Hr _]].
    exists which. exact Hr.
  - destruct (C7_at_most_one_external_and_management
                (Networking (Some [net_a; net_b_external])) plain_ctx)
      as [Hreturns _].
    assert (Hr : exists res c',
               handle_networks (Networking (Some [net_a; net_b_external])) plain_ctx
               = Returns res c')
      by (do 2 eexists; vm_compute; reflexivity).
    destruct Hr as [res [c' Hr]].
    exists res, c'. split; [exact Hr|]. exact (proj1 (Hreturns res c' Hr)).
Defined.

(** C8: the list returned by [handle_networks] is the validated (defaulted)
    combined list with its external entry, of which there is at most one,
    moved to the front and all other entries in their original order; for
    [[{name: a}, {name: b, external: true}]] it is [[b, a]]. *)
Theorem C8_external_first_rest_in_order :
  (forall p c res c',
     handle_networks p c = Returns res c' ->
     exists cn c1 vs,
       get_connected_networks (declared p) c = Returns cn c1
       /\ Forall2 validated cn vs
       /\ (length (filter (has_true "external") vs) <= 1)%nat
       /\ res = (filter (has_true "external") vs
                 ++ filter (fun v => negb (has_true "external" v)) vs)%list)
  /\ exists c',
       handle_networks (Networking (Some [net_a; net_b_external])) plain_ctx
       = Returns [defaulted_b; defaulted_a] c'.
Proof.
  split.
  - intros p c res c' H.
    destruct (handle_networks_returns p c res c' H)
      as [cn [c1 [vs [Hg [He [_ [HF ->]]]]]]].
    exists cn, c1, vs.
    assert (Hone : (length (filter (has_true "external") vs) <= 1)%nat)
      by (now rewrite (has_true_all_validated "external" cn vs eq_refl HF)).
    repeat split; auto. now rewrite (rev_short _ Hone).
  - eexists. vm_compute. reflexivity.
Qed.

Lemma C8_external_first_rest_in_order_witness :
  exists vs,
    Forall2 validated [net_a; net_b_external] vs
    /\ [defaulted_b; defaulted_a]
       = (filter (has_true "external") vs
          ++ filter (fun v => negb (has_true "external" v)) vs)%list.
Proof.
  destruct C8_external_first_rest_in_order as [Hgeneral [c' Hexample]].
  destruct (Hgeneral _ _ _ _ Hexample) as [cn [c1 [vs [Hg [HF [_ Hres]]]]]].
  assert (Hcn : cn = [net_a; net_b_external]).
  { vm_compute in Hg. now inversion Hg. }
  subst cn. exists vs. split; assumption.
Defined.

(** ** Readiness polling *)

Lemma settled_refl c : settled c c.
Proof. repeat split. Qed.

Lemma settled_trans c c1 c2 : settled c c1 -> settled c1 c2 -> settled c c2.
Proof.
  intros [A [B C]] [A' [B' C']]. repeat split; congruence.
Qed.

Lemma settled_field {A} (f : runtime_properties -> A) c c1 :
  (forall r, f (with_min_wait_time_start None r) = f r) ->
  settled c c1 -> f (runtime c1) = f (runtime c).
Proof.
  intros Hf [_ [_ H]]. rewrite <- (Hf (runtime c1)), <- (Hf (runtime c)). now rewrite H.
Qed.

Lemma waiting_settled turns count m c :
  exists c1, waiting turns count m c = Returns tt c1 /\ settled c c1.
Proof.
  revert count c; induction turns as [|turns IH]; intros count c; simpl.
  - exists c. split; [reflexivity|apply settled_refl].
  - destruct (count <? m).
    + run. destruct (IH (count + 10) 
        (Ctx (instance_id c) (runtime c) (nics_from_rels c) (node c) (clock c + 10)
           (uuids c) (uuid_count c)
           (logger c ++ [(info, Msg "Waiting for IP Addresses to be ready ..." [])])))
        as [c1 [H S]].
      exists c1. split; [exact H|]. eapply settled_trans; [|exact S]. repeat split.
    + exists c. split; [reflexivity|apply settled_refl].
Qed.

Lemma arrived_at_min_wait_time_settled m c :
  exists c1, arrived_at_min_wait_time m c = Returns tt c1 /\ settled c c1.
Proof.
  unfold arrived_at_min_wait_time. run.
  destruct (rp_min_wait_time_start (runtime c)) as [start|]; run.
  - destruct (m >? clock c - start); eexists; split; try reflexivity; repeat split.
  - match goal with |- context [waiting ?t ?n ?m ?c0] =>
      destruct (waiting_settled t n m c0) as [c1 [H S]] end.
    exists c1. split; [exact H|]. eapply settled_trans; [|exact S]. repeat split.
Qed.

Lemma get_vm_name_persisted server os_family c name :
  rp_name (runtime c) = Some name ->
  exists c1, get_vm_name server os_family c = Returns name c1
             /\ runtime c1 = runtime c /\ settled c c1.
Proof.
  intros H. unfold get_vm_name. run. rewrite H. run.
  eexists; repeat split.
Qed.

Lemma bind_returns {A B} (m : M A) (k : A -> M B) c a c1 :
  m c = Returns a c1 -> bind m k c = k a c1.
Proof. intros H. unfold bind. now rewrite H. Qed.

Lemma min_wait_settled minimum_wait_time c :
  exists c1,
    (match minimum_wait_time with
     | Some m => if m >? 0 then arrived_at_min_wait_time m else ret tt
     | None => ret tt
     end) c = Returns tt c1
    /\ settled c c1.
Proof.
  destruct minimum_wait_time as [m|]; [destruct (m >? 0)|];
    try (exists c; split; [reflexivity|apply settled_refl]).
  apply arrived_at_min_wait_time_settled.
Qed.

(** The steps of [get_state] up to the inspection of the guest. *)
Lemma get_state_found client common server networking os_family wait_ip
    minimum_wait_time c id name server_obj :
  rp_vsphere_server_id (runtime c) = Some id ->
  rp_name (runtime c) = Some name ->
  get_server_by_id client id = Some server_obj ->
  exists c1,
    settled c c1 /\
    get_state client common server networking os_family wait_ip minimum_wait_time c
    = get_state client common server networking os_family wait_ip None c1.
Proof.
  intros Hid Hname Hsrv.
  destruct (min_wait_settled minimum_wait_time c) as [c1 [H1 S1]].
  exists c1. split; [exact S1|].
  unfold get_state. erewrite bind_returns by exact H1.
  reflexivity.
Qed.

(** Enter [get_state] on a persisted, existing, running server whose
    [os_family] is not "other": what is left is the guest inspection. *)
Ltac enter_get_state Hid Hname Hsrv Hrun Hos Hm :=
  match goal with
  | |- context [get_state ?client ?common ?server (Some ?networking) ?os ?wait ?mwt ?c] =>
      let c1 := fresh "c" in
      let S1 := fresh "S" in
      let c2 := fresh "c" in
      let H2 := fresh "H" in
      let R2 := fresh "R" in
      let c3 := fresh "c" in
      let H3 := fresh "H" in
      let R3 := fresh "R" in
      let Hn := fresh "Hname" in
      destruct (get_state_found client common server (Some networking) os wait
                  mwt c _ _ _ Hid Hname Hsrv) as [c1 [S1 ->]];
      rewrite <- (settled_field rp_vsphere_server_id c c1 (fun r => eq_refl) S1) in Hid;
      rewrite <- (settled_field rp_name c c1 (fun r => eq_refl) S1) in Hname;
      try rewrite <- (settled_field rp_networks c c1 (fun r => eq_refl) S1) in *;
      unfold get_state; unfold bind at 1; unfold ret at 1;
      destruct (get_server_by_context_persisted client server os c1 _ Hid)
        as [c2 [H2 [R2 _]]];
      erewrite bind_returns by exact H2; rewrite Hsrv;
      assert (Hn : rp_name (runtime c2) = Some _) by (rewrite R2; exact Hname);
      destruct (get_vm_name_persisted server os c2 _ Hn) as [c3 [H3 [R3 _]]];
      erewrite bind_returns by exact H3;
      rewrite (proj2 (String.eqb_neq _ _) Hos);
      run; rewrite Hrun; simpl; fold (declared networking); rewrite Hm;
      rewrite ?R3, ?R2
  end.

(** A line is in the log once it has been appended. *)
Ltac in_log :=
  repeat first [ apply in_or_app; right; left; reflexivity | apply in_or_app; left ].

Lemma get_state_no_interface
    (client : server_client) (common : plugin_common) (server : server_props)
    (networking : networking_props) (os_family : string) (wait_ip : bool)
    (minimum_wait_time : option Z) (c : ctx) (id name : string)
    (server_obj : server_obj) (management_networks : list pyval) :
  rp_vsphere_server_id (runtime c) = Some id ->
  rp_name (runtime c) = Some name ->
  get_server_by_id client id = Some server_obj ->
  is_server_guest_running client server_obj = true ->
  os_family <> "other" ->
  names_flagged "management" (declared networking) = inr management_networks ->
  so_guest_net server_obj = [] ->
  if truthy (match management_networks with [n] => n | _ => PNone end) then
    get_state client common server (Some networking) os_family wait_ip minimum_wait_time c
    = Raises (OperationRetry (Msg "Management IP addresses not yet assigned." []))
  else if wait_ip then
    get_state client common server (Some networking) os_family wait_ip minimum_wait_time c
    = Raises (OperationRetry (Msg "IP address not yet exported." []))
  else
    exists c',
      get_state client common server (Some networking) os_family wait_ip
        minimum_wait_time c
      = Returns true c'
      /\ rp_ip (runtime c') = None
      /\ rp_public_ip (runtime c') = None.
Proof.
  intros Hid Hname Hsrv Hrun Hos Hm Hnet.
  destruct (truthy (match management_networks with [n] => n | _ => PNone end)) eqn:Hmgmt;
    [|destruct wait_ip];
    enter_get_state Hid Hname Hsrv Hrun Hos Hm; rewrite Hnet; simpl; rewrite Hmgmt; simpl.
  - reflexivity.
  - reflexivity.
  - eexists; repeat split.
Qed.

Lemma get_state_one_interface
    (client : server_client) (common : plugin_common) (server : server_props)
    (networking : networking_props) (os_family : string) (wait_ip : bool)
    (minimum_wait_time : option Z) (c : ctx) (id name : string)
    (server_obj : server_obj)
    (network : guest_nic) (ip : string) (nets nets' : list dict) (external : list pyval) :
  rp_vsphere_server_id (runtime c) = Some id ->
  rp_name (runtime c) = Some name ->
  get_server_by_id client id = Some server_obj ->
  is_server_guest_running client server_obj = true ->
  os_family <> "other" ->
  names_flagged "management" (declared networking) = inr [] ->
  so_guest_net server_obj = [network] ->
  get_ip_from_vsphere_nic_ips common network = Some ip ->
  ip <> "" ->
  rp_networks (runtime c) = Some nets ->
  store_ip nets (opt_val (nic_network network)) (PStr ip) = inr nets' ->
  names_flagged "external" (declared networking) = inr external ->
  existsb is_none (map (get_server_ip client server_obj) external) = false ->
  exists c',
    get_state client common server (Some networking) os_family wait_ip minimum_wait_time c
    = Returns true c'
    /\ rp_ip (runtime c') = Some ip
    /\ rp_networks (runtime c') = Some nets'
    /\ rp_public_ip (runtime c')
       = match external with
         | first :: _ => get_server_ip client server_obj first
         | [] => None
         end
    /\ In (info, Msg "Server management ip address: {0}" [AOptStr (Some ip)])
          (logger c').
Proof.
  intros Hid Hname Hsrv Hrun Hos Hm Hnet Hip Hne Hnets Hstore Hext Hpub.
  enter_get_state Hid Hname Hsrv Hrun Hos Hm. rewrite Hnet. simpl.
  unfold scan_guest_nic. run. rewrite Hip. run. rewrite Hnets. rewrite Hstore. run.
  assert (He : (ip =? "")%string = false) by (now apply String.eqb_neq).
  unfold or_else. simpl. rewrite ?He. simpl. rewrite Hext.
  destruct external as [|first rest]; simpl in *; rewrite ?Hpub; simpl;
    rewrite ?He; simpl; eexists; repeat split; simpl; in_log.
Qed.

(** C3, as stated, fails in both halves: a running server with no guest
    interface, no management network and [wait_ip] false makes [get_state]
    return [True]; and a single interface with an IP and no management
    network still makes it retry while a declared external network has no
    public IP. *)
Lemma C3_no_interface_returns_and_one_interface_retries :
  (exists c',
     get_state (running_client sample_server None) spec_common
       (ServerProps None None None None) (Some (Networking (Some [net_a])))
       "linux" false None polled_ctx
     = Returns true c')
  /\ get_state (running_client one_nic_server None) spec_common
       (ServerProps None None None None)
       (Some (Networking (Some [net_a; net_b_external])))
       "linux" false None polled_ctx
     = Raises (OperationRetry (Msg "Public IP addresses not yet assigned." [])).
Proof. split; [eexists|]; vm_compute; reflexivity. Qed.

(** C3 (amended): for a server found by its persisted id and running, with
    an [os_family] other than "other":
    - when the guest reports no interface, [get_state] signals a retry if
      exactly one management network (with a name) is declared or if
      [wait_ip] is set, and otherwise returns [True] with no IP stored;
    - when the guest reports exactly one interface with a non-empty IP, no
      management network is declared, the persisted networks are all named
      and every declared external network resolves to a public IP,
      [get_state] returns [True] with that IP stored as the instance IP and
      logged as the management IP. *)
Theorem C3_readiness_polling
    (client : server_client) (common : plugin_common) (server : server_props)
    (networking : networking_props) (os_family : string) (wait_ip : bool)
    (minimum_wait_time : option Z) (c : ctx) (id name : string)
    (server_obj : server_obj) (management_networks : list pyval) :
  rp_vsphere_server_id (runtime c) = Some id ->
  rp_name (runtime c) = Some name ->
  get_server_by_id client id = Some server_obj ->
  is_server_guest_running client server_obj = true ->
  os_family <> "other" ->
  names_flagged "management" (declared networking) = inr management_networks ->
  (so_guest_net server_obj = [] ->
   if truthy (match management_networks with [n] => n | _ => PNone end) then
     get_state client common server (Some networking) os_family wait_ip minimum_wait_time c
     = Raises (OperationRetry (Msg "Management IP addresses not yet assigned." []))
   else if wait_ip then
     get_state client common server (Some networking) os_family wait_ip minimum_wait_time c
     = Raises (OperationRetry (Msg "IP address not yet exported." []))
   else
     exists c',
       get_state client common server (Some networking) os_family wait_ip
         minimum_wait_time c
       = Returns true c'
       /\ rp_ip (runtime c') = None
       /\ rp_public_ip (runtime c') = None)
  /\ (forall network ip nets nets' external,
        so_guest_net server_obj = [network] ->
        get_ip_from_vsphere_nic_ips common network = Some ip ->
        ip <> "" ->
        management_networks = [] ->
        rp_networks (runtime c) = Some nets ->
        store_ip nets (opt_val (nic_network network)) (PStr ip) = inr nets' ->
        names_flagged "external" (declared networking) = inr external ->
        existsb is_none (map (get_server_ip client server_obj) external) = false ->
        exists c',
          get_state client common server (Some networking) os_family wait_ip
            minimum_wait_time c
          = Returns true c'
          /\ rp_ip (runtime c') = Some ip
          /\ rp_networks (runtime c') = Some nets'
          /\ rp_public_ip (runtime c')
             = match external with
               | first :: _ => get_server_ip client server_obj first
               | [] => None
               end
          /\ In (info, Msg "Server management ip address: {0}" [AOptStr (Some ip)])
                (logger c')).
Proof.
  intros Hid Hname Hsrv Hrun Hos Hm. split.
  - intros Hnet. eapply get_state_no_interface; eauto.
  - intros network ip nets nets' external Hnet Hip Hne -> Hnets Hstore Hext Hpub.
    eapply get_state_one_interface; eauto.
Qed.

Lemma C3_readiness_polling_witness :
  get_state (running_client sample_server None) spec_common
    (ServerProps None None None None) (Some (Networking (Some [net_a])))
    "linux" true (Some 30) polled_ctx
  = Raises (OperationRetry (Msg "IP address not yet exported." []))
  /\ exists c',
       get_state (running_client one_nic_server (Some "203.0.113.7")) spec_common
         (ServerProps None None None None)
         (Some (Networking (Some [net_a; net_b_external])))
         "linux" true (Some 30) polled_ctx
       = Returns true c'
       /\ rp_ip (runtime c') = Some "10.0.0.5"
       /\ rp_public_ip (runtime c') = Some "203.0.113.7".
Proof.
  assert (Hos : "linux" <> "other") by discriminate.
  split.
  - exact (proj1 (C3_readiness_polling (running_client sample_server None) spec_common
                    (ServerProps None None None None) (Networking (Some [net_a]))
                    "linux" true (Some 30) polled_ctx "vm-42" "web-0042" sample_server []
                    eq_refl eq_refl eq_refl eq_refl Hos eq_refl) eq_refl).
  - assert (Hip : "10.0.0.5" <> "") by discriminate.
    destruct (proj2 (C3_readiness_polling
                       (running_client one_nic_server (Some "203.0.113.7")) spec_common
                       (ServerProps None None None None)
                       (Networking (Some [net_a; net_b_external]))
                       "linux" true (Some 30) polled_ctx "vm-42" "web-0042"
                       one_nic_server []
                       eq_refl eq_refl eq_refl eq_refl Hos eq_refl)
                (GuestNic (Some "net1") ["10.0.0.5"; "fe80::1"]) "10.0.0.5"
                [net1_persisted]
                [[("name", PStr "net1"); ("mac", PStr "00:50:56:aa:bb:01");
                  ("ip", PStr "10.0.0.5")]]
                [PStr "b"]
                eq_refl eq_refl Hip eq_refl eq_refl eq_refl eq_refl eq_refl)
      as [c' [Hrun [Hipv [_ [Hpub _]]]]].
    exists c'. repeat split; assumption.
Defined.

(** ** Drift detection and reconciliation of foreign devices *)

Lemma kept_refl c : kept c c.
Proof. repeat split. Qed.

Lemma kept_trans c c1 c2 : kept c c1 -> kept c1 c2 -> kept c c2.
Proof.
  intros [A [B [C [D E]]]] [A' [B' [C' [D' E']]]]. repeat split; congruence.
Qed.

Lemma existing_networks_loop networks devices acc c :
  exists existing c1,
    for_each devices
      (fun device existing_networks =>
         match device with
         | VirtualEthernetCard _ macAddress =>
             match defined_network networks macAddress with
             | Some network =>
                 ret (existing_networks ++ [known (get network "name" PNone)])%list
             | None =>
                 u <- uuid4 ;;
                 ret (existing_networks ++ [unknown u])%list
             end
         | OtherDevice _ => ret existing_networks
         end) acc c
    = Returns existing c1
    /\ kept c c1
    /\ (forall x, In x acc -> In x existing)
    /\ (forall key mac,
          In (VirtualEthernetCard key mac) devices ->
          defined_network networks mac = None ->
          exists u, In (unknown u) existing).
Proof.
  revert acc c; induction devices as [|device devices IH]; intros acc c.
  - exists acc, c. simpl. repeat split; auto. intros ? ? [].
  - simpl. unfold bind at 1.
    destruct device as [key0 mac0|key0].
    + destruct (defined_network networks mac0) as [network|] eqn:Hdef.
      * unfold ret at 1.
        destruct (IH (acc ++ [known (get network "name" PNone)])%list c)
          as [existing [c1 [Hrun [Hkept [Hacc Hforeign]]]]].
        exists existing, c1. split; [exact Hrun|]. split; [exact Hkept|]. split.
        -- intros x Hx. apply Hacc, in_or_app. now left.
        -- intros key mac [E|Hin] Hnone; [|eauto].
           inversion E; subst. rewrite Hdef in Hnone. discriminate.
      * run.
        match goal with |- context [for_each devices ?body ?acc' ?c'] =>
          destruct (IH acc' c') as [existing [c1 [Hrun [Hkept [Hacc Hforeign]]]]] end.
        exists existing, c1. split; [exact Hrun|]. split.
        -- eapply kept_trans; [|exact Hkept]. repeat split.
        -- split.
           ++ intros x Hx. apply Hacc, in_or_app. now left.
           ++ intros key mac [E|Hin] Hnone; [|eauto].
              eexists. apply Hacc, in_or_app. right. now left.
    + unfold ret at 1.
      destruct (IH acc c) as [existing [c1 [Hrun [Hkept [Hacc Hforeign]]]]].
      exists existing, c1. repeat split; try apply Hkept; auto.
      intros key mac [E|Hin] Hnone; [discriminate|eauto].
Qed.

Lemma spec_changed_stored ec key value :
  lookup (ec_summary ec) key <> None ->
  exists b, spec_changed (Some ec) key value = inr b.
Proof.
  intros H. unfold spec_changed, differs_from_expected, getitem.
  destruct (int_truthy value); [|eauto].
  destruct value as [v|]; [|eauto].
  destruct (lookup (ec_summary ec) key) as [[x|l|l]|]; [eauto..|contradiction].
Qed.

Lemma check_drift_reports_foreign_device client common c id server_obj key mac :
  rp_vsphere_server_id (runtime c) = Some id ->
  id <> "" ->
  get_server_by_id client id = Some server_obj ->
  In (VirtualEthernetCard key mac) (so_device server_obj) ->
  defined_network (persisted_networks c) mac = None ->
  foreign_causes_diff common ->
  snapshot_stored c ->
  exists c1,
    check_drift client common c = Returns true c1
    /\ rp_network_update (runtime c1) = Some true
    /\ kept c c1.
Proof.
  intros Hid Hne Hsrv Hdev Hforeign Hdiff [ec [Hec [Hmem Hcpu]]].
  unfold check_drift. run. rewrite Hid.
  rewrite (proj2 (String.eqb_neq _ _) Hne). rewrite Hsrv. run.
  fold (persisted_networks c).
  match goal with |- context [existing_networks ?n ?d ?c0] =>
    destruct (existing_networks_loop n d [] c0)
      as [existing [c1 [Hrun [Hkept [_ Hunk]]]]] end.
  unfold existing_networks. rewrite Hrun.
  destruct (Hunk key mac Hdev Hforeign) as [u Hu].
  rewrite (Hdiff existing _ u Hu). run. rewrite Hec.
  match goal with |- context [spec_changed (Some ec) "memorySizeMB" ?v] =>
    destruct (spec_changed_stored ec "memorySizeMB" v Hmem) as [bm Hbm] end.
  match goal with |- context [spec_changed (Some ec) "numCpu" ?v] =>
    destruct (spec_changed_stored ec "numCpu" v Hcpu) as [bc Hbc] end.
  rewrite Hbm. destruct bm; simpl.
  - eexists; repeat split; try apply Hkept.
  - rewrite Hbc. destruct bc; simpl; eexists; repeat split; try apply Hkept.
Qed.

Lemma nics_for_remove_foreign networks to_remove devices key mac :
  In (VirtualEthernetCard key mac) devices ->
  defined_network networks mac = None ->
  In (VirtualEthernetCard key mac) (nics_for_remove networks to_remove devices).
Proof.
  intros Hin Hnone. induction devices as [|device devices IH]; [destruct Hin|].
  simpl. destruct Hin as [->|Hin].
  - rewrite Hnone. now left.
  - destruct device as [key0 mac0|key0]; [|auto].
    destruct (defined_network networks mac0); [destruct (member _ _)|];
      simpl; auto.
Qed.

(** *** The resolved topology does not depend on the rest of the context *)

Lemma connect_loop_oblivious rels props c1 c2 :
  same_result (for_each rels connect_turn props c1) (for_each rels connect_turn props c2).
Proof.
  revert props c1 c2; induction rels as [|rel rels IH]; intros props c1 c2; simpl.
  - reflexivity.
  - unfold bind at 1 2. unfold connect_turn at 1 3.
    destruct (target_connected_network rel) as [[|kv d]|]; try reflexivity.
    destruct (truthy (get (kv :: d) "name" (target_name rel))); simpl; try reflexivity.
    unfold lift, bind at 1 2 3 4.
    destruct (merge_prop_nics _ props) as [e|merged]; [reflexivity|].
    unfold set_runtime, ret. apply IH.
Qed.

Lemma bind_same_result {A B} (m : M A) (k : A -> M B) c1 c2 :
  same_result (m c1) (m c2) ->
  (forall a d1 d2, same_result (k a d1) (k a d2)) ->
  same_result (bind m k c1) (bind m k c2).
Proof.
  intros Hm Hk. unfold bind.
  destruct (m c1) as [a d1|e1], (m c2) as [b d2|e2]; simpl in Hm;
    try contradiction; [subst b; apply Hk|exact Hm].
Qed.

Lemma get_connected_networks_oblivious props c1 c2 :
  nics_from_rels c1 = nics_from_rels c2 ->
  same_result (get_connected_networks props c1) (get_connected_networks props c2).
Proof.
  intros E. unfold get_connected_networks. fold connect_turn.
  cbv beta delta [bind get_runtime ask]. simpl.
  destruct (rp_connected_nics (runtime c1)), (rp_connected_nics (runtime c2));
    unfold set_runtime, ret; simpl; rewrite E; apply connect_loop_oblivious.
Qed.

Lemma reorder_loop_oblivious cn acc c1 c2 :
  same_result (for_each cn reorder_turn acc c1) (for_each cn reorder_turn acc c2).
Proof.
  revert acc c1 c2; induction cn as [|d cn IH]; intros acc c1 c2; simpl.
  - reflexivity.
  - unfold bind at 1 2. unfold reorder_turn at 1 3. run.
    destruct (validate_connect_network d) as [e|v]; [reflexivity|].
    destruct (getitem v "external") as [e|external]; [reflexivity|].
    destruct (truthy external); apply IH.
Qed.

Lemma handle_networks_oblivious p c1 c2 :
  nics_from_rels c1 = nics_from_rels c2 ->
  same_result (handle_networks p c1) (handle_networks p c2).
Proof.
  intros E. unfold handle_networks. fold (declared p).
  apply bind_same_result; [now apply get_connected_networks_oblivious|].
  intros cn d1 d2. apply bind_same_result; [reflexivity|]. intros _ e1 e2.
  destruct cn as [|d cn]; [reflexivity|].
  set (nets := d :: cn).
  apply bind_same_result;
    [destruct (1 <? length (filter (flagged "external") nets))%nat; reflexivity|].
  intros _ f1 f2.
  apply bind_same_result;
    [destruct (1 <? length (filter (flagged "management") nets))%nat; reflexivity|].
  intros _ g1 g2. fold reorder_turn. apply reorder_loop_oblivious.
Qed.

(** *** update *)

Lemma for_each_grows {A} (body : A -> list device_spec * Z -> M (list device_spec * Z))
    (l : list A) (s : list device_spec * Z) (c : ctx) :
  (forall x s c, exists s' c',
      body x s c = Returns s' c' /\ incl (fst s) (fst s')) ->
  exists s' c', for_each l body s c = Returns s' c' /\ incl (fst s) (fst s').
Proof.
  intros Hbody. revert s c; induction l as [|x l IH]; intros s c; simpl.
  - exists s, c. split; [reflexivity|apply incl_refl].
  - destruct (Hbody x s c) as [s1 [c1 [H1 I1]]].
    destruct (IH s1 c1) as [s2 [c2 [H2 I2]]].
    exists s2, c2. split; [|eapply incl_tran; eauto].
    unfold bind. now rewrite H1.
Qed.

Lemma update_removes_foreign_device client c id server_obj key mac new_networks ch :
  rp_vsphere_server_id (runtime c) = Some id ->
  get_server_by_id client id = Some server_obj ->
  flag (rp_network_update (runtime c)) = true ->
  In (VirtualEthernetCard key mac) (so_device server_obj) ->
  defined_network (persisted_networks c) mac = None ->
  cooperative client server_obj ->
  rp_expected_configuration (runtime c) <> None ->
  handle_networks (declared_networking c) c = Returns new_networks ch ->
  exists device_changes c2,
    update client c = Returns device_changes c2
    /\ In (remove (VirtualEthernetCard key mac)) device_changes.
Proof.
  intros Hid Hsrv Hflag Hdev Hforeign [Hresize [Hname [Hadd Htask]]] Hec Hresolve.
  destruct (rp_expected_configuration (runtime c)) as [ec|] eqn:Eec; [clear Hec|contradiction].
  unfold update, server_by_persisted_id, set_expected_summary. run.
  rewrite Hflag.
  destruct (flag (rp_spec_update (runtime c))); run;
    rewrite ?Hid, ?Hsrv; run; rewrite ?Hresize; run; rewrite ?Eec; run;
    rewrite ?Hid, ?Hsrv; run.
  all: fold (declared_networking c);
    match goal with |- context [handle_networks ?p ?c0] =>
      pose proof (handle_networks_oblivious p c c0 eq_refl) as Hsame;
      rewrite Hresolve in Hsame;
      destruct (handle_networks p c0) as [new' c3|e] eqn:Hh; simpl in Hsame;
      [subst new'|contradiction]
    end;
    match goal with |- context [for_each ?l ?body ?init ?c'] =>
      destruct (for_each_grows body l init c') as [[dc n] [c4 [Hloop Hincl]]]
    end.
  1, 3: intros network [dc0 n0] c0; destruct (member (name_of network) _); run;
    [destruct (Hname network) as [nm Hnm]; rewrite Hnm; run; rewrite Hadd; run|];
    do 2 eexists; (split; [reflexivity|]); simpl;
    [apply incl_appl|]; apply incl_refl.
  all: rewrite Hloop; simpl;
    assert (Hin : In (remove (VirtualEthernetCard key mac)) dc)
      by (apply Hincl; simpl; apply in_map, nics_for_remove_foreign; assumption);
    destruct dc as [|x dc]; [destruct Hin|];
    run; rewrite Htask; do 2 eexists; split; [reflexivity|exact Hin].
Qed.

Lemma defined_network_none networks mac :
  (forall network, In network networks ->
     py_eqb (PStr mac) (get network "mac" PNone) = false) ->
  defined_network networks mac = None.
Proof.
  intros H. unfold defined_network.
  induction networks as [|network networks IH]; [reflexivity|].
  cbn [find]. rewrite (H network) by now left. apply IH. intros n Hn. apply H. now right.
Qed.

(** C5: an Ethernet device whose MAC address is in no persisted network
    entry makes [check_drift] report drift and flag a network update
    (provided the server is found by its persisted id, the expected
    configuration is stored and the drift helper tells a UUID from a name);
    the [update] that follows - the platform accepting its requests and the
    declared topology resolving - puts the removal of that very device in
    the device changes it submits. *)
Theorem C5_foreign_device_reported_and_removed
    (client : server_client) (common : plugin_common) (c : ctx) (id : string)
    (server_obj : server_obj) (key : Z) (mac : string) :
  rp_vsphere_server_id (runtime c) = Some id ->
  id <> "" ->
  get_server_by_id client id = Some server_obj ->
  In (VirtualEthernetCard key mac) (so_device server_obj) ->
  (forall network, In network (persisted_networks c) ->
     py_eqb (PStr mac) (get network "mac" PNone) = false) ->
  foreign_causes_diff common ->
  snapshot_stored c ->
  exists c1,
    check_drift client common c = Returns true c1
    /\ rp_network_update (runtime c1) = Some true
    /\ (cooperative client server_obj ->
        forall new_networks ch,
          handle_networks (declared_networking c) c = Returns new_networks ch ->
          exists device_changes c2,
            update client c1 = Returns device_changes c2
            /\ In (remove (VirtualEthernetCard key mac)) device_changes).
Proof.
  intros Hid Hne Hsrv Hdev Hmac Hdiff Hsnap.
  pose proof (defined_network_none _ _ Hmac) as Hforeign.
  destruct (check_drift_reports_foreign_device client common c id server_obj key mac
              Hid Hne Hsrv Hdev Hforeign Hdiff Hsnap)
    as [c1 [Hcheck [Hflag [Hnode [Hrels [Hid1 [Hnets Hec]]]]]]].
  exists c1. split; [exact Hcheck|]. split; [exact Hflag|].
  intros Hcoop new_networks ch Hresolve.
  pose proof (handle_networks_oblivious (declared_networking c) c c1 (eq_sym Hrels))
    as Hsame.
  rewrite Hresolve in Hsame.
  destruct (handle_networks (declared_networking c) c1) as [new' ch1|e] eqn:Hh;
    simpl in Hsame; [subst new'|contradiction].
  apply (update_removes_foreign_device client c1 id server_obj key mac new_networks ch1).
  - now rewrite Hid1.
  - exact Hsrv.
  - now rewrite Hflag.
  - exact Hdev.
  - unfold persisted_networks in *. now rewrite Hnets.
  - exact Hcoop.
  - rewrite Hec. destruct Hsnap as [ec [E _]]. rewrite E. discriminate.
  - unfold declared_networking in *. rewrite Hnode. exact Hh.
Qed.

(** The structural drift helper of [spec_common] sees every UUID. *)
Lemma spec_common_foreign_causes_diff : foreign_causes_diff spec_common.
Proof.
  intros existing new u Hin. simpl.
  revert new; induction existing as [|x existing IH]; intros new; [destruct Hin|].
  destruct Hin as [->|Hin]; simpl; [reflexivity|].
  destruct x as [name|u']; [|reflexivity].
  destruct new as [|y new]; [reflexivity|].
  destruct (same_value name y); [|reflexivity]. simpl. now apply IH.
Qed.

Lemma C5_foreign_device_reported_and_removed_witness :
  exists c1 device_changes c2,
    check_drift (running_client foreign_nic_server None) spec_common drifted_ctx
    = Returns true c1
    /\ update (running_client foreign_nic_server None) c1 = Returns device_changes c2
    /\ In (remove (VirtualEthernetCard 4000 "00:50:56:ff:ff:99")) device_changes.
Proof.
  assert (Hne : "vm-42" <> "") by discriminate.
  assert (Hdev : In (VirtualEthernetCard 4000 "00:50:56:ff:ff:99")
                   (so_device foreign_nic_server)) by (right; left; reflexivity).
  assert (Hmac : forall network, In network (persisted_networks drifted_ctx) ->
                   py_eqb (PStr "00:50:56:ff:ff:99") (get network "mac" PNone) = false).
  { intros network [<-|[]]. reflexivity. }
  assert (Hsnap : snapshot_stored drifted_ctx).
  { exists snapshot_2cpu. repeat split; discriminate. }
  destruct (C5_foreign_device_reported_and_removed
              (running_client foreign_nic_server None) spec_common drifted_ctx "vm-42"
              foreign_nic_server 4000 "00:50:56:ff:ff:99"
              eq_refl Hne eq_refl Hdev Hmac spec_common_foreign_causes_diff Hsnap)
    as [c1 [Hcheck [_ Hupdate]]].
  assert (Hcoop : cooperative (running_client foreign_nic_server None) foreign_nic_server).
  { repeat split; intros; try reflexivity. exists PNone. reflexivity. }
  assert (Hresolve : exists new_networks ch,
             handle_networks (declared_networking drifted_ctx) drifted_ctx
             = Returns new_networks ch)
    by (do 2 eexists; vm_compute; reflexivity).
  destruct Hresolve as [new_networks [ch Hresolve]].
  destruct (Hupdate Hcoop new_networks ch Hresolve) as [dc [c2 [Hrun Hin]]].
  exists c1, dc, c2. repeat split; assumption.
Defined.


(** * Further properties of the code *)

(** ** Strings *)

Lemma length_append_string (a b : string) :
  String.length (a ++ b) = (String.length a + String.length b)%nat.
Proof. induction a as [|c a IH]; simpl; [reflexivity|now rewrite IH]. Qed.

Lemma length_substring_le (n : nat) (s : string) :
  (String.length (substring 0 n s) <= n)%nat.
Proof.
  revert s; induction n as [|n IH]; intros [|c s]; simpl; try lia.
  specialize (IH s). lia.
Qed.

Lemma length_replace_underscores (s : string) :
  String.length (replace_underscores s) = String.length s.
Proof. induction s as [|c s IH]; simpl; [reflexivity|now rewrite IH]. Qed.

Lemma replace_underscores_clean (s : string) :
  has_underscore (replace_underscores s) = false.
Proof.
  induction s as [|c s IH]; simpl; [reflexivity|].
  destruct (Ascii.eqb_spec c "_"); simpl; [exact IH|].
  destruct (Ascii.eqb_spec c "_"); [contradiction|exact IH].
Qed.

Lemma replace_underscores_id (s : string) :
  has_underscore s = false -> replace_underscores s = s.
Proof.
  induction s as [|c s IH]; simpl; [reflexivity|].
  destruct (Ascii.eqb_spec c "_"); simpl; [discriminate|].
  intros H. now rewrite IH.
Qed.

Lemma replace_underscores_append (a b : string) :
  replace_underscores (a ++ b) = replace_underscores a ++ replace_underscores b.
Proof. induction a as [|c a IH]; simpl; [reflexivity|now rewrite IH]. Qed.

Lemma rsplit_underscore_none (s : string) :
  rsplit_underscore s = None <-> has_underscore s = false.
Proof.
  induction s as [|c s IH]; simpl; [tauto|].
  destruct (rsplit_underscore s) as [[a b]|].
  - split; [discriminate|]. intros H. apply orb_false_elim in H.
    destruct H as [_ H]. apply IH in H. discriminate.
  - destruct (c =? "_")%char; simpl; [split; discriminate|].
    split; intros _; [now apply IH|reflexivity].
Qed.

(** X1: [rsplit_underscore], the [rsplit('_', 1)] of [get_vm_name], cuts at
    the last underscore and nowhere else: it yields [(a, b)] exactly when
    the string is [a ++ "_" ++ b] with no underscore in [b], and it yields
    nothing exactly when there is no underscore to cut at. *)
Theorem X1_rsplit_underscore_cuts_at_last_underscore (s a b : string) :
  (rsplit_underscore s = Some (a, b)
   <-> s = a ++ "_" ++ b /\ has_underscore b = false)
  /\ (rsplit_underscore s = None <-> has_underscore s = false).
Proof.
  split; [|apply rsplit_underscore_none]. split.
  - revert a; induction s as [|c s IH]; simpl; intros a; [discriminate|].
    destruct (rsplit_underscore s) as [[a' b']|] eqn:E.
    + intros H; inversion H; subst. destruct (IH a' eq_refl) as [-> Hb].
      split; [reflexivity|exact Hb].
    + destruct (Ascii.eqb_spec c "_") as [->|]; [|discriminate].
      intros H; inversion H; subst. split; [reflexivity|].
      now apply rsplit_underscore_none.
  - intros [-> Hb]. induction a as [|c a IH]; simpl.
    + apply rsplit_underscore_none in Hb. now rewrite Hb.
    + simpl in IH. now rewrite IH.
Qed.

(** ** Deriving the name of the server *)

Lemma get_vm_name_derived server os_family c instance_name id_suffix :
  rp_name (runtime c) = None ->
  takes_suffix server = true ->
  rsplit_underscore (instance_id c) = Some (instance_name, id_suffix) ->
  let vm_name :=
    replace_underscores
      (name_prefix server os_family instance_name id_suffix ++ "-" ++ id_suffix) in
  if search vm_name then
    exists text, get_vm_name server os_family c = Raises (NonRecoverableError text)
  else
    exists c', get_vm_name server os_family c = Returns vm_name c'
               /\ runtime c' = runtime c.
Proof.
  intros Hp Hs Hr. unfold get_vm_name. run. rewrite Hp.
  unfold takes_suffix in Hs. unfold name_prefix.
  destruct (srv_name server) as [n|];
    [destruct (srv_add_scale_suffix server) as [[|]|]; try discriminate|];
    run; rewrite Hr; simpl;
    try (destruct (n =? "")%string; simpl);
    destruct (lower os_family =? "windows")%string;
    match goal with |- context [has_underscore ?raw] =>
      destruct (has_underscore raw) eqn:Hu;
      [|rewrite (replace_underscores_id raw Hu)]
    end;
    run; unfold validate_vm_name;
    match goal with |- context [search ?nm] => destruct (search nm) end;
    simpl; eexists; try split; reflexivity.
Qed.

Lemma get_vm_name_unsplit server os_family c :
  rp_name (runtime c) = None ->
  takes_suffix server = true ->
  rsplit_underscore (instance_id c) = None ->
  get_vm_name server os_family c = Raises (PyError ValueError).
Proof.
  intros Hp Hs Hr. unfold get_vm_name. run. rewrite Hp.
  unfold takes_suffix in Hs.
  destruct (srv_name server) as [n|];
    [destruct (srv_add_scale_suffix server) as [[|]|]; try discriminate|];
    run; rewrite Hr; reflexivity.
Qed.

(** X2: a name that [get_vm_name] derives (nothing persisted, a suffix
    wanted) holds only characters of [A-Za-z0-9-], so no underscore, and is
    some prefix joined by a hyphen to the part of the instance id after its
    last underscore; deriving it persists nothing. *)
Theorem X2_derived_name_is_legal_and_ends_with_the_id_suffix
    (server : server_props) (os_family : string) (c : ctx) (name : string) (c' : ctx) :
  rp_name (runtime c) = None ->
  takes_suffix server = true ->
  get_vm_name server os_family c = Returns name c' ->
  search name = false
  /\ has_underscore name = false
  /\ runtime c' = runtime c
  /\ exists instance_name id_suffix prefix,
       instance_id c = instance_name ++ "_" ++ id_suffix
       /\ has_underscore id_suffix = false
       /\ name = prefix ++ "-" ++ id_suffix.
Proof.
  intros Hp Hs Hrun.
  destruct (rsplit_underscore (instance_id c)) as [[instance_name id_suffix]|] eqn:Hr.
  - pose proof (get_vm_name_derived server os_family c instance_name id_suffix Hp Hs Hr)
      as H. cbv zeta in H.
    destruct (search _) eqn:Hsearch in H.
    + destruct H as [text H]. rewrite H in Hrun. discriminate.
    + destruct H as [c1 [H Hrt]]. rewrite H in Hrun. inversion Hrun; subst.
      split; [exact Hsearch|]. split; [apply replace_underscores_clean|].
      split; [exact Hrt|].
      assert (Hsplit : instance_id c = instance_name ++ "_" ++ id_suffix
                       /\ has_underscore id_suffix = false).
      { revert Hr. generalize (instance_id c) as s, instance_name as a.
        induction s as [|ch s IH]; simpl; intros a; [discriminate|].
        destruct (rsplit_underscore s) as [[a' b']|] eqn:E.
        - intros H0; inversion H0; subst. destruct (IH a' eq_refl) as [-> Hb].
          split; [reflexivity|exact Hb].
        - destruct (Ascii.eqb_spec ch "_") as [->|]; [|discriminate].
          intros H0; inversion H0; subst. split; [reflexivity|].
          now apply rsplit_underscore_none. }
      destruct Hsplit as [Hid Hsuf].
      exists instance_name, id_suffix,
        (replace_underscores (name_prefix server os_family instance_name id_suffix)).
      repeat split; auto.
      rewrite !replace_underscores_append. simpl.
      now rewrite (replace_underscores_id id_suffix Hsuf).
  - rewrite (get_vm_name_unsplit server os_family c Hp Hs Hr) in Hrun. discriminate.
Qed.

Lemma X2_derived_name_is_legal_and_ends_with_the_id_suffix_witness :
  exists c',
    get_vm_name (ServerProps (Some "db_primary") None None None) "linux"
      (fresh_ctx "web_server_0042" no_runtime_properties [] no_properties)
    = Returns "db-primary-0042" c'
    /\ search "db-primary-0042" = false.
Proof.
  assert (H : exists c',
             get_vm_name (ServerProps (Some "db_primary") None None None) "linux"
               (fresh_ctx "web_server_0042" no_runtime_properties [] no_properties)
             = Returns "db-primary-0042" c')
    by (eexists; vm_compute; reflexivity).
  destruct H as [c' H]. exists c'. split; [exact H|].
  exact (proj1 (X2_derived_name_is_legal_and_ends_with_the_id_suffix
                  (ServerProps (Some "db_primary") None None None) "linux"
                  (fresh_ctx "web_server_0042" no_runtime_properties [] no_properties)
                  "db-primary-0042" c' eq_refl eq_refl H)).
Defined.

(** X3: for a Windows family (in any letter case) and an id suffix of at
    most 13 characters, the derived name has at most 14 characters, within
    the 15 that the platform allows. *)
Theorem X3_windows_name_is_at_most_14_characters
    (server : server_props) (os_family : string) (c : ctx)
    (instance_name id_suffix name : string) (c' : ctx) :
  rp_name (runtime c) = None ->
  takes_suffix server = true ->
  lower os_family = "windows" ->
  rsplit_underscore (instance_id c) = Some (instance_name, id_suffix) ->
  (String.length id_suffix <= 13)%nat ->
  get_vm_name server os_family c = Returns name c' ->
  (String.length name <= 14)%nat.
Proof.
  intros Hp Hs Hw Hr Hlen Hrun.
  pose proof (get_vm_name_derived server os_family c instance_name id_suffix Hp Hs Hr)
    as H. cbv zeta in H.
  destruct (search _) in H.
  - destruct H as [text H]. rewrite H in Hrun. discriminate.
  - destruct H as [c1 [H _]]. rewrite H in Hrun. inversion Hrun; subst.
    rewrite length_replace_underscores, !length_append_string.
    change (String.length "-") with 1%nat.
    unfold name_prefix. rewrite Hw, String.eqb_refl. unfold slice_to.
    match goal with |- context [substring 0 ?n ?s] =>
      pose proof (length_substring_le n s) as Hsub; revert Hsub;
      generalize (String.length (substring 0 n s)) end.
    destruct (14 - (Z.of_nat (String.length id_suffix) + 1) <? 0) eqn:Hneg;
      [apply Z.ltb_lt in Hneg; lia|].
    intros n Hn. cbn [String.length]. lia.
Qed.

Lemma X3_windows_name_is_at_most_14_characters_witness :
  exists c',
    get_vm_name (ServerProps (Some "a-very-long-configured-name") None None None)
      "Windows" (fresh_ctx "web_0042" no_runtime_properties [] no_properties)
    = Returns "a-very-lo-0042" c'
    /\ (String.length "a-very-lo-0042" <= 14)%nat.
Proof.
  assert (H : exists c',
             get_vm_name (ServerProps (Some "a-very-long-configured-name") None None None)
               "Windows" (fresh_ctx "web_0042" no_runtime_properties [] no_properties)
             = Returns "a-very-lo-0042" c')
    by (eexists; vm_compute; reflexivity).
  destruct H as [c' H]. exists c'. split; [exact H|].
  assert (Hlen : (String.length "0042" <= 13)%nat) by (simpl; lia).
  exact (X3_windows_name_is_at_most_14_characters
           (ServerProps (Some "a-very-long-configured-name") None None None) "Windows"
           (fresh_ctx "web_0042" no_runtime_properties [] no_properties)
           "web" "0042" "a-very-lo-0042" c' eq_refl eq_refl eq_refl eq_refl Hlen H).
Defined.

(** X4: when a name has to be derived and the instance id has no
    underscore, [get_vm_name] ends in the [ValueError] of the failed
    unpacking of [rsplit], whatever the configured name and the OS family. *)
Theorem X4_instance_id_without_underscore_is_a_value_error
    (server : server_props) (os_family : string) (c : ctx) :
  rp_name (runtime c) = None ->
  takes_suffix server = true ->
  has_underscore (instance_id c) = false ->
  get_vm_name server os_family c = Raises (PyError ValueError).
Proof.
  intros Hp Hs Hu. apply get_vm_name_unsplit; auto.
  now apply rsplit_underscore_none.
Qed.

Lemma X4_instance_id_without_underscore_is_a_value_error_witness :
  get_vm_name (ServerProps (Some "db") None None None) "linux"
    (fresh_ctx "webserver" no_runtime_properties [] no_properties)
  = Raises (PyError ValueError).
Proof.
  exact (X4_instance_id_without_underscore_is_a_value_error
           (ServerProps (Some "db") None None None) "linux"
           (fresh_ctx "webserver" no_runtime_properties [] no_properties)
           eq_refl eq_refl eq_refl).
Defined.

(** ** What a validated network looks like *)

Lemma review_network_other k kv s :
  fst kv <> k -> lookup (_network (review kv s)) k = lookup (_network s) k.
Proof.
  intros Hne. review_cases kv s; auto. now apply lookup_setitem_other.
Qed.

Lemma reviews_closed_key k items s :
  lookup (validations s) k = None ->
  validation_error (reviews items s) = false ->
  lookup (_network (reviews items s)) k = lookup (_network s) k.
Proof.
  revert s; induction items as [|kv items IH]; intros s Hnone Herr; [reflexivity|].
  rewrite reviews_cons in *.
  destruct (string_dec (fst kv) k) as [E|Hne].
  - exfalso. rewrite reviews_error in Herr; [discriminate|].
    unfold review, pop. rewrite E, Hnone. reflexivity.
  - rewrite IH; auto using review_validations_none, review_network_other.
Qed.

(** What the loop does with one key of the schema. *)
Lemma reviews_key k t dflt items s :
  lookup (validations s) k = Some (t, dflt) ->
  lookup (_network s) k = lookup items k ->
  validation_error (reviews items s) = false ->
  match lookup items k with
  | None =>
      lookup (validations (reviews items s)) k = Some (t, dflt)
      /\ lookup (_network (reviews items s)) k = None
  | Some value =>
      lookup (validations (reviews items s)) k = None
      /\ ((truthy value = false /\ t = text_type
           /\ lookup (_network (reviews items s)) k = Some dflt)
          \/ (isinstance value t = true /\ (truthy value = true \/ t = bool_type)
              /\ lookup (_network (reviews items s)) k = Some value))
  end.
Proof.
  revert s; induction items as [|[k' v'] items IH]; intros s Hv Hn Herr.
  - simpl in *. split; assumption.
  - rewrite reviews_cons in *. simpl in Hn |- *.
    destruct (String.eqb_spec k' k) as [->|Hne].
    + assert (Hstep : lookup (validations (review (k, v') s)) k = None).
      { unfold review, pop. simpl. rewrite Hv.
        destruct (_ && _); [|destruct (negb _)]; simpl; apply lookup_delitem_same. }
      split; [now apply reviews_validations_none|].
      rewrite (reviews_closed_key k items _ Hstep Herr).
      unfold review, pop in *. simpl in *. rewrite Hv in *.
      destruct (negb (truthy v') && negb (pytype_eqb t bool_type)) eqn:Eskip; simpl in *.
      * left. apply andb_prop in Eskip. destruct Eskip as [Et Eb].
        apply negb_true_iff in Et. repeat split; auto.
        -- destruct t; [reflexivity|discriminate].
        -- apply lookup_setitem_same.
      * destruct (isinstance v' t) eqn:Ety; simpl in *.
        -- right. repeat split; auto.
           apply andb_false_iff in Eskip. destruct Eskip as [E|E].
           ++ left. now apply negb_false_iff in E.
           ++ right. apply negb_false_iff in E. now destruct t.
        -- rewrite reviews_error in Herr; [discriminate|reflexivity].
    + apply IH; auto.
      * now rewrite review_validations_other.
      * now rewrite review_network_other.
Qed.

Lemma fill_absent_key pending d k :
  lookup pending k = None -> lookup (fill pending d) k = lookup d k.
Proof. intros H. apply fill_other. now apply lookup_none_not_in. Qed.

(** The two ways a schema key comes out of a successful validation: with
    its default (it was absent, or falsy under a text key), or with the
    caller's value, which then has the right type. *)
Lemma validated_key k t dflt d v :
  lookup network_validations k = Some (t, dflt) ->
  validate_connect_network d = inr v ->
  truthy (get d "name" PNone) = true
  /\ ((lookup v k = Some dflt
       /\ (lookup d k = None
           \/ exists value, lookup d k = Some value /\ truthy value = false
                            /\ t = text_type))
      \/ exists value,
           lookup d k = Some value /\ lookup v k = Some value
           /\ isinstance value t = true
           /\ (truthy value = true \/ t = bool_type)).
Proof.
  intros Hk. unfold validate_connect_network.
  destruct (truthy (get d "switch_distributed" PNone)
            && truthy (get d "nsx_t_switch" PNone)) eqn:Hboth.
  { match goal with |- context [fold_left ?f d ?s] =>
      fold (reviews d s); rewrite (reviews_error d s) end;
      [discriminate|destruct (negb _); reflexivity]. }
  destruct (truthy (get d "name" PNone)) eqn:Hname; simpl.
  2: { match goal with |- context [fold_left ?f d ?s] =>
         fold (reviews d s); rewrite (reviews_error d s) end;
         [discriminate|reflexivity]. }
  match goal with |- context [fold_left ?f d ?s] =>
    fold (reviews d s); set (s0 := s) end.
  destruct (validation_error (reviews d s0)) eqn:Herr; [discriminate|].
  intros H; inversion H; subst v; clear H.
  fold (fill (validations (reviews d s0)) (_network (reviews d s0))).
  split; [reflexivity|].
  pose proof (reviews_key k t dflt d s0 Hk eq_refl Herr) as Hkey.
  destruct (lookup d k) as [value|] eqn:Ed.
  - destruct Hkey as [Hgone [[Hf [Ht Hn]]|[Hty [Hor Hn]]]].
    + left. split; [|right; exists value; auto].
      now rewrite fill_absent_key.
    + right. exists value. repeat split; auto. now rewrite fill_absent_key.
  - destruct Hkey as [Hpending Hn]. left. split; [|now left].
    apply fill_pending.
    + destruct (in_dec string_dec k (keys (validations (reviews d s0)))) as [Hin|Hin];
        [exact Hin|].
      apply lookup_none_not_in in Hin. rewrite Hpending in Hin. discriminate.
    + intros x Hx. apply reviews_validations_in in Hx. simpl in Hx.
      change (In (k, x) network_validations) in Hx.
      apply (lookup_nodup _ _ _ network_validations_nodup) in Hx.
      rewrite Hk in Hx. now inversion Hx.
Qed.

Lemma schema_defaults k t dflt :
  lookup network_validations k = Some (t, dflt) ->
  match t with
  | bool_type => exists b, dflt = PBool b
  | text_type => dflt = PNone
  end.
Proof.
  unfold network_validations. cbn [lookup].
  repeat (destruct (_ =? k)%string;
          [intros H; inversion H; subst; simpl; eauto|]).
  discriminate.
Qed.

(** X5: a network that passes [validate_connect_network] comes back
    complete and typed: every key of the schema is present, a boolean key
    holds a boolean, a text key holds [None] or a non-empty string, and
    [name] holds a non-empty string. *)
Theorem X5_validated_network_is_complete_and_typed (d v : dict) :
  validate_connect_network d = inr v ->
  (forall k t dflt,
     lookup network_validations k = Some (t, dflt) ->
     exists x,
       lookup v k = Some x
       /\ match t with
          | bool_type => exists b, x = PBool b
          | text_type => x = PNone \/ exists s, x = PStr s /\ s <> ""
          end)
  /\ exists s, lookup v "name" = Some (PStr s) /\ s <> "".
Proof.
  intros Hv.
  assert (Htyped : forall value t,
             isinstance value t = true -> truthy value = true \/ t = bool_type ->
             match t with
             | bool_type => exists b, value = PBool b
             | text_type => value = PNone \/ exists s, value = PStr s /\ s <> ""
             end).
  { intros value t Hty Hor. destruct t, value; try discriminate; eauto.
    destruct Hor as [Ht|Ht]; [|discriminate]. right. exists s. split; [reflexivity|].
    simpl in Ht. intros ->. discriminate. }
  split.
  - intros k t dflt Hk.
    destruct (validated_key k t dflt d v Hk Hv)
      as [_ [[Hd _]|[value [_ [Hval [Hty Hor]]]]]].
    + exists dflt. split; [exact Hd|].
      pose proof (schema_defaults k t dflt Hk) as Hs. destruct t; auto.
    + exists value. split; [exact Hval|]. now apply Htyped.
  - destruct (validated_key "name" text_type PNone d v eq_refl Hv)
      as [Hname [[_ [Hd|[value [Hd [Hf _]]]]]|[value [_ [Hval [Hty Hor]]]]]].
    + unfold get in Hname. rewrite Hd in Hname. discriminate.
    + unfold get in Hname. rewrite Hd, Hf in Hname. discriminate.
    + destruct (Htyped value text_type Hty Hor) as [->|[s [-> Hs]]];
        [discriminate|]. exists s. auto.
Qed.

(** X6: a successful validation keeps what the caller wrote - every truthy
    value and every value under a boolean key come back unchanged - except
    that a falsy value under a text key comes back as [None]; and it only
    succeeds when every key of the entry belongs to the schema. *)
Theorem X6_validation_keeps_the_callers_values (d v : dict) (k : string) (value : pyval) :
  validate_connect_network d = inr v ->
  lookup d k = Some value ->
  exists t dflt,
    lookup network_validations k = Some (t, dflt)
    /\ lookup v k
       = Some (if negb (truthy value) && negb (pytype_eqb t bool_type)
               then PNone else value).
Proof.
  intros Hv Hd.
  destruct (lookup network_validations k) as [[t dflt]|] eqn:Hk.
  - exists t, dflt. split; [reflexivity|].
    destruct (validated_key k t dflt d v Hk Hv)
      as [_ [[Hdf [Habs|[value' [Hd' [Hf Ht]]]]]|[value' [Hd' [Hval [Hty Hor]]]]]].
    + rewrite Hd in Habs. discriminate.
    + rewrite Hd in Hd'. inversion Hd'; subst value' t. rewrite Hf. simpl.
      rewrite Hdf. f_equal. exact (schema_defaults k text_type dflt Hk).
    + rewrite Hd in Hd'. inversion Hd'; subst value'. rewrite Hval.
      destruct Hor as [Ht| ->]; [rewrite Ht; reflexivity|].
      now rewrite andb_false_r.
  - exfalso. revert Hv. unfold validate_connect_network.
    match goal with |- context [fold_left ?f d ?s] =>
      fold (reviews d s); set (s2 := s) end.
    assert (Hrep : reported (msg_unsupported_key k value) (reviews d s2)).
    { apply reviews_unknown_key; [now apply lookup_some_in|].
      unfold s2. destruct (negb _), (_ && _); cbn [validations]; try exact Hk;
        (destruct (string_dec "name" k) as [<-|Hne];
         [apply lookup_delitem_same | now rewrite lookup_delitem_other]). }
    destruct Hrep as [He _]. rewrite He. discriminate.
Qed.

Lemma X5_validated_network_is_complete_and_typed_witness :
  exists s, lookup defaulted_blank_gateway "name" = Some (PStr s) /\ s <> "".
Proof.
  exact (proj2 (X5_validated_network_is_complete_and_typed
                  net_blank_gateway defaulted_blank_gateway eq_refl)).
Defined.

Lemma X6_validation_keeps_the_callers_values_witness :
  (exists t dflt,
     lookup network_validations "gateway" = Some (t, dflt)
     /\ lookup defaulted_blank_gateway "gateway" = Some PNone)
  /\ exists t dflt,
       lookup network_validations "use_dhcp" = Some (t, dflt)
       /\ lookup defaulted_blank_gateway "use_dhcp" = Some (PBool false).
Proof.
  split.
  - destruct (X6_validation_keeps_the_callers_values
                net_blank_gateway defaulted_blank_gateway "gateway" (PStr "")
                eq_refl eq_refl) as [t [dflt [Hk Hv]]].
    exists t, dflt. split; [exact Hk|].
    vm_compute in Hk. inversion Hk; subst. exact Hv.
  - destruct (X6_validation_keeps_the_callers_values
                net_blank_gateway defaulted_blank_gateway "use_dhcp" (PBool false)
                eq_refl eq_refl) as [t [dflt [Hk Hv]]].
    exists t, dflt. split; [exact Hk|].
    vm_compute in Hk. inversion Hk; subst. exact Hv.
Defined.

(** ** Resolving the topology: effects and conditions of success *)

Lemma framed_refl c : framed c c.
Proof. repeat split. Qed.

Lemma framed_trans c c1 c2 : framed c c1 -> framed c1 c2 -> framed c c2.
Proof.
  intros [A [B [C [D E]]]] [A' [B' [C' [D' E']]]]. repeat split; congruence.
Qed.

Lemma setitem_keeps_key {V} (d : @dict_of V) k k' v :
  lookup d k <> None -> lookup (setitem d k' v) k <> None.
Proof.
  intros H. destruct (string_dec k' k) as [->|Hne].
  - rewrite lookup_setitem_same. discriminate.
  - now rewrite lookup_setitem_other.
Qed.

Lemma update_keeps_key (d e : dict) k :
  lookup d k <> None -> lookup (Py.update d e) k <> None.
Proof.
  unfold Py.update. revert d; induction e as [|[k' v] e IH]; intros d H; [exact H|].
  simpl. apply IH. now apply setitem_keeps_key.
Qed.

(** The inner loop succeeds exactly when every declared entry has a name
    (the related network always has one by then), and entries keep theirs. *)
Lemma merge_prop_nics_named cn props :
  lookup cn "name" <> None ->
  (Forall has_name props ->
   exists merged, merge_prop_nics cn props = inr merged /\ Forall has_name merged)
  /\ (forall merged, merge_prop_nics cn props = inr merged -> Forall has_name props).
Proof.
  intros Hcn. induction props as [|p props [IH1 IH2]]; simpl.
  - split; [intros _; exists []; split; [reflexivity|constructor]|constructor].
  - unfold getitem.
    destruct (lookup cn "name") as [cn_name|]; [clear Hcn|contradiction].
    split.
    + intros Hall. inversion Hall as [|? ? Hp Hps]; subst.
      unfold has_name in Hp.
      destruct (lookup p "name") as [p_name|] eqn:Ep; [|contradiction].
      destruct (IH1 Hps) as [merged [-> Hm]].
      eexists; split; [reflexivity|]. constructor; [|exact Hm].
      destruct (_ && _); unfold has_name.
      * apply update_keeps_key. rewrite Ep. discriminate.
      * rewrite Ep. discriminate.
    + intros merged.
      destruct (lookup p "name") as [p_name|] eqn:Ep; [|discriminate].
      destruct (merge_prop_nics cn props) as [e|rest]; [discriminate|].
      intros _. constructor; [unfold has_name; rewrite Ep; discriminate|].
      now apply (IH2 rest).
Qed.

Lemma connect_loop_effects rels props c cn c' :
  for_each rels connect_turn props c = Returns cn c' ->
  framed c c'
  /\ rp_connected_nics (runtime c')
     = match rels with
       | [] => rp_connected_nics (runtime c)
       | _ => Some (connected_nics c ++ map target_id rels)%list
       end
  /\ Forall specified rels
  /\ (rels = [] \/ Forall has_name props).
Proof.
  revert props c; induction rels as [|rel rels IH]; intros props c; simpl.
  - unfold ret. intros H; inversion H; subst. repeat split; auto.
  - unfold bind at 1. unfold connect_turn at 1.
    destruct (target_connected_network rel) as [[|kv d]|] eqn:Ecn; try discriminate.
    destruct (truthy (get (kv :: d) "name" (target_name rel))) eqn:Ename;
      simpl; [|discriminate].
    cbv beta delta [bind lift set_runtime ret raise].
    destruct (merge_prop_nics _ props) as [e|merged] eqn:Em; [discriminate|].
    intros H. apply IH in H. destruct H as [Hframed [Hnics [Hspec _]]].
    assert (Hnamed : lookup (setitem (kv :: d) "name"
                               (get (kv :: d) "name" (target_name rel))) "name"
                     <> None)
      by (rewrite lookup_setitem_same; discriminate).
    split; [|split; [|split]].
    + eapply framed_trans; [|exact Hframed]. repeat split.
    + rewrite Hnics. unfold connected_nics. simpl.
      destruct rels; [reflexivity|]. now rewrite <- app_assoc.
    + constructor; [|exact Hspec]. exists (kv :: d). repeat split; auto. discriminate.
    + right. exact (proj2 (merge_prop_nics_named _ props Hnamed) merged Em).
Qed.

Lemma connect_loop_succeeds rels props c :
  Forall specified rels ->
  Forall has_name props ->
  exists cn c', for_each rels connect_turn props c = Returns cn c'.
Proof.
  revert props c; induction rels as [|rel rels IH]; intros props c Hspec Hnames; simpl.
  - now exists props, c.
  - inversion Hspec as [|? ? [cnw [Ecn [Hne Hname]]] Hrest]; subst.
    unfold bind at 1. unfold connect_turn at 1. rewrite Ecn.
    destruct cnw as [|kv d]; [contradiction|]. cbv zeta. rewrite Hname. cbn [negb].
    assert (Hnamed : lookup (setitem (kv :: d) "name"
                               (get (kv :: d) "name" (target_name rel))) "name"
                     <> None)
      by (rewrite lookup_setitem_same; discriminate).
    destruct (proj1 (merge_prop_nics_named _ props Hnamed) Hnames)
      as [merged [Em Hm]].
    cbv beta delta [bind lift set_runtime ret raise]. rewrite Em.
    apply IH; [exact Hrest|].
    apply Forall_app. split; [exact Hm|]. constructor; [exact Hnamed|constructor].
Qed.

Lemma get_connected_networks_unfolded props c :
  get_connected_networks props c
  = for_each (nics_from_rels c) connect_turn props
      (match rp_connected_nics (runtime c) with
       | Some _ => c
       | None =>
           Ctx (instance_id c) (with_connected_nics (Some []) (runtime c))
             (nics_from_rels c) (node c) (clock c) (uuids c) (uuid_count c) (logger c)
       end).
Proof.
  unfold get_connected_networks. fold connect_turn.
  cbv beta delta [bind get_runtime ask]. simpl.
  destruct (rp_connected_nics (runtime c)); reflexivity.
Qed.

(** X7: [get_connected_networks] succeeds exactly when every related nic
    says which network it is on and - if there is any related nic - every
    declared network has a [name] key; a nic without a specification or a
    declared entry without a name makes it raise. *)
Theorem X7_get_connected_networks_succeeds_iff_well_specified
    (props : list dict) (c : ctx) :
  (exists cn c', get_connected_networks props c = Returns cn c')
  <-> Forall specified (nics_from_rels c)
      /\ (nics_from_rels c = [] \/ Forall has_name props).
Proof.
  rewrite get_connected_networks_unfolded. split.
  - intros [cn [c' H]]. apply connect_loop_effects in H.
    destruct H as [_ [_ [Hspec Hnames]]]. split; assumption.
  - intros [Hspec [Hnil|Hnames]].
    + rewrite Hnil. simpl. unfold ret. eauto.
    + now apply connect_loop_succeeds.
Qed.

Lemma get_connected_networks_effects props c cn c' :
  get_connected_networks props c = Returns cn c' ->
  rp_connected_nics (runtime c')
  = Some (connected_nics c ++ map target_id (nics_from_rels c))%list
  /\ framed c c'.
Proof.
  rewrite get_connected_networks_unfolded. intros H.
  apply connect_loop_effects in H. destruct H as [Hframed [Hnics _]].
  unfold connected_nics in *.
  destruct (rp_connected_nics (runtime c)) as [l|] eqn:El; simpl in *;
    rewrite ?El in Hnics.
  - split; [|exact Hframed]. rewrite Hnics.
    destruct (nics_from_rels c); [now rewrite app_nil_r|reflexivity].
  - split; [|eapply framed_trans; [|exact Hframed]; repeat split].
    rewrite Hnics. destruct (nics_from_rels c); reflexivity.
Qed.

(** X8: a successful [get_connected_networks] appends the ids of the
    related nics, in order, to the connected nics it finds persisted - a
    second run appends them again - and leaves every other runtime
    property, the node and the relationships as they were. *)
Theorem X8_get_connected_networks_appends_the_nic_ids
    (props : list dict) (c : ctx) (cn : list dict) (c' : ctx) :
  get_connected_networks props c = Returns cn c' ->
  rp_connected_nics (runtime c')
  = Some (connected_nics c ++ map target_id (nics_from_rels c))%list
  /\ framed c c'.
Proof. apply get_connected_networks_effects. Qed.


Lemma X8_get_connected_networks_appends_the_nic_ids_witness :
  exists cn c',
    get_connected_networks [net_a] reconnected_ctx = Returns cn c'
    /\ rp_connected_nics (runtime c') = Some ["nic_abc123"; "nic_abc123"].
Proof.
  assert (H : exists cn c', get_connected_networks [net_a] reconnected_ctx = Returns cn c')
    by (do 2 eexists; vm_compute; reflexivity).
  destruct H as [cn [c' H]]. exists cn, c'. split; [exact H|].
  exact (proj1 (X8_get_connected_networks_appends_the_nic_ids
                  [net_a] reconnected_ctx cn c' H)).
Defined.

Lemma reorder_loop_frame cn acc c res c' :
  for_each cn reorder_turn acc c = Returns res c' ->
  runtime c' = runtime c /\ framed c c'.
Proof.
  revert acc c; induction cn as [|d cn IH]; intros acc c; simpl.
  - unfold ret. intros H; inversion H; subst. split; [reflexivity|apply framed_refl].
  - unfold bind at 1. unfold reorder_turn at 1. run.
    destruct (validate_connect_network d) as [e|v]; [discriminate|].
    destruct (getitem v "external") as [e|external]; [discriminate|].
    destruct (truthy external); intros H; apply IH in H; destruct H as [Hrt Hfr];
      (split; [exact Hrt|]); (eapply framed_trans; [|exact Hfr]); repeat split.
Qed.

Lemma handle_networks_effects p c res c' :
  handle_networks p c = Returns res c' ->
  exists cn c1,
    get_connected_networks (declared p) c = Returns cn c1
    /\ runtime c' = runtime c1
    /\ framed c1 c'.
Proof.
  unfold handle_networks. fold (declared p). unfold bind at 1.
  destruct (get_connected_networks (declared p) c) as [cn c1|e]; [|discriminate].
  unfold bind at 1. unfold log at 1.
  destruct cn as [|d cn].
  - unfold ret. intros H; inversion H; subst.
    exists [], c1. repeat split.
  - set (nets := d :: cn).
    unfold bind at 1.
    destruct (1 <? length (filter (flagged "external") nets))%nat; [discriminate|].
    unfold ret at 1. unfold bind at 1.
    destruct (1 <? length (filter (flagged "management") nets))%nat; [discriminate|].
    unfold ret at 1. fold reorder_turn. intros H.
    apply reorder_loop_frame in H. destruct H as [Hrt Hfr].
    exists nets, c1. split; [reflexivity|]. split; [exact Hrt|].
    eapply framed_trans; [|exact Hfr]. repeat split.
Qed.

Lemma partition_length {A} (q : A -> bool) (l : list A) :
  length (rev (filter q l) ++ filter (fun x => negb (q x)) l) = length l.
Proof.
  rewrite length_app, length_rev.
  induction l as [|x l IH]; [reflexivity|].
  simpl. destruct (q x); simpl; lia.
Qed.

(** X9: the list that [handle_networks] returns has one entry for each
    declared network and one for each related nic; the call leaves the
    runtime properties as they were but for the connected nics, to which
    the ids of the related nics are appended. *)
Theorem X9_handle_networks_keeps_every_network
    (p : networking_props) (c : ctx) (res : list dict) (c' : ctx) :
  handle_networks p c = Returns res c' ->
  length res = (length (declared p) + length (nics_from_rels c))%nat
  /\ rp_connected_nics (runtime c')
     = Some (connected_nics c ++ map target_id (nics_from_rels c))%list
  /\ framed c c'.
Proof.
  intros H.
  destruct (handle_networks_returns p c res c' H)
    as [cn [c1 [vs [Hg [_ [_ [HF Hres]]]]]]].
  destruct (handle_networks_effects p c res c' H) as [cn' [c1' [Hg' [Hrt Hfr]]]].
  rewrite Hg in Hg'. inversion Hg'; subst cn' c1'.
  destruct (get_connected_networks_effects _ _ _ _ Hg) as [Hnics Hfr1].
  split; [|split].
  - rewrite Hres, partition_length, <- (Forall2_length HF).
    exact (get_connected_networks_length _ _ _ _ Hg).
  - now rewrite Hrt.
  - eapply framed_trans; eassumption.
Qed.

Lemma X9_handle_networks_keeps_every_network_witness :
  exists res c',
    handle_networks (Networking (Some [net_a; net_b_external])) reconnected_ctx
    = Returns res c'
    /\ length res = 3%nat.
Proof.
  assert (H : exists res c',
             handle_networks (Networking (Some [net_a; net_b_external])) reconnected_ctx
             = Returns res c')
    by (do 2 eexists; vm_compute; reflexivity).
  destruct H as [res [c' H]]. exists res, c'. split; [exact H|].
  exact (proj1 (X9_handle_networks_keeps_every_network _ _ _ _ H)).
Defined.

(** ** The lifecycle operations: what they read and what they leave *)

Lemma logged_nil c : logged c [] = c.
Proof. destruct c; unfold logged; simpl; now rewrite app_nil_r. Qed.

Lemma logged_logged c l1 l2 : logged (logged c l1) l2 = logged c (l1 ++ l2).
Proof. unfold logged; simpl; now rewrite app_assoc. Qed.

Lemma same_identity_refl c : same_identity c c.
Proof. repeat split. Qed.

Lemma same_identity_logged c c0 l l0 :
  same_identity c c0 -> same_identity (logged c l) (logged c0 l0).
Proof. intros H; exact H. Qed.

Lemma settled_same_identity c c1 : settled c c1 -> same_identity c c1.
Proof.
  intros S; split; [apply S|]; split.
  - exact (settled_field rp_name c c1 (fun r => eq_refl) S).
  - exact (settled_field rp_vsphere_server_id c c1 (fun r => eq_refl) S).
Qed.

Lemma alike_logged {A} c c0 l (o o0 : outcome A) :
  alike (logged c l) (logged c0 l) o o0 -> alike c c0 o o0.
Proof.
  destruct o, o0; simpl; auto.
  intros [-> [lines [-> ->]]]; split; [reflexivity|].
  exists (l ++ lines)%list; now rewrite !logged_logged.
Qed.

Lemma get_vm_name_alike server os_family c c0 :
  same_identity c c0 ->
  alike c c0 (get_vm_name server os_family c) (get_vm_name server os_family c0).
Proof.
  intros [Hid [Hname _]].
  destruct c0 as [i0 r0 n0 p0 k0 u0 uc0 l0]; simpl in Hid, Hname; subst i0.
  unfold get_vm_name. run. rewrite Hname.
  destruct (rp_name (runtime c)) as [n|].
  { simpl; split; [reflexivity|]; eexists; split; reflexivity. }
  destruct (srv_name server) as [n|], (srv_add_scale_suffix server) as [[|]|];
    try (simpl; split; [reflexivity|]; eexists; split; reflexivity).
  all: cbn [instance_id].
  all: destruct (rsplit_underscore (instance_id c)) as [[a b]|]; [|exact eq_refl].
  all: match goal with
       | |- context [has_underscore ?s] => destruct (has_underscore s)
       end.
  all: match goal with
       | |- context [validate_vm_name ?s] => destruct (validate_vm_name s)
       end.
  all: simpl; try reflexivity.
  all: rewrite <- ?app_assoc; split; [reflexivity|]; eexists; split; reflexivity.
Qed.

Lemma get_server_by_context_alike client server os_family c c0 :
  same_identity c c0 ->
  alike c c0 (get_server_by_context client server os_family c)
             (get_server_by_context client server os_family c0).
Proof.
  intros H. pose proof H as [Hid [Hname Hsid]].
  unfold get_server_by_context.
  cbv beta delta [bind log get_runtime ret raise]. cbn [runtime].
  rewrite Hsid. destruct (rp_vsphere_server_id (runtime c)) as [id|].
  { split; [reflexivity|]; eexists; split; reflexivity. }
  destruct (negb (os_family =? "")%string); [|exact eq_refl].
  match goal with
  | |- context [get_vm_name _ _ ?d] =>
      match goal with
      | |- context [alike _ _ _ (match get_vm_name _ _ ?d0 with _ => _ end)] =>
          pose proof (get_vm_name_alike server os_family d d0
                        (same_identity_logged c c0 _ _ H)) as Hn
      end
  end.
  match type of Hn with
  | alike _ _ ?o ?o0 => destruct o as [a c'|e], o0 as [a0 c0'|e0]
  end; simpl in Hn |- *; try contradiction; [|exact Hn].
  destruct Hn as [-> [lines [-> ->]]]. split; [reflexivity|].
  unfold logged; simpl. rewrite <- !app_assoc. eexists; split; reflexivity.
Qed.

(** *** Operations that write to the log only *)

Lemma logs_only_ret {A} (a : A) : logs_only (ret a).
Proof. intros c a' c' H; injection H as _ <-; exists []; now rewrite logged_nil. Qed.

Lemma logs_only_raise {A} e : logs_only (@raise A e).
Proof. intros c a c' H; discriminate. Qed.

Lemma logs_only_log l t a : logs_only (log l t a).
Proof. intros c u c' H; injection H as H; subst c'; eexists; reflexivity. Qed.

Lemma logs_only_get_runtime : logs_only get_runtime.
Proof. intros c a c' H; injection H as _ <-; exists []; now rewrite logged_nil. Qed.

Lemma logs_only_ask : logs_only ask.
Proof. intros c a c' H; injection H as _ <-; exists []; now rewrite logged_nil. Qed.

Lemma logs_only_call r : logs_only (call r).
Proof.
  intros c a c' H; unfold call in H; destruct r; [discriminate|].
  injection H as <-; exists []; now rewrite logged_nil.
Qed.

Lemma logs_only_lift {A} (r : exn + A) : logs_only (lift r).
Proof.
  intros c a c' H; unfold lift in H; destruct r; [discriminate|].
  injection H as _ <-; exists []; now rewrite logged_nil.
Qed.

Lemma logs_only_bind {A B} (m : M A) (k : A -> M B) :
  logs_only m -> (forall a, logs_only (k a)) -> logs_only (bind m k).
Proof.
  intros Hm Hk c b c' H. unfold bind in H.
  destruct (m c) as [a c1|e] eqn:E; [|discriminate].
  destruct (Hm _ _ _ E) as [l1 ->]. destruct (Hk _ _ _ _ H) as [l2 ->].
  exists (l1 ++ l2)%list; apply logged_logged.
Qed.

Lemma logs_only_alike {A} (m : M A) :
  (forall c, alike c c (m c) (m c)) -> logs_only m.
Proof.
  intros H c a c' E. specialize (H c). rewrite E in H.
  destruct H as [_ [lines [-> _]]]. now exists lines.
Qed.

Lemma logs_only_get_vm_name server os_family : logs_only (get_vm_name server os_family).
Proof.
  apply logs_only_alike; intros c; apply get_vm_name_alike, same_identity_refl.
Qed.

Lemma logs_only_get_server_by_context client server os_family :
  logs_only (get_server_by_context client server os_family).
Proof.
  apply logs_only_alike; intros c.
  apply get_server_by_context_alike, same_identity_refl.
Qed.

Ltac logs_only :=
  repeat first
    [ apply logs_only_get_vm_name
    | apply logs_only_get_server_by_context
    | apply logs_only_log
    | apply logs_only_ret
    | apply logs_only_raise
    | apply logs_only_get_runtime
    | apply logs_only_ask
    | apply logs_only_call
    | apply logs_only_lift
    | apply logs_only_bind; [|intros ?]
    | match goal with
      | |- logs_only (if ?b then _ else _) => destruct b
      | |- logs_only (match ?x with _ => _ end) => destruct x
      end ].

(** X12: [stop], [delete], [shutdown_guest], [freeze_suspend],
    [freeze_resume], the three snapshot operations and the legacy [resize]
    never write a runtime property: whenever one of them returns, the
    context is the one it started from with lines added to the log.  In
    particular [delete] leaves the persisted server id and name in place. *)
Theorem X12_power_and_backup_operations_write_the_log_only
    (client : server_client) (power : power_client) (server : server_props)
    (os_family snapshot_name : string) (force incremental with_memory : bool)
    (snapshot_type : pyval) (max_wait_time retry_number : Z) :
  logs_only (stop client server os_family force max_wait_time)
  /\ logs_only (delete client server os_family force max_wait_time)
  /\ logs_only (shutdown_guest client power server os_family max_wait_time)
  /\ logs_only (freeze_suspend client power server os_family max_wait_time)
  /\ logs_only (freeze_resume client power server os_family max_wait_time)
  /\ logs_only (snapshot_create client power server os_family snapshot_name
                  incremental snapshot_type max_wait_time with_memory retry_number)
  /\ logs_only (snapshot_apply client power server os_family snapshot_name
                  incremental max_wait_time)
  /\ logs_only (snapshot_delete client power server os_family snapshot_name
                  incremental max_wait_time)
  /\ logs_only (resize client server os_family).
Proof.
  repeat split.
  all: unfold stop, delete, shutdown_guest, freeze_suspend, freeze_resume,
         snapshot_create, snapshot_apply, snapshot_delete, resize.
  all: logs_only.
Qed.

Lemma X12_power_and_backup_operations_write_the_log_only_witness :
  exists c',
    delete present_client (ServerProps None None None None) "linux" false 300 created_ctx
    = Returns tt c'
    /\ exists lines, c' = logged created_ctx lines.
Proof.
  assert (E : exists c',
             delete present_client (ServerProps None None None None) "linux" false 300
               created_ctx = Returns tt c')
    by (eexists; vm_compute; reflexivity).
  destruct E as [c' E]. exists c'. split; [exact E|].
  exact (proj1 (proj2 (X12_power_and_backup_operations_write_the_log_only
                         present_client willing_power (ServerProps None None None None)
                         "linux" "nightly" false true false PNone 300 0))
           _ _ _ E).
Defined.

(** *** The guard for adopted servers *)

(** X10: for an adopted server ([use_external_resource] persisted as true)
    [freeze_suspend], [freeze_resume], the three snapshot operations and an
    unforced [delete] return at once with the one log line 'Used existing
    resource.', and an unforced [stop] with its own warning, whatever the
    client would do, whatever the backup name is and whether or not the
    server exists. *)
Theorem X10_adopted_server_is_left_alone
    (client : server_client) (power : power_client) (server : server_props)
    (os_family snapshot_name : string) (incremental with_memory : bool)
    (snapshot_type : pyval) (max_wait_time retry_number : Z) (c : ctx) :
  rp_resource_external (runtime c) = Some true ->
  freeze_suspend client power server os_family max_wait_time c = used_existing c
  /\ freeze_resume client power server os_family max_wait_time c = used_existing c
  /\ snapshot_create client power server os_family snapshot_name incremental
       snapshot_type max_wait_time with_memory retry_number c = used_existing c
  /\ snapshot_apply client power server os_family snapshot_name incremental
       max_wait_time c = used_existing c
  /\ snapshot_delete client power server os_family snapshot_name incremental
       max_wait_time c = used_existing c
  /\ delete client server os_family false max_wait_time c = used_existing c
  /\ stop client server os_family false max_wait_time c
     = Returns tt (logged c
         [(warn,
           Msg "Not stopping because use_external_resource is True and force_stop is False."
               [])]).
Proof.
  intros H.
  unfold freeze_suspend, freeze_resume, snapshot_create, snapshot_apply,
    snapshot_delete, delete, stop, used_existing.
  cbv beta iota delta [bind get_runtime]. rewrite H.
  repeat split.
Qed.

Lemma X10_adopted_server_is_left_alone_witness :
  rp_resource_external (runtime adopted_ctx) = Some true
  /\ snapshot_delete gone_client (failing_power (PyError TypeError))
       (ServerProps None None None None) "linux" "" true 300 adopted_ctx
     = used_existing adopted_ctx.
Proof.
  split; [reflexivity|].
  exact (proj1 (proj2 (proj2 (proj2 (proj2
    (X10_adopted_server_is_left_alone gone_client (failing_power (PyError TypeError))
       (ServerProps None None None None) "linux" "" true false PNone 300 0
       adopted_ctx eq_refl)))))).
Defined.

(** *** The checks of the snapshot operations *)

(** X14: for a server that is not adopted, the three snapshot operations
    refuse an empty backup name with 'Backup name must be provided.', also
    when the backup is not incremental; with a name and
    [snapshot_incremental] false they return after one log line.  Neither
    case depends on the client: the platform is not consulted. *)
Theorem X14_snapshot_operations_check_name_then_kind
    (client : server_client) (power : power_client) (server : server_props)
    (os_family snapshot_name : string) (incremental with_memory : bool)
    (snapshot_type : pyval) (max_wait_time retry_number : Z) (c : ctx) :
  flag (rp_resource_external (runtime c)) = false ->
  (snapshot_create client power server os_family "" incremental snapshot_type
     max_wait_time with_memory retry_number c = no_backup_name
   /\ snapshot_apply client power server os_family "" incremental max_wait_time c
      = no_backup_name
   /\ snapshot_delete client power server os_family "" incremental max_wait_time c
      = no_backup_name)
  /\ (snapshot_name <> "" ->
      snapshot_create client power server os_family snapshot_name false snapshot_type
        max_wait_time with_memory retry_number c
      = Returns tt (logged c [(info, Msg "Create backup for VM is unsupported." [])])
      /\ snapshot_apply client power server os_family snapshot_name false
           max_wait_time c
         = Returns tt
             (logged c [(info, Msg "Restore from backup for VM is unsupported." [])])
      /\ snapshot_delete client power server os_family snapshot_name false
           max_wait_time c
         = Returns tt
             (logged c [(info, Msg "Delete backup for VM is unsupported." [])])).
Proof.
  intros H.
  unfold snapshot_create, snapshot_apply, snapshot_delete, no_backup_name.
  cbv beta iota delta [bind get_runtime]. rewrite H.
  split; [repeat split|].
  intros Hn. apply String.eqb_neq in Hn. rewrite Hn. repeat split.
Qed.

Lemma X14_snapshot_operations_check_name_then_kind_witness :
  flag (rp_resource_external (runtime created_ctx)) = false
  /\ snapshot_create gone_client willing_power (ServerProps None None None None)
       "linux" "" false PNone 300 true 0 created_ctx = no_backup_name.
Proof.
  split; [reflexivity|].
  exact (proj1 (proj1
    (X14_snapshot_operations_check_name_then_kind gone_client willing_power
       (ServerProps None None None None) "linux" "nightly" false true PNone 300 0
       created_ctx eq_refl))).
Defined.

(** *** With and without the server *)

Lemma lookup_transported client server os_family c c0 r c1 :
  get_server_by_context client server os_family c = Returns r c1 ->
  same_identity c c0 ->
  exists c0',
    get_server_by_context client server os_family c0 = Returns r c0'
    /\ same_identity c c0'.
Proof.
  intros E S. pose proof (get_server_by_context_alike client server os_family c c0 S) as H.
  rewrite E in H.
  destruct (get_server_by_context client server os_family c0) as [r0 c0'|e];
    [|contradiction].
  destruct H as [-> [lines [_ ->]]]. exists (logged c0 lines). split; [reflexivity|].
  exact S.
Qed.

Lemma name_transported server os_family c c0 name c2 :
  get_vm_name server os_family c = Returns name c2 ->
  same_identity c c0 ->
  exists c0', get_vm_name server os_family c0 = Returns name c0'.
Proof.
  intros E S. pose proof (get_vm_name_alike server os_family c c0 S) as H.
  rewrite E in H.
  destruct (get_vm_name server os_family c0) as [r0 c0'|e]; [|contradiction].
  destruct H as [-> _]. now exists c0'.
Qed.

Lemma without_server {A} client server os_family template (k : server_obj -> M A)
    c c0 c1 :
  get_server_by_context client server os_family c = Returns None c1 ->
  same_identity c c0 ->
  bind (get_server_by_context client server os_family)
    (fun server_obj =>
       match server_obj with
       | None =>
           c <- ask ;;
           raise (NonRecoverableError [Msg template [AStr (instance_id c)]])
       | Some server_obj => k server_obj
       end) c0
  = no_server template c.
Proof.
  intros E S. destruct (lookup_transported _ _ _ _ _ _ _ E S) as [c0' [E0 [Hid _]]].
  rewrite (bind_returns _ _ _ _ _ E0). unfold no_server.
  cbv beta iota delta [bind ask raise]. now rewrite Hid.
Qed.

Lemma with_server {A} client server os_family (n : M A) (k : server_obj -> M A)
    c c0 so c1 :
  get_server_by_context client server os_family c = Returns (Some so) c1 ->
  same_identity c c0 ->
  exists c0',
    same_identity c c0'
    /\ bind (get_server_by_context client server os_family)
         (fun server_obj =>
            match server_obj with
            | None => n
            | Some server_obj => k server_obj
            end) c0
       = k so c0'.
Proof.
  intros E S. destruct (lookup_transported _ _ _ _ _ _ _ E S) as [c0' [E0 S0]].
  exists c0'. split; [exact S0|]. now rewrite (bind_returns _ _ _ _ _ E0).
Qed.

(** The steps every operation takes once it has the server: the name, a
    line in the log, the call on the platform, another line. *)
Lemma named_call server os_family c c0 name c2 l1 t1 (a1 : string -> list arg)
    (r : option exn) l2 t2 (a2 : string -> list arg) :
  get_vm_name server os_family c = Returns name c2 ->
  same_identity c c0 ->
  same_result
    ((vm_name <- get_vm_name server os_family ;;
      log l1 t1 (a1 vm_name) ;;
      call r ;;
      log l2 t2 (a2 vm_name)) c0)
    (call r c).
Proof.
  intros E S. destruct (name_transported _ _ _ _ _ _ E S) as [c0' E0].
  rewrite (bind_returns _ _ _ _ _ E0).
  cbv beta iota delta [bind log call]. destruct r; reflexivity.
Qed.

(** X11: when the look-up finds no server, [shutdown_guest], the legacy
    [resize], [get_state] (whatever the minimum wait), [resize_server] with
    a size to apply and, for a server that is not adopted, [freeze_suspend],
    [freeze_resume] and the snapshot operations with a name and
    [snapshot_incremental] all raise a NonRecoverableError that names the
    node instance. *)
Theorem X11_operations_raise_when_the_server_is_missing
    (client : server_client) (power : power_client) (common : plugin_common)
    (server : server_props) (networking : option networking_props)
    (os_family snapshot_name : string) (snapshot_type : pyval)
    (with_memory wait_ip : bool) (max_wait_time retry_number : Z)
    (cpus memory minimum_wait_time : option Z) (c c1 : ctx) :
  get_server_by_context client server os_family c = Returns None c1 ->
  shutdown_guest client power server os_family max_wait_time c
  = no_server "Cannot shutdown server guest - server doesn't exist for node: {0}" c
  /\ resize client server os_family c
     = no_server "Cannot resize server - server doesn't exist for node: {0}" c
  /\ get_state client common server networking os_family wait_ip minimum_wait_time c
     = no_server "Cannot get info - server doesn't exist for node: {0}" c
  /\ (int_truthy cpus || int_truthy memory = true ->
      resize_server client server os_family cpus memory max_wait_time c
      = no_server "Cannot resize server - server doesn't exist for node: {0}" c)
  /\ (flag (rp_resource_external (runtime c)) = false ->
      freeze_suspend client power server os_family max_wait_time c
      = no_server "Cannot suspend server - server doesn't exist for node: {0}" c
      /\ freeze_resume client power server os_family max_wait_time c
         = no_server "Cannot resume server - server doesn't exist for node: {0}" c
      /\ (snapshot_name <> "" ->
          snapshot_create client power server os_family snapshot_name true
            snapshot_type max_wait_time with_memory retry_number c
          = no_server "Cannot backup server - server doesn't exist for node: {0}" c
          /\ snapshot_apply client power server os_family snapshot_name true
               max_wait_time c
             = no_server "Cannot restore server - server doesn't exist for node: {0}" c
          /\ snapshot_delete client power server os_family snapshot_name true
               max_wait_time c
             = no_server
                 "Cannot remove backup for server - server doesn't exist for node: {0}"
                 c)).
Proof.
  intros E.
  assert (S := same_identity_refl c).
  split; [|split; [|split; [|split]]].
  - unfold shutdown_guest. now apply without_server with (c1 := c1).
  - unfold resize. rewrite (bind_returns (log _ _ _) _ c tt _ eq_refl).
    now apply without_server with (c1 := c1).
  - unfold get_state. destruct (min_wait_settled minimum_wait_time c) as [c0 [E0 S0]].
    rewrite (bind_returns _ _ _ _ _ E0).
    apply without_server with (c1 := c1); [exact E|].
    now apply settled_same_identity.
  - intros H. unfold resize_server. rewrite H. cbn [negb].
    now apply without_server with (c1 := c1).
  - intros H.
    unfold freeze_suspend, freeze_resume, snapshot_create, snapshot_apply,
      snapshot_delete.
    rewrite !(bind_returns get_runtime _ c (runtime c) c eq_refl), H.
    split; [|split].
    + now apply without_server with (c1 := c1).
    + now apply without_server with (c1 := c1).
    + intros Hn. apply String.eqb_neq in Hn. rewrite Hn. cbn [negb].
      repeat split; now apply without_server with (c1 := c1).
Qed.

Lemma X11_operations_raise_when_the_server_is_missing_witness :
  exists c1,
    get_server_by_context gone_client (ServerProps None None None None) "linux"
      created_ctx = Returns None c1
    /\ get_state gone_client spec_common (ServerProps None None None None) None
         "linux" true (Some 30) created_ctx
       = no_server "Cannot get info - server doesn't exist for node: {0}" created_ctx.
Proof.
  assert (E : exists c1,
             get_server_by_context gone_client (ServerProps None None None None)
               "linux" created_ctx = Returns None c1)
    by (eexists; vm_compute; reflexivity).
  destruct E as [c1 E]. exists c1. split; [exact E|].
  exact (proj1 (proj2 (proj2
    (X11_operations_raise_when_the_server_is_missing gone_client willing_power
       spec_common (ServerProps None None None None) None "linux" "nightly" PNone
       false true 300 0 None None (Some 30) created_ctx c1 E)))).
Defined.

Ltac ends_as Hgo S c a1 r :=
  match goal with
  | |- same_result (bind _ _ ?c0) _ =>
      exact (Hgo c0 info _ a1 r info _ (fun n => [AStr n]) _ (S : same_identity c c0))
  end.

(** X13: when the look-up finds the server and its name can be had, each
    operation that gets past its guard ends as its one call on the platform
    ends: it returns if the call returns and raises what the call raises.
    [snapshot_create] asks for a retry exactly when the operation's retry
    number is positive, and the legacy [resize] hands over the persisted
    [cpus] and [memory] with no waiting time. *)
Theorem X13_operation_ends_as_its_platform_call
    (client : server_client) (power : power_client) (server : server_props)
    (os_family snapshot_name name : string) (snapshot_type : pyval)
    (force with_memory : bool) (max_wait_time retry_number : Z)
    (server_obj : server_obj) (c c1 c2 : ctx) :
  get_server_by_context client server os_family c = Returns (Some server_obj) c1 ->
  get_vm_name server os_family c = Returns name c2 ->
  same_result (shutdown_guest client power server os_family max_wait_time c)
              (call (shutdown_server_guest power server_obj max_wait_time) c)
  /\ (unguarded c force ->
      same_result (stop client server os_family force max_wait_time c)
                  (call (stop_server client server_obj max_wait_time) c)
      /\ same_result (delete client server os_family force max_wait_time c)
                     (call (delete_server client server_obj max_wait_time) c))
  /\ (flag (rp_resource_external (runtime c)) = false ->
      same_result (freeze_suspend client power server os_family max_wait_time c)
                  (call (suspend_server power server_obj max_wait_time) c)
      /\ same_result (freeze_resume client power server os_family max_wait_time c)
                     (call (start_server power server_obj max_wait_time) c)
      /\ (snapshot_name <> "" ->
          same_result
            (snapshot_create client power server os_family snapshot_name true
               snapshot_type max_wait_time with_memory retry_number c)
            (call (backup_server power server_obj snapshot_name snapshot_type
                     max_wait_time with_memory (retry_number >? 0)) c)
          /\ same_result
               (snapshot_apply client power server os_family snapshot_name true
                  max_wait_time c)
               (call (restore_server power server_obj snapshot_name max_wait_time) c)
          /\ same_result
               (snapshot_delete client power server os_family snapshot_name true
                  max_wait_time c)
               (call (remove_backup power server_obj snapshot_name max_wait_time) c)))
  /\ (int_truthy (rp_cpus (runtime c)) || int_truthy (rp_memory (runtime c)) = true ->
      same_result (resize client server os_family c)
                  (call (client_resize_server client server_obj (rp_cpus (runtime c))
                           (rp_memory (runtime c)) None) c)).
Proof.
  intros E En.
  assert (S := same_identity_refl c).
  assert (Hgo : forall c0 l1 t1 a1 r l2 t2 a2 (n : M unit),
             same_identity c c0 ->
             same_result
               (bind (get_server_by_context client server os_family)
                  (fun o =>
                     match o with
                     | None => n
                     | Some server_obj =>
                         vm_name <- get_vm_name server os_family ;;
                         log l1 t1 (a1 vm_name) ;;
                         call (r server_obj) ;;
                         log l2 t2 (a2 vm_name)
                     end) c0)
               (call (r server_obj) c)).
  { intros c0 l1 t1 a1 r l2 t2 a2 n S0.
    destruct (with_server client server os_family n
                (fun server_obj =>
                   vm_name <- get_vm_name server os_family ;;
                   log l1 t1 (a1 vm_name) ;;
                   call (r server_obj) ;;
                   log l2 t2 (a2 vm_name))
                c c0 server_obj c1 E S0) as [c0' [S0' ->]].
    now apply named_call with (name := name) (c2 := c2). }
  split; [|split; [|split]].
  - unfold shutdown_guest.
    ends_as Hgo S c (fun n => [AStr n])
          (fun so => shutdown_server_guest power so max_wait_time).
  - unfold unguarded. intros H. unfold stop, delete. cbv zeta.
    rewrite !(bind_returns get_runtime _ c (runtime c) c eq_refl), H.
    split.
    + destruct force.
      * rewrite (bind_returns (log _ _ _) _ c tt _ eq_refl).
        ends_as Hgo S c (fun n => [AStr n])
          (fun so => stop_server client so max_wait_time).
      * rewrite (bind_returns (ret tt) _ c tt c eq_refl).
        ends_as Hgo S c (fun n => [AStr n])
          (fun so => stop_server client so max_wait_time).
    + destruct force.
      * rewrite (bind_returns (log _ _ _) _ c tt _ eq_refl).
        ends_as Hgo S c (fun n => [AStr n])
          (fun so => delete_server client so max_wait_time).
      * rewrite (bind_returns (ret tt) _ c tt c eq_refl).
        ends_as Hgo S c (fun n => [AStr n])
          (fun so => delete_server client so max_wait_time).
  - intros H.
    unfold freeze_suspend, freeze_resume, snapshot_create, snapshot_apply,
      snapshot_delete.
    rewrite !(bind_returns get_runtime _ c (runtime c) c eq_refl), H.
    split; [|split].
    + ends_as Hgo S c (fun n => [AStr n])
          (fun so => suspend_server power so max_wait_time).
    + ends_as Hgo S c (fun n => [AStr n])
          (fun so => start_server power so max_wait_time).
    + intros Hn. apply String.eqb_neq in Hn. rewrite Hn. cbn [negb].
      split; [|split].
      * ends_as Hgo S c (fun n => [AStr snapshot_name; AStr n])
          (fun so => backup_server power so snapshot_name snapshot_type
                       max_wait_time with_memory (retry_number >? 0)).
      * ends_as Hgo S c (fun n => [AStr snapshot_name; AStr n])
          (fun so => restore_server power so snapshot_name max_wait_time).
      * ends_as Hgo S c (fun n => [AStr snapshot_name; AStr n])
          (fun so => remove_backup power so snapshot_name max_wait_time).
  - intros H. unfold resize.
    rewrite (bind_returns (log _ _ _) _ c tt _ eq_refl).
    match goal with
    | |- same_result (bind _ ?K ?c0) _ =>
        destruct (lookup_transported client server os_family c c0 _ c1 E S)
          as [c0' [E0 S0]];
        rewrite (bind_returns _ K c0 _ c0' E0)
    end.
    destruct (name_transported _ _ _ _ _ _ En S0) as [c3 E3].
    rewrite (bind_returns _ _ _ _ _ E3).
    assert (R : runtime c3 = runtime c).
    { pose proof (logs_only_get_server_by_context client server os_family _ _ _ E0)
        as [l0 ->].
      pose proof (logs_only_get_vm_name server os_family _ _ _ E3) as [l3 ->].
      reflexivity. }
    rewrite (bind_returns get_runtime _ c3 (runtime c3) c3 eq_refl).
    cbv zeta. rewrite R, H.
    cbv beta iota delta [bind log call].
    destruct (client_resize_server client server_obj (rp_cpus (runtime c))
                (rp_memory (runtime c)) None); reflexivity.
Qed.

Lemma X13_operation_ends_as_its_platform_call_witness :
  exists c1 c2,
    get_server_by_context (stubborn_client (PyError TypeError))
      (ServerProps None None None None) "linux" created_ctx
    = Returns (Some sample_server) c1
    /\ get_vm_name (ServerProps None None None None) "linux" created_ctx
       = Returns "web-0042" c2
    /\ unguarded created_ctx true
    /\ same_result
         (delete (stubborn_client (PyError TypeError)) (ServerProps None None None None)
            "linux" true 300 created_ctx)
         (Raises (PyError TypeError)).
Proof.
  assert (E : exists c1,
             get_server_by_context (stubborn_client (PyError TypeError))
               (ServerProps None None None None) "linux" created_ctx
             = Returns (Some sample_server) c1)
    by (eexists; vm_compute; reflexivity).
  assert (En : exists c2,
             get_vm_name (ServerProps None None None None) "linux" created_ctx
             = Returns "web-0042" c2)
    by (eexists; vm_compute; reflexivity).
  destruct E as [c1 E], En as [c2 En]. exists c1, c2.
  split; [exact E|]. split; [exact En|]. split; [reflexivity|].
  exact (proj2 (proj1 (proj2
    (X13_operation_ends_as_its_platform_call (stubborn_client (PyError TypeError))
       willing_power (ServerProps None None None None) "linux" "nightly" "web-0042"
       PNone true false 300 0 sample_server created_ctx c1 c2 E En)) eq_refl)).
Defined.

(** ** The minimum wait *)

Lemma waiting_clock turns count m c :
  m - count <= 10 * Z.of_nat turns ->
  exists c',
    waiting turns count m c = Returns tt c'
    /\ runtime c' = runtime c
    /\ clock c <= clock c'
    /\ m <= count + (clock c' - clock c)
    /\ clock c' - clock c <= Z.max 0 (m - count + 9).
Proof.
  revert count c; induction turns as [|turns IH]; intros count c Hfuel;
    cbn [waiting].
  - exists c. repeat split; try reflexivity; lia.
  - destruct (count <? m) eqn:Hlt.
    + apply Z.ltb_lt in Hlt.
      rewrite (bind_returns (log _ _ _) _ c tt _ eq_refl).
      match goal with
      | |- context [bind (sleep 10) _ ?c0] =>
          rewrite (bind_returns (sleep 10) _ c0 tt _ eq_refl)
      end.
      match goal with
      | |- context [waiting turns (count + 10) m ?c0] =>
          destruct (IH (count + 10) c0) as [c' [E [R [H1 [H2 H3]]]]]; [lia|]
      end.
      exists c'. cbn [clock runtime] in *. repeat split; try assumption; lia.
    + apply Z.ltb_ge in Hlt. exists c. repeat split; try reflexivity; lia.
Qed.

Lemma arrived_again minimum_wait_time c start :
  rp_min_wait_time_start (runtime c) = Some start ->
  start + minimum_wait_time <= clock c ->
  exists c',
    arrived_at_min_wait_time minimum_wait_time c = Returns tt c'
    /\ clock c' = clock c /\ runtime c' = runtime c.
Proof.
  intros Hs Hle. unfold arrived_at_min_wait_time.
  cbv beta iota delta [bind get_runtime ask]. rewrite Hs.
  cbv beta iota zeta delta [bind log]. cbn [clock].
  destruct (minimum_wait_time >? clock c - start) eqn:Hgt.
  - apply Z.gtb_lt in Hgt. lia.
  - eexists; repeat split.
Qed.

Lemma arrived_once minimum_wait_time c :
  exists c',
    arrived_at_min_wait_time minimum_wait_time c = Returns tt c'
    /\ rp_min_wait_time_start (runtime c') = Some (wait_start c)
    /\ clock c <= clock c'
    /\ wait_start c + minimum_wait_time <= clock c'
    /\ clock c' <= Z.max (clock c) (wait_start c + minimum_wait_time + 9).
Proof.
  unfold arrived_at_min_wait_time, wait_start.
  cbv beta iota delta [bind get_runtime ask].
  destruct (rp_min_wait_time_start (runtime c)) as [start|] eqn:Hs.
  - cbv beta iota zeta delta [bind log]. cbn [clock].
    destruct (minimum_wait_time >? clock c - start) eqn:Hgt.
    + apply Z.gtb_lt in Hgt.
      eexists. split; [reflexivity|]. cbn [sleep clock runtime].
      split; [exact Hs|]. repeat split; lia.
    + assert (minimum_wait_time <= clock c - start).
      { destruct (Z.gtb_spec minimum_wait_time (clock c - start)); [discriminate|lia]. }
      eexists. split; [reflexivity|]. cbn [clock runtime].
      split; [exact Hs|]. repeat split; lia.
  - cbv beta iota delta [bind set_runtime log].
    match goal with
    | |- context [waiting ?t 0 ?m ?c0] =>
        destruct (waiting_clock t 0 m c0) as [c' [E [R [H1 [H2 H3]]]]]; [lia|]
    end.
    exists c'. split; [exact E|]. cbn [clock runtime] in *.
    split; [rewrite R; reflexivity|]. repeat split; lia.
Qed.

(** X15: [arrived_at_min_wait_time] always returns.  When it has, the start
    of the wait is persisted (the one already there, or the time of this
    call), the clock has not gone back, at least [minimum_wait_time] seconds
    lie between that start and now, the call overslept by less than ten
    seconds, and a second call right away does not sleep at all. *)
Theorem X15_minimum_wait_has_elapsed_on_return (minimum_wait_time : Z) (c : ctx) :
  exists c',
    arrived_at_min_wait_time minimum_wait_time c = Returns tt c'
    /\ rp_min_wait_time_start (runtime c') = Some (wait_start c)
    /\ clock c <= clock c'
    /\ wait_start c + minimum_wait_time <= clock c'
    /\ clock c' <= Z.max (clock c) (wait_start c + minimum_wait_time + 9)
    /\ exists c'',
         arrived_at_min_wait_time minimum_wait_time c' = Returns tt c''
         /\ clock c'' = clock c'
         /\ runtime c'' = runtime c'.
Proof.
  destruct (arrived_once minimum_wait_time c) as [c' [E [Hs [H1 [H2 H3]]]]].
  exists c'. repeat (split; [assumption|]).
  exact (arrived_again minimum_wait_time c' (wait_start c) Hs H2).
Qed.

(** ** Polling a server that is found *)

(** One step of an operation at a time. *)
Lemma bind_log {B} l t a (k : unit -> M B) c :
  bind (log l t a) k c = k tt (logged c [(l, Msg t a)]).
Proof. reflexivity. Qed.

Lemma bind_set_runtime {B} f (k : unit -> M B) c :
  bind (set_runtime f) k c = k tt (stored f c).
Proof. reflexivity. Qed.

Lemma bind_get_runtime {B} (k : runtime_properties -> M B) c :
  bind get_runtime k c = k (runtime c) c.
Proof. reflexivity. Qed.

Lemma bind_ask {B} (k : ctx -> M B) c : bind ask k c = k c c.
Proof. reflexivity. Qed.

Lemma bind_ret {A B} (a : A) (k : A -> M B) c : bind (ret a) k c = k a c.
Proof. reflexivity. Qed.

Lemma bind_lift {A B} (a : A) (k : A -> M B) c : bind (lift (inr a)) k c = k a c.
Proof. reflexivity. Qed.

Lemma bind_lift_inl {A B} e (k : A -> M B) c : bind (lift (inl e)) k c = Raises e.
Proof. reflexivity. Qed.

Lemma bind_raise {A B} e (k : A -> M B) c : bind (raise e) k c = Raises e.
Proof. reflexivity. Qed.

Lemma bind_raises {A B} (m : M A) (k : A -> M B) c e :
  m c = Raises e -> bind m k c = Raises e.
Proof. intros H; unfold bind; now rewrite H. Qed.

Lemma bind_assoc {A B C} (m : M A) (k : A -> M B) (k' : B -> M C) c :
  bind (bind m k) k' c = bind m (fun a => bind (k a) k') c.
Proof. unfold bind; destruct (m c); reflexivity. Qed.

Ltac step :=
  first [ rewrite bind_log | rewrite bind_set_runtime | rewrite bind_get_runtime
        | rewrite bind_ask | rewrite bind_ret | rewrite bind_lift
        | rewrite bind_raise | rewrite bind_lift_inl | rewrite bind_assoc ];
  cbv beta iota; rewrite ?logged_logged.

Lemma settled_logged c c0 lines : settled c c0 -> settled c (logged c0 lines).
Proof. intros S; exact S. Qed.

(** [get_state] up to the point where it has the server and its name. *)
Lemma get_state_resumes client common server networking os_family wait_ip
    minimum_wait_time c server_obj c1 name c2 :
  get_server_by_context client server os_family c = Returns (Some server_obj) c1 ->
  get_vm_name server os_family c = Returns name c2 ->
  exists c0 lines lines',
    settled c c0
    /\ get_state client common server networking os_family wait_ip minimum_wait_time c
       = get_state client common server networking os_family wait_ip None c0
    /\ get_server_by_context client server os_family c0
       = Returns (Some server_obj) (logged c0 lines)
    /\ get_vm_name server os_family (logged c0 lines)
       = Returns name (logged c0 (lines ++ lines')).
Proof.
  intros E En.
  destruct (min_wait_settled minimum_wait_time c) as [c0 [E0 S0]].
  assert (I0 := settled_same_identity _ _ S0).
  destruct (lookup_transported _ _ _ _ _ _ _ E I0) as [c0' [E1 I1]].
  destruct (logs_only_get_server_by_context _ _ _ _ _ _ E1) as [lines ->].
  destruct (name_transported _ _ _ _ _ _ En I1) as [c0'' E2].
  destruct (logs_only_get_vm_name _ _ _ _ _ E2) as [lines' ->].
  rewrite logged_logged in E2.
  exists c0, lines, lines'. split; [exact S0|]. split; [|split; assumption].
  unfold get_state. rewrite (bind_returns _ _ _ _ _ E0).
  now rewrite (bind_returns (ret tt) _ c0 tt c0 eq_refl).
Qed.

Ltac resume_get_state E En :=
  match goal with
  | |- context [get_state ?client ?common ?server ?networking ?os ?wait ?mwt ?c] =>
      let c0 := fresh "c" in
      let lines := fresh "lines" in
      let lines' := fresh "lines" in
      let S0 := fresh "S" in
      let E1 := fresh "E" in
      let E2 := fresh "E" in
      destruct (get_state_resumes client common server networking os wait mwt c
                  _ _ _ _ E En) as [c0 [lines [lines' [S0 [-> [E1 E2]]]]]];
      unfold get_state;
      rewrite bind_ret;
      rewrite (bind_returns _ _ _ _ _ E1);
      rewrite (bind_returns _ _ _ _ _ E2);
      step; step; cbv zeta
  end.

(** X16: [get_state] for a server that is found but whose guest is not
    running (the OS family is not 'other'): it returns True exactly when the
    node has [enable_start_vm] set to false, and then no runtime property
    other than the start of the wait has changed; otherwise it asks for a
    retry with 'Server not yet started.'. *)
Theorem X16_get_state_of_a_server_that_is_not_running
    (client : server_client) (common : plugin_common) (server : server_props)
    (networking : option networking_props) (os_family name : string)
    (wait_ip : bool) (minimum_wait_time : option Z) (server_obj : server_obj)
    (c c1 c2 : ctx) :
  get_server_by_context client server os_family c = Returns (Some server_obj) c1 ->
  get_vm_name server os_family c = Returns name c2 ->
  is_server_guest_running client server_obj = false ->
  os_family <> "other" ->
  match np_enable_start_vm (node c) with
  | Some false =>
      exists c',
        get_state client common server networking os_family wait_ip
          minimum_wait_time c = Returns true c'
        /\ settled c c'
  | _ =>
      get_state client common server networking os_family wait_ip
        minimum_wait_time c
      = Raises (OperationRetry (Msg "Server not yet started." []))
  end.
Proof.
  intros E En Hrun Hos. apply String.eqb_neq in Hos.
  assert (Hnode : forall c0, settled c c0 -> node c0 = node c) by (intros c0 S; apply S).
  destruct (np_enable_start_vm (node c)) as [[|]|] eqn:Hen.
  all: resume_get_state E En.
  all: rewrite Hos; cbn [str_truthy andb orb]; rewrite Hrun.
  all: step; step; cbn [node logged].
  all: rewrite (Hnode _ S), Hen; cbn [negb].
  1, 3: reflexivity.
  eexists. split; [reflexivity|]. exact S.
Qed.

Lemma X16_get_state_of_a_server_that_is_not_running_witness :
  exists c',
    get_state (idle_client sample_server) spec_common (ServerProps None None None None)
      None "linux" true (Some 30) unstarted_ctx = Returns true c'
    /\ settled unstarted_ctx c'.
Proof.
  assert (E : exists c1,
             get_server_by_context (idle_client sample_server)
               (ServerProps None None None None) "linux" unstarted_ctx
             = Returns (Some sample_server) c1)
    by (eexists; vm_compute; reflexivity).
  assert (En : exists c2,
             get_vm_name (ServerProps None None None None) "linux" unstarted_ctx
             = Returns "web-0042" c2)
    by (eexists; vm_compute; reflexivity).
  destruct E as [c1 E], En as [c2 En].
  assert (Hos : "linux" <> "other") by discriminate.
  exact (X16_get_state_of_a_server_that_is_not_running (idle_client sample_server)
           spec_common (ServerProps None None None None) None "linux" "web-0042" true
           (Some 30) sample_server unstarted_ctx c1 c2 E En eq_refl Hos).
Defined.
(** X17: [get_state] with the OS family 'other' does not ask whether the
    guest is running.  Without an IP address attribute in the guest summary
    it returns True and only forgets the start of the wait.  With a
    non-empty summary address and no guest interface it returns True with
    that address stored both as [ip] and as [public_ip]. *)
Theorem X17_other_os_goes_by_the_summary_address
    (client : server_client) (common : plugin_common) (server : server_props)
    (networking : option networking_props) (name : string)
    (wait_ip : bool) (minimum_wait_time : option Z) (server_obj : server_obj)
    (c c1 c2 : ctx) :
  get_server_by_context client server "other" c = Returns (Some server_obj) c1 ->
  get_vm_name server "other" c = Returns name c2 ->
  (so_summary_guest_ipAddress server_obj = None ->
   exists c',
     get_state client common server networking "other" wait_ip minimum_wait_time c
     = Returns true c'
     /\ runtime c' = with_min_wait_time_start None (runtime c))
  /\ (forall ip declared_networking management_networks,
      so_summary_guest_ipAddress server_obj = Some (Some ip) ->
      ip <> "" ->
      so_guest_net server_obj = [] ->
      networking = Some declared_networking ->
      names_flagged "management" (declared declared_networking)
      = inr management_networks ->
      exists c',
        get_state client common server networking "other" wait_ip minimum_wait_time c
        = Returns true c'
        /\ runtime c'
           = with_min_wait_time_start None
               (with_public_ip (Some ip) (with_ip (Some ip) (runtime c)))).
Proof.
  intros E En.
  split.
  - intros Hs. resume_get_state E En.
    change ("other" =? "other")%string with true. cbv iota.
    step. rewrite Hs. unfold pop_min_wait_time_start. step.
    eexists. split; [reflexivity|]. cbn [runtime stored logged].
    apply S.
  - intros ip n names Hs Hip Hnet -> Hm. resume_get_state E En.
    change ("other" =? "other")%string with true. cbv iota.
    step. rewrite Hs. rewrite (str_truthy_some ip Hip). cbn [andb orb].
    step. step. unfold declared in Hm. rewrite Hm. step. step.
    rewrite Hnet. cbn [for_each]. step.
    cbn [default_ip manager_network_ip nets].
    rewrite (str_truthy_some ip Hip), Bool.andb_false_r. step. step.
    cbn [or_else]. rewrite ?(str_truthy_some ip Hip). cbn [or_else negb].
    unfold or_else. rewrite ?(str_truthy_some ip Hip). cbn [negb].
    unfold pop_min_wait_time_start. repeat step.
    eexists. split; [reflexivity|]. cbn [runtime stored logged].
    destruct S as [_ [_ S]].
    destruct (runtime c0), (runtime c). cbn in S |- *.
    injection S as -> -> -> -> -> -> -> -> -> -> -> ->. reflexivity.
Qed.

Lemma X17_other_os_goes_by_the_summary_address_witness :
  exists c',
    get_state (idle_client appliance_server) spec_common
      (ServerProps None None None None) (Some (Networking None)) "other" true None
      created_ctx = Returns true c'
    /\ runtime c'
       = with_min_wait_time_start None
           (with_public_ip (Some "10.0.0.9")
              (with_ip (Some "10.0.0.9") (runtime created_ctx))).
Proof.
  assert (E : exists c1,
             get_server_by_context (idle_client appliance_server)
               (ServerProps None None None None) "other" created_ctx
             = Returns (Some appliance_server) c1)
    by (eexists; vm_compute; reflexivity).
  assert (En : exists c2,
             get_vm_name (ServerProps None None None None) "other" created_ctx
             = Returns "web-0042" c2)
    by (eexists; vm_compute; reflexivity).
  destruct E as [c1 E], En as [c2 En].
  assert (Hip : "10.0.0.9" <> "") by discriminate.
  exact (proj2 (X17_other_os_goes_by_the_summary_address (idle_client appliance_server)
                  spec_common (ServerProps None None None None)
                  (Some (Networking None)) "web-0042" true None appliance_server
                  created_ctx c1 c2 E En)
           "10.0.0.9" (Networking None) [] eq_refl Hip eq_refl eq_refl eq_refl).
Defined.

(** ** Polling a server that is running *)

Lemma from_guest_none common L : from_guest common L None.
Proof. now left. Qed.

Lemma from_guest_in common L network :
  In network L -> from_guest common L (get_ip_from_vsphere_nic_ips common network).
Proof. intros H; right; now exists network. Qed.

Lemma same_but_ip_refl network : same_but_ip network network.
Proof. intros key _. reflexivity. Qed.

Lemma same_networks_but_ip_refl nets : same_networks_but_ip nets nets.
Proof.
  destruct nets as [l|]; cbn; [|exact I].
  induction l; constructor; [apply same_but_ip_refl|assumption].
Qed.

Lemma same_networks_but_ip_trans nets1 nets2 nets3 :
  same_networks_but_ip nets1 nets2 -> same_networks_but_ip nets2 nets3 ->
  same_networks_but_ip nets1 nets3.
Proof.
  destruct nets1 as [l1|], nets2 as [l2|], nets3 as [l3|]; cbn; try tauto.
  intros H12. revert l3. induction H12 as [|n1 n2 l1 l2 Hn _ IH]; intros l3 H23.
  - inversion H23. constructor.
  - inversion H23 as [|? n3 ? l3' Hn' Hl']; subst. constructor; [|now apply IH].
    intros key Hk. now rewrite (Hn' key Hk), (Hn key Hk).
Qed.

Lemma store_ip_same_but_ip nets network_name ip nets' :
  store_ip nets network_name ip = inr nets' -> Forall2 same_but_ip nets nets'.
Proof.
  revert nets'. induction nets as [|net nets IH]; intros nets' H; cbn [store_ip] in H.
  - injection H as <-. constructor.
  - destruct (getitem net "name") as [e|name]; [discriminate|].
    destruct (store_ip nets network_name ip) as [e|rest]; [discriminate|].
    injection H as <-. constructor; [|now apply IH].
    destruct (py_eqb name network_name); [|apply same_but_ip_refl].
    intros key Hk. apply lookup_setitem_other. congruence.
Qed.

Lemma scan_guest_nic_step common so mgmt L network s c s' c' :
  In network L ->
  scan_guest_nic common so mgmt network s c = Returns s' c' ->
  from_guest common L (default_ip s) ->
  from_guest common L (manager_network_ip s) ->
  (exists lines, c' = logged c lines)
  /\ from_guest common L (default_ip s')
  /\ from_guest common L (manager_network_ip s')
  /\ same_networks_but_ip (nets s) (nets s').
Proof.
  intros Hin H Hd Hm. unfold scan_guest_nic in H. cbv zeta in H.
  assert (Hd' : from_guest common L
                  (if negb (str_truthy (default_ip s))
                   then get_ip_from_vsphere_nic_ips common network
                   else default_ip s)).
  { destruct (negb (str_truthy (default_ip s))); [now apply from_guest_in|exact Hd]. }
  destruct (negb (str_truthy (manager_network_ip s))
            || truthy mgmt && py_eqb (opt_val (nic_network network)) mgmt).
  - rewrite bind_assoc, bind_log in H.
    destruct (get_ip_from_vsphere_nic_ips common network) as [ip|] eqn:Eip.
    + rewrite bind_ret in H. cbv beta iota in H.
      destruct (nets s) as [nets|]; [|discriminate].
      destruct (store_ip nets (opt_val (nic_network network)) (opt_val (Some ip)))
        as [e|nets'] eqn:Es; [discriminate|].
      rewrite bind_lift in H. injection H as <- <-.
      split; [eexists; reflexivity|]. cbn [default_ip manager_network_ip Server.nets].
      split; [exact Hd'|]. split; [rewrite <- Eip; now apply from_guest_in|].
      exact (store_ip_same_but_ip _ _ _ _ Es).
    + discriminate.
  - rewrite bind_ret in H. cbv beta iota in H.
    destruct (nets s) as [nets|]; [|discriminate].
    destruct (store_ip nets (opt_val (nic_network network))
                (opt_val (get_ip_from_vsphere_nic_ips common network)))
      as [e|nets'] eqn:Es; [discriminate|].
    rewrite bind_lift in H. injection H as <- <-.
    split; [exists []; now rewrite logged_nil|].
    cbn [default_ip manager_network_ip Server.nets].
    split; [exact Hd'|]. split; [exact Hm|].
    exact (store_ip_same_but_ip _ _ _ _ Es).
Qed.

Lemma scan_loop common so mgmt L nics s c s' c' :
  incl nics L ->
  for_each nics (scan_guest_nic common so mgmt) s c = Returns s' c' ->
  from_guest common L (default_ip s) ->
  from_guest common L (manager_network_ip s) ->
  (exists lines, c' = logged c lines)
  /\ from_guest common L (default_ip s')
  /\ from_guest common L (manager_network_ip s')
  /\ same_networks_but_ip (nets s) (nets s').
Proof.
  revert s c; induction nics as [|network nics IH]; intros s c Hincl H Hd Hm.
  - injection H as <- <-. split; [exists []; now rewrite logged_nil|].
    repeat split; try assumption. apply same_networks_but_ip_refl.
  - cbn [for_each] in H. unfold bind in H.
    destruct (scan_guest_nic common so mgmt network s c) as [s1 c1|e] eqn:E1;
      [|discriminate].
    destruct (scan_guest_nic_step _ _ _ L _ _ _ _ _ (Hincl _ (or_introl eq_refl)) E1 Hd Hm)
      as [[l1 ->] [Hd1 [Hm1 Hn1]]].
    destruct (IH s1 _ (fun x Hx => Hincl x (or_intror Hx)) H Hd1 Hm1)
      as [[l2 ->] [Hd2 [Hm2 Hn2]]].
    split; [exists (l1 ++ l2)%list; apply logged_logged|].
    repeat split; try assumption.
    exact (same_networks_but_ip_trans _ _ _ Hn1 Hn2).
Qed.

Lemma get_state_running_returns
    (client : server_client) (common : plugin_common) (server : server_props)
    (networking : option networking_props) (os_family name : string)
    (wait_ip : bool) (minimum_wait_time : option Z) (server_obj : server_obj)
    (c c1 c2 : ctx) (b : bool) (c' : ctx) :
  get_server_by_context client server os_family c = Returns (Some server_obj) c1 ->
  get_vm_name server os_family c = Returns name c2 ->
  os_family <> "other" ->
  is_server_guest_running client server_obj = true ->
  get_state client common server networking os_family wait_ip minimum_wait_time c
  = Returns b c' ->
  exists declared_networking management_networks s public_ips,
    networking = Some declared_networking
    /\ names_flagged "management" (declared declared_networking)
       = inr management_networks
    /\ from_guest common (so_guest_net server_obj) (default_ip s)
    /\ from_guest common (so_guest_net server_obj) (manager_network_ip s)
    /\ same_networks_but_ip (rp_networks (runtime c)) (nets s)
    /\ truthy (management_network_name management_networks)
       && negb (str_truthy (manager_network_ip s)) = false
    /\ (wait_ip = true ->
        str_truthy (or_else (manager_network_ip s) (default_ip s)) = true)
    /\ match so_guest_net server_obj with
       | [] => public_ips = []
       | _ :: _ =>
           exists external,
             names_flagged "external" (declared declared_networking) = inr external
             /\ public_ips = map (get_server_ip client server_obj) external
             /\ existsb is_none public_ips = false
       end
    /\ b = true
    /\ instance_id c' = instance_id c
    /\ node c' = node c
    /\ runtime c'
       = with_min_wait_time_start None
           (with_public_ip (hd None public_ips)
              (with_ip (or_else (manager_network_ip s) (default_ip s))
                 (with_networks (nets s) (runtime c)))).
Proof.
  intros E En Hos Hrun. apply String.eqb_neq in Hos.
  resume_get_state E En.
  rewrite Hos. cbn [str_truthy andb orb]. rewrite Hrun.
  step. step.
  destruct networking as [n|]; [|discriminate].
  destruct (names_flagged "management"
              match connect_networks n with Some l => l | None => [] end)
    as [e|management_networks] eqn:Em; [discriminate|].
  step. step.
  match goal with
  | |- context [bind (for_each ?l ?f ?s) _ ?d] =>
      destruct (for_each l f s d) as [s' d'|e] eqn:Eloop;
      [ rewrite (bind_returns _ _ _ _ _ Eloop)
      | rewrite (bind_raises _ _ _ _ Eloop); discriminate ]
  end.
  destruct (scan_loop _ _ _ (so_guest_net server_obj) _ _ _ _ _ (incl_refl _) Eloop
              (from_guest_none _ _) (from_guest_none _ _)) as [[l ->] [Hd [Hm Hnets]]].
  cbn [nets runtime logged] in Hnets.
  rewrite (settled_field rp_networks c c0 (fun r => eq_refl) S) in Hnets.
  rewrite logged_logged.
  fold (management_network_name management_networks).
  destruct (truthy (management_network_name management_networks)
            && negb (str_truthy (manager_network_ip s'))) eqn:Hmg;
    cbv beta iota; [step; discriminate|].
  step. step. step.
  unfold pop_min_wait_time_start.
  match goal with
  | |- (bind _ ?K ?d = _ -> _) =>
      assert (Htail : forall d0,
                 K tt d0 = Returns b c' ->
                 exists public_ips,
                   match so_guest_net server_obj with
                   | [] => public_ips = []
                   | _ :: _ =>
                       exists external,
                         names_flagged "external" (declared n) = inr external
                         /\ public_ips = map (get_server_ip client server_obj) external
                         /\ existsb is_none public_ips = false
                   end
                   /\ b = true
                   /\ instance_id c' = instance_id d0
                   /\ node c' = node d0
                   /\ runtime c'
                      = with_min_wait_time_start None
                          (with_public_ip (hd None public_ips) (runtime d0)))
  end.
  { intros d0. cbv beta. unfold declared.
    destruct (so_guest_net server_obj) as [|nic nics].
    - repeat step. unfold ret. intros H; injection H as <- <-.
      exists []. repeat split.
    - step.
      destruct (names_flagged "external"
                  match connect_networks n with Some l => l | None => [] end)
        as [e|external] eqn:Ex; [step; discriminate|].
      step.
      destruct (map (get_server_ip client server_obj) external) as [|first rest]
        eqn:Emap; cbv beta iota.
      + repeat step. unfold ret. intros H; injection H as <- <-.
        exists []. split; [|repeat split]. exists external. now rewrite Emap.
      + destruct (existsb is_none (first :: rest)) eqn:Hex; cbv beta iota;
          [step; discriminate|].
        repeat step. unfold ret. intros H; injection H as <- <-.
        exists (first :: rest). split; [|repeat split]. exists external.
        now rewrite Emap. }
  assert (Hend : forall d0,
             instance_id d0 = instance_id c0 ->
             node d0 = node c0 ->
             runtime d0
             = with_ip (or_else (manager_network_ip s') (default_ip s'))
                 (with_networks (nets s') (runtime c0)) ->
             (wait_ip = true ->
              str_truthy (or_else (manager_network_ip s') (default_ip s')) = true) ->
             (exists public_ips,
                 match so_guest_net server_obj with
                 | [] => public_ips = []
                 | _ :: _ =>
                     exists external,
                       names_flagged "external" (declared n) = inr external
                       /\ public_ips = map (get_server_ip client server_obj) external
                       /\ existsb is_none public_ips = false
                 end
                 /\ b = true
                 /\ instance_id c' = instance_id d0
                 /\ node c' = node d0
                 /\ runtime c'
                    = with_min_wait_time_start None
                        (with_public_ip (hd None public_ips) (runtime d0))) ->
             exists declared_networking management_networks0 s public_ips,
               Some n = Some declared_networking
               /\ names_flagged "management" (declared declared_networking)
                  = inr management_networks0
               /\ from_guest common (so_guest_net server_obj) (default_ip s)
               /\ from_guest common (so_guest_net server_obj) (manager_network_ip s)
               /\ same_networks_but_ip (rp_networks (runtime c)) (nets s)
               /\ truthy (management_network_name management_networks0)
                  && negb (str_truthy (manager_network_ip s)) = false
               /\ (wait_ip = true ->
                   str_truthy (or_else (manager_network_ip s) (default_ip s)) = true)
               /\ match so_guest_net server_obj with
                  | [] => public_ips = []
                  | _ :: _ =>
                      exists external,
                        names_flagged "external" (declared declared_networking)
                        = inr external
                        /\ public_ips = map (get_server_ip client server_obj) external
                        /\ existsb is_none public_ips = false
                  end
               /\ b = true
               /\ instance_id c' = instance_id c
               /\ node c' = node c
               /\ runtime c'
                  = with_min_wait_time_start None
                      (with_public_ip (hd None public_ips)
                         (with_ip (or_else (manager_network_ip s) (default_ip s))
                            (with_networks (nets s) (runtime c))))).
  { intros d0 Hi Hn Hr Hw [public_ips [Hp [Hb [Hi' [Hn' Hr']]]]].
    exists n, management_networks, s', public_ips.
    split; [reflexivity|]. split; [exact Em|]. split; [exact Hd|]. split; [exact Hm|].
    split; [exact Hnets|]. split; [exact Hmg|]. split; [exact Hw|].
    split; [exact Hp|]. split; [exact Hb|].
    destruct S as [Si [Sn Sr]].
    split; [congruence|]. split; [congruence|].
    rewrite Hr', Hr.
    destruct (runtime c0), (runtime c). cbn in Sr |- *.
    injection Sr as -> -> -> -> -> -> -> -> -> -> -> ->. reflexivity. }
  destruct (negb (str_truthy (or_else (manager_network_ip s') (default_ip s'))))
    eqn:Hip; cbv beta iota.
  - step. step. destruct wait_ip; cbv beta iota; [step; step; discriminate|].
    step. intros H. apply Htail in H. revert H. apply Hend; try reflexivity.
    discriminate.
  - step. intros H. apply Htail in H. revert H. apply Hend; try reflexivity.
    intros _. now destruct (str_truthy (or_else (manager_network_ip s') (default_ip s'))).
Qed.

Lemma existsb_is_none_false {A} (f : A -> option string) l :
  existsb is_none (map f l) = false -> Forall (fun x => f x <> None) l.
Proof.
  induction l as [|x l IH]; cbn [map existsb]; intros H; constructor.
  - destruct (f x); [discriminate|discriminate H].
  - apply IH. destruct (is_none (f x)); [discriminate|exact H].
Qed.

(** X18: what [get_state] has stored when it returns for a server whose
    guest is running (OS family not 'other'): it returns True, the start of
    the wait is forgotten, [ip] is missing or is the address reported for one
    of the guest's interfaces, it is a non-empty address when [wait_ip] is on
    or when exactly one management network with a name is declared, and no
    runtime property other than [networks], [ip], [public_ip] and the start
    of the wait has changed. *)
Theorem X18_get_state_stores_an_address_of_the_guest
    (client : server_client) (common : plugin_common) (server : server_props)
    (networking : option networking_props) (os_family name : string)
    (wait_ip : bool) (minimum_wait_time : option Z) (server_obj : server_obj)
    (c c1 c2 : ctx) (b : bool) (c' : ctx) :
  get_server_by_context client server os_family c = Returns (Some server_obj) c1 ->
  get_vm_name server os_family c = Returns name c2 ->
  os_family <> "other" ->
  is_server_guest_running client server_obj = true ->
  get_state client common server networking os_family wait_ip minimum_wait_time c
  = Returns b c' ->
  b = true
  /\ rp_min_wait_time_start (runtime c') = None
  /\ from_guest common (so_guest_net server_obj) (rp_ip (runtime c'))
  /\ (wait_ip = true -> str_truthy (rp_ip (runtime c')) = true)
  /\ (forall declared_networking management_network,
      networking = Some declared_networking ->
      names_flagged "management" (declared declared_networking)
      = inr [management_network] ->
      truthy management_network = true ->
      str_truthy (rp_ip (runtime c')) = true)
  /\ beside_the_state (runtime c') = beside_the_state (runtime c)
  /\ instance_id c' = instance_id c
  /\ node c' = node c.
Proof.
  intros E En Hos Hrun H.
  destruct (get_state_running_returns _ _ _ _ _ _ _ _ _ _ _ _ _ _ E En Hos Hrun H)
    as [n [names [s [public_ips [Hn [Hm [Fd [Fm [_ [Hmg [Hw [_ [Hb [Hi [Hno Hr]]]]]]]]]]]]]]].
  rewrite Hr. cbn [rp_min_wait_time_start rp_ip with_min_wait_time_start
                   with_public_ip with_ip with_networks].
  split; [exact Hb|]. split; [reflexivity|].
  split; [unfold or_else; destruct (str_truthy (manager_network_ip s)); assumption|].
  split; [exact Hw|].
  split; [|split; [|now split]].
  - intros n' M Hn' Hm' HM. rewrite Hn in Hn'. injection Hn' as <-.
    rewrite Hm in Hm'. injection Hm' as ->.
    cbn [management_network_name] in Hmg. rewrite HM in Hmg. cbn [andb] in Hmg.
    unfold or_else. destruct (str_truthy (manager_network_ip s)) eqn:Et;
      [exact Et|discriminate].
  - destruct (runtime c). reflexivity.
Qed.

Lemma X18_get_state_stores_an_address_of_the_guest_witness :
  exists c',
    get_state (running_client one_nic_server (Some "198.51.100.7")) spec_common
      (ServerProps None None None None) (Some managed_networking) "linux" true None
      polled_ctx = Returns true c'
    /\ str_truthy (rp_ip (runtime c')) = true.
Proof.
  assert (E : exists c1,
             get_server_by_context (running_client one_nic_server (Some "198.51.100.7"))
               (ServerProps None None None None) "linux" polled_ctx
             = Returns (Some one_nic_server) c1)
    by (eexists; vm_compute; reflexivity).
  assert (En : exists c2,
             get_vm_name (ServerProps None None None None) "linux" polled_ctx
             = Returns "web-0042" c2)
    by (eexists; vm_compute; reflexivity).
  assert (H : exists c',
             get_state (running_client one_nic_server (Some "198.51.100.7"))
               spec_common (ServerProps None None None None) (Some managed_networking)
               "linux" true None polled_ctx = Returns true c')
    by (eexists; vm_compute; reflexivity).
  destruct E as [c1 E], En as [c2 En], H as [c' H].
  assert (Hos : "linux" <> "other") by discriminate.
  exists c'. split; [exact H|].
  exact (proj1 (proj2 (proj2 (proj2
    (X18_get_state_stores_an_address_of_the_guest
       (running_client one_nic_server (Some "198.51.100.7")) spec_common
       (ServerProps None None None None) (Some managed_networking) "linux" "web-0042"
       true None one_nic_server polled_ctx c1 c2 true c' E En Hos eq_refl H))))
    eq_refl).
Defined.

(** X19: the public address [get_state] stores for a running server (OS
    family not 'other').  Without guest interfaces [public_ip] is None.
    With guest interfaces the operation returns only if the platform has an
    address for every declared external network, and [public_ip] is the
    address of the first of them (None when none is declared). *)
Theorem X19_get_state_public_ip_is_the_first_external_address
    (client : server_client) (common : plugin_common) (server : server_props)
    (networking : option networking_props) (os_family name : string)
    (wait_ip : bool) (minimum_wait_time : option Z) (server_obj : server_obj)
    (c c1 c2 : ctx) (b : bool) (c' : ctx) :
  get_server_by_context client server os_family c = Returns (Some server_obj) c1 ->
  get_vm_name server os_family c = Returns name c2 ->
  os_family <> "other" ->
  is_server_guest_running client server_obj = true ->
  get_state client common server networking os_family wait_ip minimum_wait_time c
  = Returns b c' ->
  match so_guest_net server_obj with
  | [] => rp_public_ip (runtime c') = None
  | _ :: _ =>
      exists declared_networking external,
        networking = Some declared_networking
        /\ names_flagged "external" (declared declared_networking) = inr external
        /\ Forall (fun network => get_server_ip client server_obj network <> None)
             external
        /\ rp_public_ip (runtime c')
           = hd None (map (get_server_ip client server_obj) external)
  end.
Proof.
  intros E En Hos Hrun H.
  destruct (get_state_running_returns _ _ _ _ _ _ _ _ _ _ _ _ _ _ E En Hos Hrun H)
    as [n [names [s [public_ips [Hn [Hm [Fd [Fm [_ [Hmg [Hw [Hp [Hb [Hi [Hno Hr]]]]]]]]]]]]]]].
  rewrite Hr. cbn [rp_public_ip with_min_wait_time_start with_public_ip].
  destruct (so_guest_net server_obj) as [|nic nics].
  - now rewrite Hp.
  - destruct Hp as [external [Hx [-> Hex]]]. exists n, external.
    split; [exact Hn|]. split; [exact Hx|]. split; [|reflexivity].
    now apply existsb_is_none_false.
Qed.

Lemma X19_get_state_public_ip_is_the_first_external_address_witness :
  exists c',
    get_state (running_client one_nic_server (Some "198.51.100.7")) spec_common
      (ServerProps None None None None) (Some managed_networking) "linux" true None
      polled_ctx = Returns true c'
    /\ exists declared_networking external,
         Some managed_networking = Some declared_networking
         /\ names_flagged "external" (declared declared_networking) = inr external
         /\ Forall (fun network =>
                      get_server_ip (running_client one_nic_server (Some "198.51.100.7"))
                        one_nic_server network <> None) external
         /\ rp_public_ip (runtime c')
            = hd None
                (map (get_server_ip (running_client one_nic_server (Some "198.51.100.7"))
                        one_nic_server) external).
Proof.
  assert (E : exists c1,
             get_server_by_context (running_client one_nic_server (Some "198.51.100.7"))
               (ServerProps None None None None) "linux" polled_ctx
             = Returns (Some one_nic_server) c1)
    by (eexists; vm_compute; reflexivity).
  assert (En : exists c2,
             get_vm_name (ServerProps None None None None) "linux" polled_ctx
             = Returns "web-0042" c2)
    by (eexists; vm_compute; reflexivity).
  assert (H : exists c',
             get_state (running_client one_nic_server (Some "198.51.100.7"))
               spec_common (ServerProps None None None None) (Some managed_networking)
               "linux" true None polled_ctx = Returns true c')
    by (eexists; vm_compute; reflexivity).
  destruct E as [c1 E], En as [c2 En], H as [c' H].
  assert (Hos : "linux" <> "other") by discriminate.
  exists c'. split; [exact H|].
  exact (X19_get_state_public_ip_is_the_first_external_address
           (running_client one_nic_server (Some "198.51.100.7")) spec_common
           (ServerProps None None None None) (Some managed_networking) "linux"
           "web-0042" true None one_nic_server polled_ctx c1 c2 true c' E En Hos
           eq_refl H).
Defined.

(** ** Drift and its repair *)

Lemma existing_networks_returns networks devices c :
  exists existing c1,
    existing_networks networks devices c = Returns existing c1 /\ kept c c1
    /\ rp_spec_update (runtime c1) = rp_spec_update (runtime c)
    /\ rp_network_update (runtime c1) = rp_network_update (runtime c).
Proof.
  unfold existing_networks.
  match goal with |- context [for_each _ ?f _ _] => set (body := f) end.
  generalize (@nil attached) as acc.
  revert c; induction devices as [|device devices IH]; intros c acc.
  - exists acc, c. repeat split.
  - cbn [for_each]. unfold body at 1. destruct device as [key mac|key].
    + destruct (defined_network networks mac) as [network|].
      * rewrite bind_ret. apply IH.
      * rewrite bind_assoc. unfold bind at 1. unfold uuid4 at 1. rewrite bind_ret.
        match goal with
        | |- context [for_each devices ?f ?a ?d] =>
            destruct (IH d a) as [existing [c1 [E [K [Hs Hn]]]]]
        end.
        exists existing, c1. split; [exact E|].
        split; [|split; assumption].
        eapply kept_trans; [|exact K]. repeat split.
    + rewrite bind_ret. apply IH.
Qed.

Lemma runtime_logged c lines : runtime (logged c lines) = runtime c.
Proof. reflexivity. Qed.

Lemma declared_networks_logged c lines :
  declared_networks (logged c lines) = declared_networks c.
Proof. reflexivity. Qed.

Lemma declared_server_logged c lines :
  declared_server (logged c lines) = declared_server c.
Proof. reflexivity. Qed.

(** [check_drift] once the two comparisons of the declared sizes are known. *)
Lemma check_drift_runs client common c id server_obj memory_changed cpus_changed :
  rp_vsphere_server_id (runtime c) = Some id ->
  id <> "" ->
  get_server_by_id client id = Some server_obj ->
  spec_changed (rp_expected_configuration (runtime c)) "memorySizeMB"
    (srv_memory (declared_server c)) = inr memory_changed ->
  (memory_changed = false ->
   spec_changed (rp_expected_configuration (runtime c)) "numCpu"
     (srv_cpus (declared_server c)) = inr cpus_changed) ->
  exists existing c',
    let network_diff :=
      utils_check_drift_networks common existing
        (map name_of (declared_networks c)) in
    let spec_diff := memory_changed || cpus_changed in
    check_drift client common c
    = Returns (if network_diff || spec_diff then true
               else utils_check_drift_configuration common
                      (rp_expected_configuration (runtime c))
                      (current_configuration server_obj)) c'
    /\ kept c c'
    /\ rp_spec_update (runtime c')
       = (if spec_diff then Some true else rp_spec_update (runtime c))
    /\ rp_network_update (runtime c')
       = (if network_diff then Some true else rp_network_update (runtime c)).
Proof.
  intros Hid Hne Hsrv Hm Hc. apply String.eqb_neq in Hne.
  unfold check_drift. step. rewrite Hid, Hne, Hsrv. step. step. step. cbv zeta.
  match goal with
  | |- context [bind (existing_networks ?n ?d) _ ?c0] =>
      destruct (existing_networks_returns n d c0) as [existing [c1 [E [K [Hs Hn]]]]];
      rewrite (bind_returns _ _ _ _ _ E)
  end.
  exists existing.
  rewrite !runtime_logged, !declared_networks_logged, !declared_server_logged.
  rewrite Hm.
  assert (Hk : forall f, (forall r, rp_vsphere_server_id (f r) = rp_vsphere_server_id r)
                 -> (forall r, rp_networks (f r) = rp_networks r)
                 -> (forall r, rp_expected_configuration (f r)
                               = rp_expected_configuration r)
                 -> forall d, kept c d -> kept c (stored f d)).
  { intros f H1 H2 H3 d [Kn [Kr [Ki [Kw Ke]]]]. unfold kept, stored.
    cbn [node nics_from_rels runtime].
    rewrite H1, H2, H3. repeat split; assumption. }
  destruct (utils_check_drift_networks common existing
              (map name_of (declared_networks c))) eqn:Hnd;
    cbv beta iota zeta; step; step;
    (destruct memory_changed; cbv beta iota;
     [ step | rewrite (Hc eq_refl); step; destruct cpus_changed; cbv beta iota ]);
    repeat step; unfold ret; cbn [orb];
    (eexists; split; [reflexivity|]);
    (split; [repeat apply Hk; try (intros r; reflexivity); exact K|]);
    cbn [runtime stored rp_spec_update rp_network_update with_spec_update
         with_network_update];
    split; first [reflexivity | assumption].
Qed.

Lemma spec_changed_number ec key stored declared :
  lookup (ec_summary ec) key = Some (JVal (PInt stored)) ->
  exists changed,
    spec_changed (Some ec) key declared = inr changed
    /\ (changed = true <-> declares_other declared stored).
Proof.
  intros H. unfold spec_changed, differs_from_expected, getitem. rewrite H.
  destruct declared as [value|]; cbn [int_truthy].
  - destruct (value =? 0) eqn:E0; cbn [negb].
    + exists false. split; [reflexivity|]. split; [discriminate|].
      intros [v [Hv [Hz _]]]. injection Hv as <-. apply Z.eqb_eq in E0. contradiction.
    + cbn [py_eqb]. exists (negb (value =? stored)). split; [reflexivity|].
      apply Z.eqb_neq in E0. split.
      * intros Hn. exists value. repeat split; [exact E0|].
        destruct (Z.eqb_spec value stored); [discriminate|assumption].
      * intros [v [Hv [_ Hs]]]. injection Hv as <-.
        now destruct (Z.eqb_spec value stored).
  - exists false. split; [reflexivity|]. split; [discriminate|].
    intros [v [Hv _]]. discriminate.
Qed.

(** X20: [check_drift] on a server that is found, with both sizes in the
    expected summary as numbers: it returns, and it leaves the node, the
    persisted id, the networks and the expected configuration as they were.
    If the node declares a memory or a CPU count (not zero) other than the
    expected one, the result is True and [spec_update] is set; if it declares
    neither, [spec_update] keeps its value. *)
Theorem X20_check_drift_flags_a_declared_size_that_differs
    (client : server_client) (common : plugin_common) (c : ctx) (id : string)
    (server_obj : server_obj) (memory cpus : Z) :
  rp_vsphere_server_id (runtime c) = Some id ->
  id <> "" ->
  get_server_by_id client id = Some server_obj ->
  expected_summary c "memorySizeMB" = Some (JVal (PInt memory)) ->
  expected_summary c "numCpu" = Some (JVal (PInt cpus)) ->
  exists b c',
    check_drift client common c = Returns b c'
    /\ kept c c'
    /\ (declares_other (srv_memory (declared_server c)) memory
        \/ declares_other (srv_cpus (declared_server c)) cpus ->
        b = true /\ rp_spec_update (runtime c') = Some true)
    /\ (~ (declares_other (srv_memory (declared_server c)) memory
           \/ declares_other (srv_cpus (declared_server c)) cpus) ->
        rp_spec_update (runtime c') = rp_spec_update (runtime c)).
Proof.
  intros Hid Hne Hsrv Hm Hc. unfold expected_summary in Hm, Hc.
  destruct (rp_expected_configuration (runtime c)) as [ec|] eqn:Hec; [|discriminate].
  destruct (spec_changed_number ec _ _ (srv_memory (declared_server c)) Hm)
    as [bm [Em Im]].
  destruct (spec_changed_number ec _ _ (srv_cpus (declared_server c)) Hc)
    as [bc [Ec Ic]].
  destruct (check_drift_runs client common c id server_obj bm bc Hid Hne Hsrv)
    as [existing [c' [E [K [Hs _]]]]]; [now rewrite Hec|now rewrite Hec|].
  cbv zeta in E. eexists; exists c'. split; [exact E|]. split; [exact K|]. split.
  - intros Hd. assert (Hb : bm || bc = true).
    { destruct Hd as [Hd|Hd]; [apply Im in Hd|apply Ic in Hd]; subst;
        [reflexivity|apply Bool.orb_true_r]. }
    rewrite Hs, Hb, Bool.orb_true_r. now split.
  - intros Hd. assert (Hb : bm || bc = false).
    { destruct bm; [exfalso; apply Hd; left; now apply Im|].
      destruct bc; [exfalso; apply Hd; right; now apply Ic|reflexivity]. }
    now rewrite Hs, Hb.
Qed.

Lemma X20_check_drift_flags_a_declared_size_that_differs_witness :
  exists b c',
    check_drift present_client spec_common
      undersized_ctx
    = Returns b c'
    /\ b = true /\ rp_spec_update (runtime c') = Some true.
Proof.
  assert (Hne : "vm-42" <> "") by discriminate.
  destruct (X20_check_drift_flags_a_declared_size_that_differs present_client
              spec_common
              undersized_ctx
              "vm-42" sample_server 2048 2 eq_refl Hne eq_refl eq_refl eq_refl)
    as [b [c' [E [_ [H _]]]]].
  exists b, c'. split; [exact E|]. apply H. right.
  exists 4. repeat split; discriminate.
Defined.

Lemma spec_changed_settled ec key declared :
  lookup (ec_summary ec) key = Some (JVal (int_val declared)) ->
  spec_changed (Some ec) key declared = inr false.
Proof.
  intros H. unfold spec_changed, differs_from_expected, getitem. rewrite H.
  destruct declared as [value|]; cbn [int_truthy]; [|reflexivity].
  destruct (value =? 0); cbn [negb int_val py_eqb]; [reflexivity|].
  now rewrite Z.eqb_refl.
Qed.

Lemma bind_call_none {B} r (k : unit -> M B) c :
  r = None -> bind (call r) k c = k tt c.
Proof. intros ->; reflexivity. Qed.

(** X21: [update] after a size drift.  With [spec_update] flagged (and
    [network_update] not), the server found and the platform accepting the
    new sizes, [update] returns without device changes; both flags are gone,
    [cpus] and [memory] hold the declared values and so do the two fields of
    the expected summary, so that a [check_drift] that follows returns
    without flagging [spec_update] again. *)
Theorem X21_update_settles_a_size_drift
    (client : server_client) (common : plugin_common) (c : ctx) (id : string)
    (server_obj : server_obj) :
  rp_vsphere_server_id (runtime c) = Some id ->
  id <> "" ->
  get_server_by_id client id = Some server_obj ->
  flag (rp_spec_update (runtime c)) = true ->
  flag (rp_network_update (runtime c)) = false ->
  rp_expected_configuration (runtime c) <> None ->
  client_resize_server client server_obj (srv_cpus (declared_server c))
    (srv_memory (declared_server c)) (Some 300) = None ->
  exists c',
    update client c = Returns [] c'
    /\ rp_spec_update (runtime c') = None
    /\ rp_network_update (runtime c') = None
    /\ rp_cpus (runtime c') = srv_cpus (declared_server c)
    /\ rp_memory (runtime c') = srv_memory (declared_server c)
    /\ expected_summary c' "memorySizeMB"
       = Some (JVal (int_val (srv_memory (declared_server c))))
    /\ expected_summary c' "numCpu"
       = Some (JVal (int_val (srv_cpus (declared_server c))))
    /\ exists b c'',
         check_drift client common c' = Returns b c''
         /\ rp_spec_update (runtime c'') = None.
Proof.
  intros Hid Hne Hsrv Hspec Hnet Hec Hresize.
  destruct (rp_expected_configuration (runtime c)) as [ec|] eqn:Eec; [|contradiction].
  clear Hec.
  assert (Hupd : exists c',
             update client c = Returns [] c'
             /\ node c' = node c
             /\ runtime c'
                = with_expected_configuration
                    (Some (ExpectedConfiguration (ec_network ec)
                             (setitem
                                (setitem (ec_summary ec) "memorySizeMB"
                                   (JVal (int_val (srv_memory (declared_server c)))))
                                "numCpu"
                                (JVal (int_val (srv_cpus (declared_server c)))))))
                    (with_memory (srv_memory (declared_server c))
                       (with_cpus (srv_cpus (declared_server c))
                          (with_network_update None
                             (with_spec_update None (runtime c)))))).
  { unfold update. step. cbv zeta. step. step. rewrite Hspec, Hnet. cbv beta iota.
    unfold server_by_persisted_id. repeat step.
    cbn [runtime stored rp_vsphere_server_id with_network_update with_spec_update].
    rewrite Hid, Hsrv. repeat step.
    change (declared_server (stored (with_network_update None)
                               (stored (with_spec_update None) c)))
      with (declared_server c).
    rewrite (bind_call_none _ _ _ Hresize).
    unfold set_expected_summary. repeat step.
    cbn [runtime stored rp_expected_configuration with_network_update with_spec_update
         with_cpus with_memory].
    rewrite Eec. repeat step.
    cbn [runtime stored rp_expected_configuration with_network_update with_spec_update
         with_cpus with_memory with_expected_configuration].
    repeat step. unfold ret.
    eexists. split; [reflexivity|]. split; [reflexivity|].
    cbn [runtime stored ec_network ec_summary]. destruct (runtime c). reflexivity. }
  destruct Hupd as [c' [E [Hnode Hr]]].
  assert (Hm : expected_summary c' "memorySizeMB"
               = Some (JVal (int_val (srv_memory (declared_server c))))).
  { unfold expected_summary. rewrite Hr.
    cbn [rp_expected_configuration with_expected_configuration ec_summary].
    rewrite lookup_setitem_other by discriminate. apply lookup_setitem_same. }
  assert (Hc : expected_summary c' "numCpu"
               = Some (JVal (int_val (srv_cpus (declared_server c))))).
  { unfold expected_summary. rewrite Hr.
    cbn [rp_expected_configuration with_expected_configuration ec_summary].
    apply lookup_setitem_same. }
  exists c'. split; [exact E|]. rewrite Hr at 1 2 3 4.
  cbn [rp_spec_update rp_network_update rp_cpus rp_memory with_expected_configuration
       with_memory with_cpus with_network_update with_spec_update].
  repeat (split; [reflexivity|]). split; [exact Hm|]. split; [exact Hc|].
  assert (Hd : declared_server c' = declared_server c)
    by (unfold declared_server; now rewrite Hnode).
  unfold expected_summary in Hm, Hc.
  destruct (rp_expected_configuration (runtime c')) as [ec'|] eqn:Eec';
    [|discriminate].
  destruct (check_drift_runs client common c' id server_obj false false)
    as [existing [c'' [E' [_ [Hs _]]]]].
  - rewrite Hr. cbn. exact Hid.
  - exact Hne.
  - exact Hsrv.
  - rewrite Eec', Hd. now apply spec_changed_settled.
  - intros _. rewrite Eec', Hd. now apply spec_changed_settled.
  - eexists; exists c''. split; [exact E'|]. rewrite Hs. cbn [orb].
    rewrite Hr. reflexivity.
Qed.

Lemma X21_update_settles_a_size_drift_witness :
  exists c',
    update present_client flagged_size_ctx = Returns [] c'
    /\ rp_spec_update (runtime c') = None
    /\ rp_cpus (runtime c') = Some 4
    /\ expected_summary c' "numCpu" = Some (JVal (PInt 4)).
Proof.
  assert (Hne : "vm-42" <> "") by discriminate.
  assert (Hec : rp_expected_configuration (runtime flagged_size_ctx) <> None)
    by discriminate.
  destruct (X21_update_settles_a_size_drift present_client spec_common
              flagged_size_ctx "vm-42" sample_server eq_refl Hne eq_refl eq_refl
              eq_refl Hec eq_refl)
    as [c' [E [Hs [_ [Hc [_ [_ [Hn _]]]]]]]].
  exists c'. repeat split; assumption.
Defined.

(** X22: [poststart] and then [check_drift].  For a server that is found
    and whose summary has both sizes as numbers, [poststart] stores the
    server's own network and summary as the expected configuration and
    nothing else.  If the node declares no other size and the drift helper
    finds no difference between a configuration and itself, the
    [check_drift] that follows answers with the network comparison alone and
    leaves [spec_update] as it was. *)
Theorem X22_poststart_snapshot_shows_no_drift_of_its_own
    (client : server_client) (common : plugin_common) (server : server_props)
    (os_family : string) (c : ctx) (id : string) (server_obj : server_obj)
    (memory cpus : Z) :
  rp_vsphere_server_id (runtime c) = Some id ->
  id <> "" ->
  get_server_by_id client id = Some server_obj ->
  lookup (so_summary_config server_obj) "memorySizeMB" = Some (JVal (PInt memory)) ->
  lookup (so_summary_config server_obj) "numCpu" = Some (JVal (PInt cpus)) ->
  ~ declares_other (srv_memory (declared_server c)) memory ->
  ~ declares_other (srv_cpus (declared_server c)) cpus ->
  (forall ec, utils_check_drift_configuration common (Some ec) ec = false) ->
  exists c1,
    poststart client server os_family c = Returns tt c1
    /\ runtime c1
       = with_expected_configuration (Some (current_configuration server_obj))
           (runtime c)
    /\ exists existing c2,
         check_drift client common c1
         = Returns (utils_check_drift_networks common existing
                      (map name_of (declared_networks c))) c2
         /\ rp_spec_update (runtime c2) = rp_spec_update (runtime c).
Proof.
  intros Hid Hne Hsrv Hm Hc Dm Dc Hquiet.
  assert (Hpost : exists c1,
             poststart client server os_family c = Returns tt c1
             /\ node c1 = node c
             /\ runtime c1
                = with_expected_configuration (Some (current_configuration server_obj))
                    (runtime c)).
  { unfold poststart, get_server_by_context. repeat step.
    rewrite runtime_logged, Hid. step. rewrite Hsrv. repeat step.
    eexists. split; [reflexivity|]. split; reflexivity. }
  destruct Hpost as [c1 [E [Hnode Hr]]].
  exists c1. split; [exact E|]. split; [exact Hr|].
  assert (Hd : declared_server c1 = declared_server c)
    by (unfold declared_server; now rewrite Hnode).
  assert (Hn : declared_networks c1 = declared_networks c)
    by (unfold declared_networks; now rewrite Hnode).
  assert (Hec : rp_expected_configuration (runtime c1)
                = Some (current_configuration server_obj))
    by now rewrite Hr.
  destruct (spec_changed_number (current_configuration server_obj) _ _
              (srv_memory (declared_server c)) Hm) as [bm [Em Im]].
  destruct (spec_changed_number (current_configuration server_obj) _ _
              (srv_cpus (declared_server c)) Hc) as [bc [Ec Ic]].
  destruct bm; [exfalso; now apply Dm, Im|].
  destruct bc; [exfalso; now apply Dc, Ic|].
  destruct (check_drift_runs client common c1 id server_obj false false)
    as [existing [c2 [E2 [_ [Hs _]]]]].
  - rewrite Hr. exact Hid.
  - exact Hne.
  - exact Hsrv.
  - now rewrite Hec, Hd.
  - intros _. now rewrite Hec, Hd.
  - cbv zeta in E2. rewrite Hec, Hquiet, Hn in E2. cbn [orb] in E2, Hs.
    exists existing, c2. split.
    + rewrite E2. f_equal.
      now destruct (utils_check_drift_networks common existing
                      (map name_of (declared_networks c))).
    + rewrite Hs, Hr. reflexivity.
Qed.

Lemma X22_poststart_snapshot_shows_no_drift_of_its_own_witness :
  exists c1,
    poststart present_client (ServerProps None None None None) "linux" created_ctx
    = Returns tt c1
    /\ runtime c1
       = with_expected_configuration (Some (current_configuration sample_server))
           (runtime created_ctx).
Proof.
  assert (Hne : "vm-42" <> "") by discriminate.
  assert (Dm : ~ declares_other (srv_memory (declared_server created_ctx)) 2048)
    by (intros [v [Hv _]]; discriminate).
  assert (Dc : ~ declares_other (srv_cpus (declared_server created_ctx)) 2)
    by (intros [v [Hv _]]; discriminate).
  assert (Hq : forall ec,
             utils_check_drift_configuration quiet_common (Some ec) ec = false)
    by reflexivity.
  destruct (X22_poststart_snapshot_shows_no_drift_of_its_own present_client
              quiet_common
              (ServerProps None None None None) "linux" created_ctx "vm-42"
              sample_server 2048 2 eq_refl Hne eq_refl eq_refl eq_refl Dm Dc Hq)
    as [c1 [E [Hr _]]].
  exists c1. split; assumption.
Defined.

(** ** The device changes of [update] *)

Lemma py_eqb_sym a b : py_eqb a b = py_eqb b a.
Proof.
  destruct a as [|p|x|x], b as [|q|y|y]; cbn [py_eqb]; try reflexivity.
  - now destruct p, q.
  - apply Z.eqb_sym.
  - apply Z.eqb_sym.
  - apply Z.eqb_sym.
  - apply String.eqb_sym.
Qed.

Lemma py_eqb_trans a b c :
  py_eqb a b = true -> py_eqb b c = true -> py_eqb a c = true.
Proof.
  destruct a as [|p|x|x], b as [|q|y|y], c as [|r|z|z]; cbn [py_eqb];
    try discriminate; try reflexivity;
    rewrite ?Z.eqb_eq, ?String.eqb_eq, ?Bool.eqb_true_iff; intros; subst;
    try reflexivity.
  all: try (destruct p, r; cbn in *; try reflexivity; lia).
  all: try (destruct p, q; cbn in *; try reflexivity; lia).
  all: try (destruct q, r; cbn in *; try reflexivity; lia).
Qed.

Lemma member_compat x y l : py_eqb x y = true -> member x l = member y l.
Proof.
  intros H. unfold member. induction l as [|z l IH]; [reflexivity|].
  cbn [existsb]. rewrite IH. f_equal.
  destruct (py_eqb y z) eqn:E.
  - now apply py_eqb_trans with y.
  - destruct (py_eqb x z) eqn:E'; [|reflexivity].
    rewrite py_eqb_sym in H. now rewrite (py_eqb_trans _ _ _ H E') in E.
Qed.

Lemma member_filter x f l :
  (forall a b, py_eqb a b = true -> f a = f b) ->
  member x (filter f l) = true -> f x = true /\ member x l = true.
Proof.
  intros Hf. unfold member. induction l as [|y l IH]; cbn [filter existsb];
    [discriminate|].
  destruct (f y) eqn:Ey; cbn [existsb].
  - destruct (py_eqb x y) eqn:E; cbn [orb].
    + intros _. split; [now rewrite (Hf _ _ E)|reflexivity].
    + intros H. destruct (IH H) as [H1 H2]. now rewrite H2.
  - intros H. destruct (IH H) as [H1 H2]. split; [exact H1|].
    rewrite H2. apply Bool.orb_true_r.
Qed.

Lemma in_nics_for_remove networks to_remove devices d :
  In d (nics_for_remove networks to_remove devices) ->
  In d devices
  /\ exists key mac,
       d = VirtualEthernetCard key mac
       /\ match defined_network networks mac with
          | Some network => member (name_of network) to_remove = true
          | None => True
          end.
Proof.
  induction devices as [|device devices IH]; cbn [nics_for_remove]; [intros []|].
  assert (Hrest : In d (nics_for_remove networks to_remove devices) ->
                  In d (device :: devices)
                  /\ exists key mac,
                       d = VirtualEthernetCard key mac
                       /\ match defined_network networks mac with
                          | Some network => member (name_of network) to_remove = true
                          | None => True
                          end).
  { intros H. destruct (IH H) as [H1 H2]. split; [now right|exact H2]. }
  destruct device as [key mac|key]; [|exact Hrest].
  destruct (defined_network networks mac) as [network|] eqn:Hdef.
  - destruct (member (name_of network) to_remove) eqn:Hmem; [|exact Hrest].
    intros [<-|H]; [|now apply Hrest].
    split; [now left|]. exists key, mac. split; [reflexivity|]. now rewrite Hdef.
  - intros [<-|H]; [|now apply Hrest].
    split; [now left|]. exists key, mac. split; [reflexivity|]. now rewrite Hdef.
Qed.

Lemma counted_from_next start n :
  counted_from start (S n) = start :: counted_from (start + 1) n.
Proof.
  unfold counted_from. cbn [seq map]. f_equal; [lia|].
  rewrite <- seq_shift, map_map. apply map_ext. intros i. lia.
Qed.

Lemma add_loop client to_add all new_networks device_changes netcnt c s' c' :
  incl new_networks all ->
  for_each new_networks
    (fun network (s : list device_spec * Z) =>
       let (device_changes, netcnt) := s in
       if member (name_of network) to_add then
         name <- lift (_get_connected_network_name client network) ;;
         let network := setitem network "name" name in
         call (_add_network client network netcnt) ;;
         ret ((device_changes ++ [add network netcnt])%list, netcnt + 1)
       else ret s)
    (device_changes, netcnt) c
  = Returns s' c' ->
  exists adds,
    fst s' = (device_changes ++ map added adds)%list
    /\ map snd adds = counted_from netcnt (length adds)
    /\ Forall (fun p =>
                 exists declared name,
                   In declared all
                   /\ member (name_of declared) to_add = true
                   /\ _get_connected_network_name client declared = inr name
                   /\ fst p = setitem declared "name" name) adds.
Proof.
  revert device_changes netcnt c.
  induction new_networks as [|network new_networks IH];
    intros device_changes netcnt c Hincl H.
  - injection H as <- _. exists []. cbn. now rewrite app_nil_r.
  - cbn [for_each] in H.
    destruct (member (name_of network) to_add) eqn:Hmem.
    + rewrite bind_assoc in H.
      destruct (_get_connected_network_name client network) as [e|name] eqn:Ename;
        [discriminate|].
      rewrite bind_lift in H. cbv beta zeta in H. rewrite bind_assoc in H.
      destruct (_add_network client (setitem network "name" name) netcnt) eqn:Eadd;
        [discriminate|].
      rewrite (bind_call_none _ _ _ eq_refl), bind_ret in H.
      destruct (IH _ _ _ (fun x Hx => Hincl x (or_intror Hx)) H)
        as [adds [Hf [Hn Ha]]].
      exists ((setitem network "name" name, netcnt) :: adds).
      split; [|split].
      * rewrite Hf, <- app_assoc. reflexivity.
      * cbn [map snd length]. rewrite counted_from_next. now f_equal.
      * constructor; [|exact Ha]. exists network, name.
        repeat split; try assumption. apply Hincl. now left.
    + rewrite bind_ret in H.
      exact (IH device_changes netcnt c (fun x Hx => Hincl x (or_intror Hx)) H).
Qed.

Lemma handle_networks_again p c c0 new_networks ch :
  handle_networks p c = Returns new_networks ch ->
  nics_from_rels c0 = nics_from_rels c ->
  exists ch0, handle_networks p c0 = Returns new_networks ch0.
Proof.
  intros H Hrels. pose proof (handle_networks_oblivious p c c0 (eq_sym Hrels)) as R.
  rewrite H in R. destruct (handle_networks p c0) as [r ch0|e]; [|contradiction].
  cbn in R. subst r. now exists ch0.
Qed.

(** X23: what [update] hands to the platform for a flagged network drift.
    The device changes are removals followed by additions.  Every removed
    device is an Ethernet card of the server that no persisted network
    defines, or whose persisted network is not among the networks now
    declared: a card on a network that is still declared is never removed.
    Every addition is for a declared network that no card of the server is
    on, under the name the client resolves for it, and the new cards are
    numbered consecutively from the number of cards that remain. *)
Theorem X23_update_detaches_and_attaches_what_the_declaration_changed
    (client : server_client) (c : ctx) (id : string) (server_obj : server_obj)
    (new_networks : list dict) (ch : ctx) (device_changes : list device_spec)
    (c' : ctx) :
  rp_vsphere_server_id (runtime c) = Some id ->
  get_server_by_id client id = Some server_obj ->
  flag (rp_spec_update (runtime c)) = false ->
  flag (rp_network_update (runtime c)) = true ->
  handle_networks (declared_networking c) c = Returns new_networks ch ->
  update client c = Returns device_changes c' ->
  exists removed adds,
    device_changes = (map remove removed ++ map added adds)%list
    /\ (forall device,
        In device removed ->
        In device (so_device server_obj)
        /\ exists key mac,
             device = VirtualEthernetCard key mac
             /\ match defined_network (persisted_networks c) mac with
                | Some network =>
                    member (name_of network) (map name_of new_networks) = false
                | None => True
                end)
    /\ Forall (fun p =>
                 exists declared name,
                   In declared new_networks
                   /\ member (name_of declared)
                        (real_networks (persisted_networks c) (so_device server_obj))
                      = false
                   /\ _get_connected_network_name client declared = inr name
                   /\ fst p = setitem declared "name" name) adds
    /\ map snd adds
       = counted_from
           (Z.of_nat (length (filter is_ethernet (so_device server_obj)))
            - Z.of_nat (length removed))
           (length adds).
Proof.
  intros Hid Hsrv Hspec Hnet Hh.
  unfold update. step. cbv zeta. step. step. rewrite Hspec, Hnet. cbv beta iota.
  step. unfold server_by_persisted_id. repeat step.
  cbn [runtime stored rp_vsphere_server_id with_network_update with_spec_update].
  rewrite Hid, Hsrv. repeat step.
  cbn [runtime node stored rp_networks with_network_update with_spec_update].
  fold (persisted_networks c). fold (declared_networking c).
  destruct (handle_networks_again _ c
              (stored (with_network_update None) (stored (with_spec_update None) c))
              _ _ Hh eq_refl) as [ch0 Eh].
  rewrite (bind_returns _ _ _ _ _ Eh).
  match goal with
  | |- context [bind (for_each ?l ?f ?s) _ ?d] =>
      destruct (for_each l f s d) as [changes d'|e] eqn:Eloop;
      [ rewrite (bind_returns _ _ _ _ _ Eloop)
      | rewrite (bind_raises _ _ _ _ Eloop); discriminate ]
  end.
  apply (add_loop client _ new_networks) in Eloop; [|apply incl_refl].
  destruct Eloop as [adds [Hf [Hn Ha]]].
  intros H.
  assert (Hdc : device_changes = fst changes).
  { destruct (fst changes) as [|x l]; cbv beta iota in H.
    - rewrite bind_ret in H. now injection H as <- _.
    - destruct (ReconfigVM_Task client server_obj (x :: l)) eqn:Er.
      + discriminate H.
      + rewrite (bind_call_none _ _ _ eq_refl) in H. now injection H as <- _. }
  clear H. subst device_changes.
  eexists; exists adds. split; [exact Hf|]. split; [|split; [|exact Hn]].
  - intros device Hin. apply in_nics_for_remove in Hin.
    destruct Hin as [Hdev [key [mac [-> Hdef]]]].
    split; [exact Hdev|]. exists key, mac. split; [reflexivity|].
    destruct (defined_network (persisted_networks c) mac) as [network|]; [|exact I].
    apply member_filter in Hdef.
    + destruct Hdef as [Hdef _]. now destruct (member (name_of network) _).
    + intros a b Hab. now rewrite (member_compat _ _ _ Hab).
  - eapply Forall_impl; [|exact Ha]. cbv beta.
    intros p [declared [name [Hin [Hmem [Hname Hp]]]]].
    exists declared, name. split; [exact Hin|]. split; [|now split].
    apply member_filter in Hmem.
    + destruct Hmem as [Hmem _]. now destruct (member (name_of declared) _).
    + intros a b Hab. now rewrite (member_compat _ _ _ Hab).
Qed.

Lemma X23_update_detaches_and_attaches_what_the_declaration_changed_witness :
  exists device_changes c' removed adds,
    update (running_client foreign_nic_server None) flagged_network_ctx
    = Returns device_changes c'
    /\ device_changes = (map remove removed ++ map added adds)%list
    /\ map snd adds
       = counted_from
           (Z.of_nat (length (filter is_ethernet (so_device foreign_nic_server)))
            - Z.of_nat (length removed))
           (length adds).
Proof.
  assert (Hh : exists new_networks ch,
             handle_networks (declared_networking flagged_network_ctx)
               flagged_network_ctx = Returns new_networks ch)
    by (eexists; eexists; vm_compute; reflexivity).
  assert (Hu : exists device_changes c',
             update (running_client foreign_nic_server None) flagged_network_ctx
             = Returns device_changes c')
    by (eexists; eexists; vm_compute; reflexivity).
  destruct Hh as [new_networks [ch Hh]], Hu as [device_changes [c' Hu]].
  destruct (X23_update_detaches_and_attaches_what_the_declaration_changed
              (running_client foreign_nic_server None) flagged_network_ctx "vm-42"
              foreign_nic_server new_networks ch device_changes c'
              eq_refl eq_refl eq_refl eq_refl Hh Hu)
    as [removed [adds [Hdc [_ [_ Hn]]]]].
  exists device_changes, c', removed, adds. repeat split; assumption.
Defined.

(** ** The first plugin: polling *)

Lemma lower_char_lower c : lower_char (lower_char c) = lower_char c.
Proof.
  unfold lower_char, between. cbv zeta.
  destruct ((65 <=? nat_of_ascii c)%nat && (nat_of_ascii c <=? 90)%nat) eqn:E.
  - apply andb_prop in E. destruct E as [E1 E2].
    apply Nat.leb_le in E1. apply Nat.leb_le in E2.
    rewrite nat_ascii_embedding by lia.
    replace ((nat_of_ascii c + 32 <=? 90)%nat) with false
      by (symmetry; apply Nat.leb_gt; lia).
    now rewrite Bool.andb_false_r.
  - now rewrite E.
Qed.

Lemma lower_lower s : lower (lower s) = lower s.
Proof.
  induction s as [|c s IH]; cbn [lower]; [reflexivity|].
  now rewrite lower_char_lower, IH.
Qed.

Lemma capital_never_matches m name :
  lower m <> m -> matches_management (PStr m) name = false.
Proof.
  intros H. unfold matches_management. cbn [py_eqb].
  destruct (String.eqb_spec (lower name) m) as [E|E];
    [|apply Bool.andb_false_r].
  exfalso. apply H. rewrite <- E. apply lower_lower.
Qed.

Lemma note_guest_nics_returns management nics manager_network_ip ips
    manager_network_ip' ips' :
  Legacy.note_guest_nics management nics (manager_network_ip, ips)
  = inr (manager_network_ip', ips') ->
  Forall complete_nic nics
  /\ (manager_network_ip' = manager_network_ip
      \/ exists name address,
           first_address_on nics name address
           /\ matches_management management name = true
           /\ manager_network_ip' = Some address)
  /\ (forall name,
        lookup ips' name = lookup ips name
        \/ exists address,
             first_address_on nics name address /\ lookup ips' name = Some address)
  /\ (forall nic name,
        In nic nics -> nic_network nic = Some name ->
        exists address,
          first_address_on nics name address /\ lookup ips' name = Some address).
Proof.
  revert manager_network_ip ips.
  induction nics as [|nic nics IH]; intros mip ips H.
  - cbn in H. injection H as <- <-.
    split; [constructor|]. split; [now left|]. split; [now left|]. intros ? ? [].
  - cbn [Legacy.note_guest_nics] in H.
    destruct (Legacy.note_guest_nic management nic (mip, ips)) as [e|[mip1 ips1]]
      eqn:E1; [discriminate|].
    unfold Legacy.note_guest_nic in E1.
    destruct (nic_network nic) as [name0|] eqn:En; [|discriminate].
    unfold Legacy.first_address in E1.
    destruct (nic_ipAddress nic) as [|address0 more] eqn:Ea.
    { destruct (truthy management && py_eqb (PStr (lower name0)) management);
        discriminate. }
    assert (Hhere : first_address_on (nic :: nics) name0 address0).
    { exists nic. split; [now left|]. split; [exact En|]. now rewrite Ea. }
    assert (Hup : forall name address,
               first_address_on nics name address ->
               first_address_on (nic :: nics) name address).
    { intros name address [nic' [Hin H']]. exists nic'. split; [now right|exact H']. }
    assert (Hips : ips1 = setitem ips name0 address0
                   /\ (mip1 = mip
                       \/ matches_management management name0 = true
                          /\ mip1 = Some address0)).
    { fold (matches_management management name0) in E1.
      destruct (matches_management management name0); injection E1 as <- <-.
      - split; [reflexivity|]. right. now split.
      - split; [reflexivity|]. now left. }
    destruct Hips as [-> Hmip].
    destruct (IH _ _ H) as [Hall [Hm [Hl Hk]]].
    split; [|split; [|split]].
    + constructor; [|exact Hall]. split; [now rewrite En|now rewrite Ea].
    + destruct Hm as [->|[name [address [Hf [Hmatch ->]]]]].
      * destruct Hmip as [->|[Hmatch ->]]; [now left|].
        right. exists name0, address0. now repeat split.
      * right. exists name, address. split; [now apply Hup|]. now split.
    + intros name. destruct (Hl name) as [Hsame|[address [Hf Hs]]].
      * destruct (string_dec name0 name) as [<-|Hne].
        -- right. exists address0. split; [exact Hhere|].
           rewrite Hsame. apply lookup_setitem_same.
        -- left. rewrite Hsame. now apply lookup_setitem_other.
      * right. exists address. split; [now apply Hup|exact Hs].
    + intros nic' name [<-|Hin] Hname.
      * rewrite En in Hname. injection Hname as <-.
        destruct (Hl name0) as [Hsame|[address [Hf Hs]]].
        -- exists address0. split; [exact Hhere|].
           rewrite Hsame. apply lookup_setitem_same.
        -- exists address. split; [now apply Hup|exact Hs].
      * destruct (Hk nic' name Hin Hname) as [address [Hf Hs]].
        exists address. split; [now apply Hup|exact Hs].
Qed.

Lemma legacy_get_state_true client s s' :
  Legacy.get_state client s = inr (true, s') ->
  exists server connected management rest manager_network_ip ips,
    Legacy.get_server_by_context client s = Some server
    /\ Legacy.connected_networks s = Some connected
    /\ names_flagged "management" connected = inr (management :: rest)
    /\ Legacy.note_guest_nics management (so_guest_net server) (None, [])
       = inr (manager_network_ip, ips)
    /\ s' = Legacy.State (Legacy.node_id s) (Legacy.connected_networks s)
              (Legacy.vsphere_server_id s) (Legacy.cpus s) (Legacy.memory s)
              (Some ips) (Some manager_network_ip) (Legacy.logger s).
Proof.
  unfold Legacy.get_state. cbv zeta.
  destruct (Legacy.is_server_guest_running client
              (Legacy.get_server_by_context client s)) as [e|[|]];
    [discriminate| |intros H; discriminate].
  destruct (Legacy.connected_networks s) as [connected|]; [|discriminate].
  destruct (names_flagged "management" connected) as [e|[|management rest]] eqn:En;
    [discriminate|discriminate|].
  destruct (Legacy.get_server_by_context client s) as [server|]; [|discriminate].
  destruct (Legacy.note_guest_nics management (so_guest_net server) (None, []))
    as [e|[mip ips]] eqn:El; [discriminate|].
  intros H. injection H as <-.
  exists server, connected, management, rest, mip, ips. repeat split; assumption.
Qed.

(** X24: the first plugin's [get_state] returns True only for a server that
    is found and whose guest interfaces all have a network name and at least
    one address.  Then [networks] maps the name of every guest interface to
    the first address of an interface of that name, [ip] is None or the first
    address of an interface whose name, in lower case, equals the name of the
    first management network, and nothing else has changed. *)
Theorem X24_first_plugin_get_state_stores_first_addresses
    (client : Legacy.client) (s s' : Legacy.state) :
  Legacy.get_state client s = inr (true, s') ->
  exists server connected management rest ips,
    Legacy.get_server_by_context client s = Some server
    /\ Legacy.connected_networks s = Some connected
    /\ names_flagged "management" connected = inr (management :: rest)
    /\ Forall complete_nic (so_guest_net server)
    /\ Legacy.networks s' = Some ips
    /\ (forall nic name,
          In nic (so_guest_net server) -> nic_network nic = Some name ->
          exists address,
            first_address_on (so_guest_net server) name address
            /\ lookup ips name = Some address)
    /\ (Legacy.ip s' = Some None
        \/ exists name address,
             first_address_on (so_guest_net server) name address
             /\ matches_management management name = true
             /\ Legacy.ip s' = Some (Some address))
    /\ Legacy.node_id s' = Legacy.node_id s
    /\ Legacy.connected_networks s' = Legacy.connected_networks s
    /\ Legacy.vsphere_server_id s' = Legacy.vsphere_server_id s
    /\ Legacy.cpus s' = Legacy.cpus s
    /\ Legacy.memory s' = Legacy.memory s
    /\ Legacy.logger s' = Legacy.logger s.
Proof.
  intros H.
  destruct (legacy_get_state_true client s s' H)
    as [server [connected [management [rest [mip [ips [Hs [Hc [Hn [Hl ->]]]]]]]]]].
  destruct (note_guest_nics_returns _ _ _ _ _ _ Hl) as [Hall [Hm [_ Hk]]].
  exists server, connected, management, rest, ips.
  split; [exact Hs|]. split; [exact Hc|]. split; [exact Hn|]. split; [exact Hall|].
  split; [reflexivity|]. split; [exact Hk|]. split; [|repeat split].
  cbn [Legacy.ip]. destruct Hm as [->|[name [address [Hf [Hmatch ->]]]]];
    [now left|].
  right. exists name, address. now repeat split.
Qed.

Lemma X24_first_plugin_get_state_stores_first_addresses_witness :
  exists s' ips,
    Legacy.get_state legacy_client legacy_state = inr (true, s')
    /\ Legacy.networks s' = Some ips
    /\ Forall complete_nic (so_guest_net legacy_server).
Proof.
  assert (H : exists s', Legacy.get_state legacy_client legacy_state = inr (true, s'))
    by (eexists; vm_compute; reflexivity).
  destruct H as [s' H].
  destruct (X24_first_plugin_get_state_stores_first_addresses legacy_client
              legacy_state s' H)
    as [server [connected [management [rest [ips [Hs [_ [_ [Hall [Hn _]]]]]]]]]].
  injection Hs as <-.
  exists s', ips. now repeat split.
Defined.

Lemma no_management_flag connected :
  Forall (fun network => flagged "management" network = false) connected ->
  names_flagged "management" connected = inr [].
Proof.
  induction 1 as [|network connected Hn _ IH]; cbn [names_flagged]; [reflexivity|].
  now rewrite Hn.
Qed.

(** X25: the management network of the first plugin's [get_state].  For a
    running server on a node none of whose connected networks is flagged
    [management], the operation raises IndexError.  When the name of the first
    management network is a string with a capital letter, no guest interface
    matches it: whenever the operation returns True, [ip] is None. *)
Theorem X25_first_plugin_management_network_must_be_lower_case
    (client : Legacy.client) (s : Legacy.state) :
  (forall connected,
     Legacy.is_server_guest_running client (Legacy.get_server_by_context client s)
     = inr true ->
     Legacy.connected_networks s = Some connected ->
     Forall (fun network => flagged "management" network = false) connected ->
     Legacy.get_state client s = inl Legacy.IndexError)
  /\ (forall s' connected management rest,
        Legacy.get_state client s = inr (true, s') ->
        Legacy.connected_networks s = Some connected ->
        names_flagged "management" connected = inr (PStr management :: rest) ->
        lower management <> management ->
        Legacy.ip s' = Some None).
Proof.
  split.
  - intros connected Hrun Hc Hflag. unfold Legacy.get_state. cbv zeta.
    now rewrite Hrun, Hc, (no_management_flag _ Hflag).
  - intros s' connected management rest H Hc Hn Hcap.
    destruct (legacy_get_state_true client s s' H)
      as [server [connected' [management' [rest' [mip [ips [_ [Hc' [Hn' [Hl ->]]]]]]]]]].
    rewrite Hc in Hc'. injection Hc' as <-. rewrite Hn in Hn'. injection Hn' as <- <-.
    destruct (note_guest_nics_returns _ _ _ _ _ _ Hl)
      as [_ [[->|[name [address [_ [Hmatch _]]]]] _]]; [reflexivity|].
    now rewrite (capital_never_matches _ name Hcap) in Hmatch.
Qed.

Lemma X25_first_plugin_management_network_must_be_lower_case_witness :
  exists s',
    Legacy.get_state legacy_client legacy_state = inr (true, s')
    /\ Legacy.ip s' = Some None.
Proof.
  assert (H : exists s', Legacy.get_state legacy_client legacy_state = inr (true, s'))
    by (eexists; vm_compute; reflexivity).
  destruct H as [s' H].
  assert (Hcap : lower "Management" <> "Management") by discriminate.
  exists s'. split; [exact H|].
  exact (proj2 (X25_first_plugin_management_network_must_be_lower_case legacy_client
                  legacy_state)
           s' _ "Management" [] H eq_refl eq_refl Hcap).
Defined.

(** ** The first plugin: power and size *)

(** X26: the first plugin looks the server up by the persisted id whenever
    there is one, and never by name then.  With an id under which nothing is
    found, [stop], [delete] and [shutdown_guest] raise RuntimeError and
    [resize] raises NonRecoverableError, each naming the node.  Whenever
    [stop], [delete] or [shutdown_guest] returns, the server was found and the
    state is the one the operation started from; whenever [resize] returns, a
    size was persisted and only the log has grown. *)
Theorem X26_first_plugin_operations_need_the_server
    (client : Legacy.client) (s : Legacy.state) :
  (forall id,
     Legacy.vsphere_server_id s = Some id ->
     Legacy.get_server_by_id client id = None ->
     Legacy.stop client s
     = inl (Legacy.RuntimeError
              (Msg "Cannot stop server - server doesn't exist for node: {0}"
                   [AStr (Legacy.node_id s)]))
     /\ Legacy.delete client s
        = inl (Legacy.RuntimeError
                 (Msg "Cannot delete server - server doesn't exist for node: {0}"
                      [AStr (Legacy.node_id s)]))
     /\ Legacy.shutdown_guest client s
        = inl (Legacy.RuntimeError
                 (Msg "Cannot shutdown server guest - server doesn't exist for node: {0}"
                      [AStr (Legacy.node_id s)]))
     /\ Legacy.resize client s
        = inl (Legacy.Other
                 (NonRecoverableError
                    [Msg "Cannot resize server - server doesn't exist for node: {0}"
                         [AStr (Legacy.node_id s)]])))
  /\ (forall s',
        Legacy.stop client s = inr s'
        \/ Legacy.delete client s = inr s'
        \/ Legacy.shutdown_guest client s = inr s' ->
        s' = s /\ Legacy.get_server_by_context client s <> None)
  /\ (forall s',
        Legacy.resize client s = inr s' ->
        int_truthy (Legacy.cpus s) || int_truthy (Legacy.memory s) = true
        /\ Legacy.get_server_by_context client s <> None
        /\ Legacy.vsphere_server_id s' = Legacy.vsphere_server_id s
        /\ Legacy.cpus s' = Legacy.cpus s
        /\ Legacy.memory s' = Legacy.memory s
        /\ Legacy.networks s' = Legacy.networks s
        /\ Legacy.ip s' = Legacy.ip s
        /\ exists lines, Legacy.logger s' = (Legacy.logger s ++ lines)%list).
Proof.
  split; [|split].
  - intros id Hid Hnone.
    unfold Legacy.stop, Legacy.delete, Legacy.shutdown_guest, Legacy.resize,
      Legacy.get_server_by_context. cbn [Legacy.vsphere_server_id Legacy.node_id].
    rewrite Hid, Hnone. repeat split.
  - intros s' H.
    unfold Legacy.stop, Legacy.delete, Legacy.shutdown_guest in H.
    destruct (Legacy.get_server_by_context client s) as [server|].
    + destruct (Legacy.stop_server client server),
        (Legacy.delete_server client server),
        (Legacy.shutdown_server_guest client server);
        destruct H as [H|[H|H]]; try discriminate;
        injection H as <-; split; (reflexivity || discriminate).
    + destruct H as [H|[H|H]]; discriminate.
  - intros s' H. unfold Legacy.resize in H. cbv zeta in H.
    change (Legacy.get_server_by_context client
              (Legacy.State (Legacy.node_id s) (Legacy.connected_networks s)
                 (Legacy.vsphere_server_id s) (Legacy.cpus s) (Legacy.memory s)
                 (Legacy.networks s) (Legacy.ip s)
                 (Legacy.logger s ++ [(info, Msg "Resizing server" [])])))
      with (Legacy.get_server_by_context client s) in H.
    destruct (Legacy.get_server_by_context client s) as [server|]; [|discriminate].
    cbn [Legacy.cpus Legacy.memory] in H.
    destruct (int_truthy (Legacy.cpus s) || int_truthy (Legacy.memory s));
      [|discriminate].
    destruct (Legacy.resize_server client server (Legacy.cpus s) (Legacy.memory s));
      [discriminate|].
    injection H as <-. cbn.
    split; [reflexivity|]. split; [discriminate|]. repeat (split; [reflexivity|]).
    rewrite <- app_assoc. eexists; reflexivity.
Qed.

Lemma X26_first_plugin_operations_need_the_server_witness :
  Legacy.delete legacy_gone_client legacy_state
  = inl (Legacy.RuntimeError
           (Msg "Cannot delete server - server doesn't exist for node: {0}"
                [AStr "db"])).
Proof.
  exact (proj1 (proj2
    (proj1 (X26_first_plugin_operations_need_the_server legacy_gone_client
              legacy_state) "vm-7" eq_refl eq_refl))).
Defined.

(** ** The resource pool *)

(** X27: a resource pool can be adopted but not created.  [create] returns
    exactly when [use_external_resource] is set and a pool of that name
    exists, and then it has stored the id of that pool and nothing else;
    without [use_external_resource] it raises NonRecoverableError even if
    the pool exists.  [delete] never fails and never touches the platform
    or the stored id: it adds one line to the log. *)
Theorem X27_resource_pool_is_adopted_never_created
    (find_pool : string -> option string) (name : string)
    (use_external_resource : bool) (s : ResourcePool.state) :
  (forall s',
     ResourcePool.create find_pool name use_external_resource s = inr s'
     <-> use_external_resource = true
         /\ exists id,
              find_pool name = Some id
              /\ s' = ResourcePool.State (Some id) (ResourcePool.logger s))
  /\ (use_external_resource = false ->
      ResourcePool.create find_pool name use_external_resource s
      = inl (NonRecoverableError
               [Msg "Datastores cannot currently be created by this plugin." []]))
  /\ ResourcePool.resource_pool_id
       (ResourcePool.delete name use_external_resource s)
     = ResourcePool.resource_pool_id s
  /\ exists line,
       ResourcePool.logger (ResourcePool.delete name use_external_resource s)
       = (ResourcePool.logger s ++ [line])%list.
Proof.
  split; [|split; [|split]].
  - intros s'. unfold ResourcePool.create. cbv zeta.
    destruct use_external_resource.
    + destruct (find_pool name) as [id|]; split.
      * intros H. injection H as <-. split; [reflexivity|]. now exists id.
      * intros [_ [id' [H ->]]]. now injection H as <-.
      * discriminate.
      * intros [_ [id' [H _]]]. discriminate.
    + split; [discriminate|]. intros [H _]. discriminate.
  - intros ->. reflexivity.
  - unfold ResourcePool.delete. now destruct use_external_resource.
  - unfold ResourcePool.delete.
    destruct use_external_resource; eexists; reflexivity.
Qed.

Lemma X27_resource_pool_is_adopted_never_created_witness :
  ResourcePool.create (fun _ => Some "resgroup-8") "pool" true no_pool
  = inr (ResourcePool.State (Some "resgroup-8") []).
Proof.
  apply (proj1 (X27_resource_pool_is_adopted_never_created
                  (fun _ => Some "resgroup-8") "pool" true no_pool)).
  split; [reflexivity|]. now exists "resgroup-8".
Defined.

(** ** Polling keeps the persisted networks *)





(** ** Creating and starting *)

Lemma bind_inv {A B} (m : M A) (k : A -> M B) c b c' :
  bind m k c = Returns b c' ->
  exists a c1, m c = Returns a c1 /\ k a c1 = Returns b c'.
Proof.
  unfold bind. destruct (m c) as [a c1|e]; [|discriminate].
  intros H. now exists a, c1.
Qed.

Lemma bind_ext {A B} (m : M A) (k1 k2 : A -> M B) c :
  (forall a c', k1 a c' = k2 a c') -> bind m k1 c = bind m k2 c.
Proof. intros H. unfold bind. destruct (m c); [apply H|reflexivity]. Qed.

Lemma store_server_details_returns platform server_obj d c d' c' :
  store_server_details platform server_obj d c = Returns d' c' ->
  stored_server platform server_obj c' d'
  /\ _keys_for_remove d' = _keys_for_remove d.
Proof.
  unfold store_server_details. step. step.
  destruct (get_vm_networks platform server_obj) as [e|networks] eqn:En;
    [step; discriminate|].
  repeat step. unfold ret. intros H. injection H as <- <-.
  unfold stored_server, persisted_networks. cbn. rewrite En.
  repeat split; try reflexivity; discriminate.
Qed.

Lemma settle_returns platform server_obj custom_attributes minimal_vm_version
    max_wait_time d c d' c' :
  settle platform server_obj custom_attributes minimal_vm_version max_wait_time d c
  = Returns d' c' ->
  stored_server platform server_obj c' d'
  /\ (_keys_for_remove d' = None \/ _keys_for_remove d' = Some []).
Proof.
  unfold settle. intros H.
  apply bind_inv in H. destruct H as [[] [c1 [_ H]]].
  apply bind_inv in H. destruct H as [[] [c2 [_ H]]].
  apply bind_inv in H. destruct H as [d1 [c3 [Hk H]]].
  apply store_server_details_returns in H. destruct H as [Hs Hkeys].
  split; [exact Hs|]. rewrite Hkeys.
  destruct (_keys_for_remove d) as [[|key keys]|] eqn:Ek.
  - injection Hk as <- _. now right.
  - apply bind_inv in Hk. destruct Hk as [[] [c4 [_ Hk]]].
    apply bind_inv in Hk. destruct Hk as [[] [c5 [_ Hk]]].
    injection Hk as <- _. now left.
  - injection Hk as <- _. now left.
Qed.

Lemma empty_properties_spec server networking :
  ((server_len server =? 0)%nat
   || (if (0 <? server_len server)%nat
       then (server_len server =? 1)%nat
            && match srv_add_scale_suffix (server_values server) with
               | Some _ => true
               | None => false
               end
       else false))
  && networking_empty networking
  = empty_properties server networking.
Proof.
  unfold empty_properties. destruct (server_len server) as [|[|n]]; reflexivity.
Qed.

Lemma create_new_server_asks platform f server networking i os_family flag
    retry_number c :
  (forall request, cr_enable_start_vm request = flag ->
                   f request = create_server platform request) ->
  create_new_server (with_create_server f platform) server networking i os_family
    flag retry_number c
  = create_new_server platform server networking i os_family flag retry_number c.
Proof.
  intros Hf. unfold create_new_server.
  apply bind_ext; intros vm_name c1.
  apply bind_ext; intros [] c2.
  apply bind_ext; intros networks c3. cbv zeta.
  apply bind_ext; intros datacenter_name c4.
  apply bind_ext; intros resource_pool_name c5.
  cbn [cfg create_server with_create_server]. now rewrite Hf.
Qed.

(** X29: [create].  With no properties to go by (no [server] keys or only
    [add_scale_suffix], and an empty [networking]) it returns at once and
    touches nothing but the log.  Otherwise: without a name to adopt and
    without [template] and [clone_vm] it raises 'No template/clone_vm
    provided.'; every request it hands to [create_server] has
    [enable_start_vm] false, whatever the input says; and whenever it
    returns, the id, the name and the networks of one server object are
    persisted together with its host and datastores, and no device keys are
    left for removal. *)
Theorem X29_create_stores_the_server_and_never_powers_on
    (is_node_deprecated : M unit) (client : server_client) (platform : provisioner)
    (server : server_dict) (networking : networking_dict) (os_family : string)
    (i : inputs) (retry_number : Z) (d : details) (c : ctx) :
  (harmless is_node_deprecated ->
   empty_properties server networking = true ->
   exists lines,
     create is_node_deprecated client platform server networking os_family i
       retry_number d c = Returns d (logged c lines))
  /\ (harmless is_node_deprecated ->
      empty_properties server networking = false ->
      (use_external_resource i = false \/ srv_name (server_values server) = None) ->
      in_rest "template" (server_rest server) = false ->
      in_rest "clone_vm" (server_rest server) = false ->
      create is_node_deprecated client platform server networking os_family i
        retry_number d c
      = Raises (NonRecoverableError [Msg "No template/clone_vm provided." []]))
  /\ (forall f,
        (forall request, cr_enable_start_vm request = false ->
                         f request = create_server platform request) ->
        create is_node_deprecated client (with_create_server f platform) server
          networking os_family i retry_number d c
        = create is_node_deprecated client platform server networking os_family i
            retry_number d c)
  /\ (forall d' c',
        empty_properties server networking = false ->
        create is_node_deprecated client platform server networking os_family i
          retry_number d c = Returns d' c' ->
        exists server_obj,
          stored_server platform server_obj c' d'
          /\ (_keys_for_remove d' = None \/ _keys_for_remove d' = Some [])).
Proof.
  split; [|split; [|split]].
  - intros Hdep Hempty. unfold create. destruct (Hdep c) as [l1 E1].
    rewrite (bind_returns _ _ _ _ _ E1). cbv zeta.
    rewrite empty_properties_spec, Hempty.
    destruct (enable_start_vm i); repeat step; eexists; reflexivity.
  - intros Hdep Hempty Hname Ht Hc. unfold create. destruct (Hdep c) as [l1 E1].
    rewrite (bind_returns _ _ _ _ _ E1). cbv zeta.
    rewrite empty_properties_spec, Hempty.
    assert (Hadopt : (if use_external_resource i
                      then srv_name (server_values server) else None) = None).
    { destruct Hname as [-> | ->]; [reflexivity|].
      now destruct (use_external_resource i). }
    unfold look_for_server. rewrite Hadopt, Ht, Hc.
    destruct (enable_start_vm i); repeat step; reflexivity.
  - intros f Hf. unfold create.
    apply bind_ext; intros [] c1.
    apply bind_ext; intros [] c2. cbv zeta.
    rewrite empty_properties_spec.
    destruct (empty_properties server networking); [reflexivity|].
    apply bind_ext; intros found c3.
    destruct found as [server_obj|]; [reflexivity|].
    rewrite !bind_assoc. apply bind_ext; intros [] c4.
    unfold bind.
    rewrite (create_new_server_asks platform f server networking i os_family
               false retry_number c4 Hf).
    destruct (create_new_server platform server networking i os_family false
                retry_number c4); reflexivity.
  - intros d' c' Hempty H. unfold create in H.
    apply bind_inv in H. destruct H as [[] [c1 [_ H]]].
    apply bind_inv in H. destruct H as [[] [c2 [_ H]]].
    cbv zeta in H. rewrite empty_properties_spec, Hempty in H.
    apply bind_inv in H. destruct H as [found [c3 [_ H]]].
    apply bind_inv in H. destruct H as [server_obj [c4 [_ H]]].
    exists server_obj. exact (settle_returns _ _ _ _ _ _ _ _ _ H).
Qed.

Lemma X29_create_stores_the_server_and_never_powers_on_witness :
  exists d' c' server_obj,
    create (ret tt) gone_client willing_platform templated_server plain_networking
      "linux" power_on_inputs 0 pending_details plain_ctx = Returns d' c'
    /\ stored_server willing_platform server_obj c' d'.
Proof.
  assert (H : exists d' c',
             create (ret tt) gone_client willing_platform templated_server
               plain_networking "linux" power_on_inputs 0 pending_details plain_ctx
             = Returns d' c')
    by (eexists; eexists; unfold create; vm_compute; reflexivity).
  destruct H as [d' [c' H]].
  destruct (proj2 (proj2 (proj2
              (X29_create_stores_the_server_and_never_powers_on (ret tt) gone_client
                 willing_platform templated_server plain_networking "linux"
                 power_on_inputs 0 pending_details plain_ctx)))
              d' c' eq_refl H) as [server_obj [Hs _]].
  exists d', c', server_obj. split; [exact H|exact Hs].
Defined.

Lemma look_for_server_by_id client server os_family use_external c id :
  rp_vsphere_server_id (runtime c) = Some id ->
  (use_external = false \/ srv_name (server_values server) = None) ->
  in_rest "template" (server_rest server) || in_rest "clone_vm" (server_rest server)
  = true ->
  exists lines,
    look_for_server client server os_family use_external c
    = Returns (get_server_by_id client id) (logged c lines).
Proof.
  intros Hid Hname Hsrc. unfold look_for_server. step.
  assert (Hadopt : (if use_external then srv_name (server_values server) else None)
                   = None).
  { destruct Hname as [-> | ->]; [reflexivity|]. now destruct use_external. }
  rewrite Hadopt.
  replace (negb (in_rest "template" (server_rest server))
           && negb (in_rest "clone_vm" (server_rest server))) with false
    by (destruct (in_rest "template" (server_rest server)),
          (in_rest "clone_vm" (server_rest server)); (reflexivity || discriminate)).
  unfold get_server_by_context. step. step. cbn [runtime logged]. rewrite Hid.
  unfold ret. eexists; reflexivity.
Qed.

(** X30: [start] for a server that exists.  When a server id is persisted
    and found (and no server is to be adopted by name), [start] hands no
    request to [create_server]; it calls [update_server] first and raises
    what that raises; it powers the server on only if [enable_start_vm] is
    set, so without it the outcome does not depend on [start_server]; and
    whenever it returns, the id, name, networks, host and datastores of the
    server that was found are persisted and no device keys are left for
    removal. *)
Theorem X30_start_of_an_existing_server
    (is_node_deprecated : M unit) (client : server_client) (power : power_client)
    (platform : provisioner) (server : server_dict) (networking : networking_dict)
    (os_family : string) (i : inputs) (retry_number : Z) (d : details) (c : ctx)
    (id : string) (server_obj : server_obj) :
  harmless is_node_deprecated ->
  rp_vsphere_server_id (runtime c) = Some id ->
  get_server_by_id client id = Some server_obj ->
  (use_external_resource i = false \/ srv_name (server_values server) = None) ->
  in_rest "template" (server_rest server) || in_rest "clone_vm" (server_rest server)
  = true ->
  (forall f,
     start is_node_deprecated client power (with_create_server f platform) server
       networking os_family i retry_number d c
     = start is_node_deprecated client power platform server networking os_family i
         retry_number d c)
  /\ (forall e,
        update_server platform server_obj (cdrom_image i) (extra_config i)
          (max_wait_time i) = Some e ->
        start is_node_deprecated client power platform server networking os_family i
          retry_number d c = Raises e)
  /\ (enable_start_vm i = false ->
      forall power',
        start is_node_deprecated client power' platform server networking os_family
          i retry_number d c
        = start is_node_deprecated client power platform server networking os_family
            i retry_number d c)
  /\ (forall e,
        enable_start_vm i = true ->
        update_server platform server_obj (cdrom_image i) (extra_config i)
          (max_wait_time i) = None ->
        start_server power server_obj (max_wait_time i) = Some e ->
        start is_node_deprecated client power platform server networking os_family i
          retry_number d c = Raises e)
  /\ (forall d' c',
        start is_node_deprecated client power platform server networking os_family i
          retry_number d c = Returns d' c' ->
        stored_server platform server_obj c' d'
        /\ (_keys_for_remove d' = None \/ _keys_for_remove d' = Some [])).
Proof.
  intros Hdep Hid Hsrv Hname Hsrc.
  assert (Hgo : exists lines, forall power0 platform0,
               start is_node_deprecated client power0 platform0 server networking
                 os_family i retry_number d c
               = bind
                   (call (update_server platform0 server_obj (cdrom_image i)
                            (extra_config i) (max_wait_time i)) ;;
                    (if enable_start_vm i then
                       log info "Server already exists, powering on." [] ;;
                       call (start_server power0 server_obj (max_wait_time i)) ;;
                       log info "Server powered on." []
                     else
                       log info
                         ("Server already exists, but will not be powered"
                          ++ "on as enable_start_vm is set to false") []) ;;
                    ret server_obj)
                   (fun server_obj =>
                      settle platform0 server_obj (custom_attributes i)
                        (minimal_vm_version i) (Some (max_wait_time i)) d)
                   (logged c lines)).
  { destruct (Hdep c) as [l1 E1].
    destruct (look_for_server_by_id client server os_family (use_external_resource i)
                (logged c l1) id Hid Hname Hsrc) as [l2 E2].
    exists (l1 ++ l2)%list. intros power0 platform0. unfold start.
    rewrite (bind_returns _ _ _ _ _ E1).
    rewrite (bind_returns _ _ _ _ _ E2), Hsrv, logged_logged.
    reflexivity. }
  destruct Hgo as [lines Hgo].
  split; [|split; [|split; [|split]]].
  - intros f. rewrite !Hgo. reflexivity.
  - intros e He. rewrite Hgo, !bind_assoc.
    apply bind_raises. unfold call. now rewrite He.
  - intros Hoff power'. rewrite !Hgo, Hoff. reflexivity.
  - intros e Hon Hup Hpow. rewrite Hgo, Hon, !bind_assoc.
    rewrite (bind_call_none _ _ _ Hup). step.
    apply bind_raises. unfold call. now rewrite Hpow.
  - intros d' c' H. rewrite Hgo in H.
    apply bind_inv in H. destruct H as [so [c1 [Hso H]]].
    assert (so = server_obj) as ->.
    { apply bind_inv in Hso. destruct Hso as [[] [c2 [_ Hso]]].
      apply bind_inv in Hso. destruct Hso as [[] [c3 [_ Hso]]].
      now injection Hso as <- _. }
    exact (settle_returns _ _ _ _ _ _ _ _ _ H).
Qed.

Lemma X30_start_of_an_existing_server_witness :
  exists d' c',
    start (ret tt) present_client willing_power willing_platform templated_server
      plain_networking "linux" power_on_inputs 0 pending_details created_ctx
    = Returns d' c'
    /\ stored_server willing_platform sample_server c' d'.
Proof.
  assert (H : exists d' c',
             start (ret tt) present_client willing_power willing_platform
               templated_server plain_networking "linux" power_on_inputs 0
               pending_details created_ctx = Returns d' c')
    by (eexists; eexists; unfold start; vm_compute; reflexivity).
  destruct H as [d' [c' H]].
  assert (Hdep : harmless (ret tt)) by (intros c; exists []; now rewrite logged_nil).
  exists d', c'. split; [exact H|].
  exact (proj1 (proj2 (proj2 (proj2 (proj2
    (X30_start_of_an_existing_server (ret tt) present_client willing_power
       willing_platform templated_server plain_networking "linux" power_on_inputs 0
       pending_details created_ctx "vm-42" sample_server Hdep eq_refl eq_refl
       (or_introl eq_refl) eq_refl)))) d' c' H)).
Defined.
